(** * RevTrack: the product-analysis endpoint, its scraper adapter and its cache

    A shallow embedding of the TypeScript sources

    - [lib/scraper.ts]: [runPythonScript], [scrapeAmazonProduct],
      [analyzeReviews], [generatePriceHistory];
    - the analysis route: [POST];
    - the result cache behind [productCache], which the route imports from
      [@/lib/cache];

    followed by the properties the specification states about them.

    JavaScript values are embedded as they exist at run time: what the worker
    prints is parsed JSON, TypeScript's annotations are erased, and a method
    call such as [.replace] on a value that is no string throws a
    [TypeError], as does the conversion to a primitive of an object that
    has a property named [toString].  The properties range over these
    run-time objects.  The interface the code declares ([ProductData]) is
    embedded a second time, as a typed record with its injection into the
    run-time objects, so that a property can say that every snapshot of the
    interface is among those it is about.

    Numbers are IEEE 754 binary64 (Rocq's primitive [float]), arithmetic and
    comparisons are the kernel's.  The functions of the host (parseFloat,
    Math.round, the URL and JSON parsers, the clock, ...) are the fields of
    a [Runtime] record; every property is proved for an arbitrary runtime. *)

From Stdlib Require Import ZArith List String Ascii Bool Lia.
From Stdlib Require Import Floats.PrimFloat.
From Stdlib Require Import Floats.FloatClass Floats.SpecFloat Floats.FloatOps.
From Stdlib Require Import Floats.FloatAxioms.
From Stdlib Require Uint63.
From stdpp Require Import gmap strings pretty.

Set Warnings "-register-all".

Local Open Scope string_scope.
Local Open Scope Z_scope.

(** ** Exceptions and the computations that may throw *)

Inductive ExnKind : Type := KError | KTypeError | KSyntaxError.

(** A thrown [Error] object: its constructor and its [message]. *)
Record Exn : Type := mkExn { exn_kind : ExnKind; exn_message : string }.

Definition JsError (m : string) : Exn := mkExn KError m.
Definition JsTypeError (m : string) : Exn := mkExn KTypeError m.

Definition kind_name (k : ExnKind) : string :=
  match k with
  | KError => "Error"
  | KTypeError => "TypeError"
  | KSyntaxError => "SyntaxError"
  end.

(** [String(err)], as in ["..." + err]. *)
Definition exn_toString (e : Exn) : string :=
  kind_name (exn_kind e) ++ ": " ++ exn_message e.

(** The outcome of evaluating an expression, and of awaiting a promise:
    [Ok] is a value (a fulfilled promise), [Throw] an exception (a rejected
    one). *)
Inductive Err (A : Type) : Type :=
| Ok (a : A)
| Throw (e : Exn).
Arguments Ok {A} a.
Arguments Throw {A} e.

Definition ebind {A B : Type} (c : Err A) (k : A -> Err B) : Err B :=
  match c with
  | Ok a => k a
  | Throw e => Throw e
  end.

Notation "'do' x <- c ; k" := (ebind c (fun x => k))
  (at level 10, x name, c at level 100, k at level 200).

Fixpoint mapM {A B : Type} (f : A -> Err B) (l : list A) : Err (list B) :=
  match l with
  | [] => Ok []
  | a :: l' => do b <- f a; do bs <- mapM f l'; Ok (b :: bs)
  end.

Definition is_ok {A : Type} (c : Err A) : bool :=
  match c with Ok _ => true | Throw _ => false end.

(** ** JavaScript values *)

(** The values [JSON.parse] produces, and [undefined].  An object is the
    list of its own properties; its prototype is [Object.prototype], so the
    properties the code reads ([data], [title], [Stars], ...) are own
    properties or [undefined].  No value of JSON is a function: an own
    property named [toString] shadows the inherited method with something
    that cannot be called, and converting such an object to a primitive
    throws (see [ToString]). *)
Inductive JsVal : Type :=
| JUndefined
| JNull
| JBool (b : bool)
| JNum (n : float)
| JStr (s : string)
| JArr (items : list JsVal)
| JObj (props : list (string * JsVal)).

Definition is_nan (x : float) : bool := negb (PrimFloat.eqb x x).

(** [Boolean(n)] for a number: neither zero nor NaN. *)
Definition truthy_num (n : float) : bool :=
  negb (PrimFloat.eqb n 0%float) && negb (is_nan n).

Definition truthy (v : JsVal) : bool :=
  match v with
  | JUndefined | JNull => false
  | JBool b => b
  | JNum n => truthy_num n
  | JStr s => negb (String.eqb s "")
  | JArr _ | JObj _ => true
  end.

Definition nullish (v : JsVal) : bool :=
  match v with
  | JUndefined | JNull => true
  | _ => false
  end.

(** [v ?? d] *)
Definition coalesce (v d : JsVal) : JsVal := if nullish v then d else v.

(** [v === "s"] for a string literal. *)
Definition strict_eq_str (v : JsVal) (s : string) : bool :=
  match v with
  | JStr t => String.eqb t s
  | _ => false
  end.

Definition isArray (v : JsVal) : bool :=
  match v with JArr _ => true | _ => false end.

Definition array_items (v : JsVal) : list JsVal :=
  match v with JArr l => l | _ => [] end.

(** [Object.hasOwn(o, k)] for the object with the properties [ps]. *)
Definition has_own (k : string) (ps : list (string * JsVal)) : bool :=
  existsb (fun p => String.eqb k (fst p)) ps.

Fixpoint assoc (k : string) (ps : list (string * JsVal)) : JsVal :=
  match ps with
  | [] => JUndefined
  | (k', v) :: ps' => if String.eqb k k' then v else assoc k ps'
  end.

(** [v.k]: reading a property of [null] or [undefined] throws; a primitive
    or an array has none of the names the code reads. *)
Definition get_prop (v : JsVal) (k : string) : Err JsVal :=
  match v with
  | JUndefined =>
      Throw (JsTypeError ("Cannot read properties of undefined (reading '" ++ k ++ "')"))
  | JNull =>
      Throw (JsTypeError ("Cannot read properties of null (reading '" ++ k ++ "')"))
  | JObj ps => Ok (assoc k ps)
  | _ => Ok JUndefined
  end.

(** ** Strings *)

Definition nl : string := String (ascii_of_nat 10) "".

(** [s.includes(pat)], case-sensitive. *)
Fixpoint includes (s pat : string) : bool :=
  if String.prefix pat s then true
  else match s with
       | EmptyString => false
       | String _ s' => includes s' pat
       end.

Fixpoint filter_chars (p : ascii -> bool) (s : string) : string :=
  match s with
  | EmptyString => EmptyString
  | String c s' => if p c then String c (filter_chars p s') else filter_chars p s'
  end.

Definition is_digit_or_dot (c : ascii) : bool :=
  let n := nat_of_ascii c in
  ((48 <=? n)%nat && (n <=? 57)%nat) || (n =? 46)%nat.

(** [s.replace(/[^0-9.]/g, '')].  Strings are sequences of UTF-8 bytes; a
    character outside ASCII has no byte in the range of the digits. *)
Definition strip_non_numeric (s : string) : string := filter_chars is_digit_or_dot s.

Definition is_currency_or_blank (c : ascii) : bool :=
  let n := nat_of_ascii c in
  (n =? 36)%nat || (n =? 44)%nat || (n =? 32)%nat
  || ((9 <=? n)%nat && (n <=? 13)%nat).

(** [s.replace(/[₹$,\s]/g, '')] on the ASCII part: the dollar sign, the
    comma and the blanks.  The rupee sign and the blanks outside ASCII are
    several bytes each and are deleted by the filter that follows it in
    [parseIndianPrice]. *)
Definition strip_currency (s : string) : string :=
  filter_chars (fun c => negb (is_currency_or_blank c)) s.

Fixpoint drop_chars (n : nat) (s : string) : string :=
  match n, s with
  | O, _ => s
  | S _, EmptyString => EmptyString
  | S n', String _ s' => drop_chars n' s'
  end.

(** [s.replace(pat, rep)] for a literal, non-empty pattern: the first
    occurrence only. *)
Fixpoint replace_first (pat rep s : string) : string :=
  if String.prefix pat s then rep ++ drop_chars (String.length pat) s
  else match s with
       | EmptyString => EmptyString
       | String c s' => String c (replace_first pat rep s')
       end.

(** A line terminator, which [.] does not match: LF, CR, U+2028, U+2029. *)
Definition has_line_terminator (s : string) : bool :=
  includes s nl
  || includes s (String (ascii_of_nat 13) "")
  || includes s (String (ascii_of_nat 226) (String (ascii_of_nat 128) (String (ascii_of_nat 168) "")))
  || includes s (String (ascii_of_nat 226) (String (ascii_of_nat 128) (String (ascii_of_nat 169) ""))).

(** [s.replace(/\?.*$/, '')]: cut at the first question mark that is not
    followed by a line terminator. *)
Fixpoint strip_query (s : string) : string :=
  match s with
  | EmptyString => EmptyString
  | String c s' =>
      if (nat_of_ascii c =? 63)%nat && negb (has_line_terminator s') then EmptyString
      else String c (strip_query s')
  end.

(** ** Numbers *)

Definition float_of_nat (n : nat) : float :=
  PrimFloat.of_uint63 (Uint63.of_Z (Z.of_nat n)).

(** [Math.max(a, b)] and [Math.min(a, b)]: NaN is contagious, and the
    zeros are ordered by their sign. *)
Definition js_max (a b : float) : float :=
  if is_nan a || is_nan b then PrimFloat.nan
  else if PrimFloat.ltb a b then b
  else if PrimFloat.ltb b a then a
  else match PrimFloat.classify a with
       | NZero => b
       | _ => a
       end.

Definition js_min (a b : float) : float :=
  if is_nan a || is_nan b then PrimFloat.nan
  else if PrimFloat.ltb a b then a
  else if PrimFloat.ltb b a then b
  else match PrimFloat.classify a with
       | PZero => b
       | _ => a
       end.

(** [Math.max(...l)] and [Math.min(...l)]. *)
Definition js_max_list (l : list float) : float := fold_left js_max l PrimFloat.neg_infinity.
Definition js_min_list (l : list float) : float := fold_left js_min l PrimFloat.infinity.

(** [a >= b], [a > b], [a <= b] on numbers: false as soon as one is NaN. *)
Definition geb (a b : float) : bool := PrimFloat.leb b a.
Definition gtb (a b : float) : bool := PrimFloat.ltb b a.

(** ** The host *)

(** The functions of the JavaScript runtime the sources call.  They are
    total, as the built-ins are on the arguments they get here: every one
    of them is applied to a string or to a number. *)
Record Runtime : Type := mkRuntime {
  (** [parseFloat(s)] *)
  rt_parseFloat : string -> float;
  (** [parseInt(s)] *)
  rt_parseInt : string -> float;
  (** [String(n)] of a number, also inside a template literal *)
  rt_numToString : float -> string;
  (** [Number(s)] of a string *)
  rt_strToNum : string -> float;
  (** [Math.round(x)] *)
  rt_round : float -> float;
  (** [s.toLowerCase()] *)
  rt_toLowerCase : string -> string;
  (** [new URL(s).hostname], [None] when the constructor throws *)
  rt_URL_hostname : string -> option string;
  (** [JSON.parse(s)], throwing a [SyntaxError] *)
  rt_JSON_parse : string -> Err JsVal;
  (** [new Date(t).toISOString()] for [t] milliseconds since the epoch *)
  rt_toISOString : Z -> string;
  (** the calendar date, [i] months before [t]:
      [d.setMonth(d.getMonth() - i); d.toISOString().split("T")[0]] *)
  rt_dateMonthsBefore : Z -> Z -> string
}.

(** What one run of the Python worker does, as [runPythonScript] sees it:
    the first event that settles the promise of the attempt. *)
Inductive ProcRun : Type :=
| Closed (code : option Z) (stdout stderr : string)
    (** ['close'] with the exit code ([None]: killed by a signal) *)
| TimedOut
    (** the 60 s timer fired first: the process is killed *)
| SpawnError (message : string)
    (** ['error']: the process could not be started *).

(** The surroundings of one request: what each attempt of each worker
    does, the clock, and the random numbers. *)
Record World : Type := mkWorld {
  (** script, argument, attempt (from 0) *)
  worker : string -> string -> nat -> ProcRun;
  (** [Date.now()] when the request arrives *)
  now_request : Z;
  (** [Date.now()] when the result is assembled and stored *)
  now_response : Z;
  (** the successive values of [Math.random()] *)
  random : nat -> float
}.

(** What the adapter does to the outside, in order: it starts a worker
    ([spawn(pythonPath, [script, arg])]), and it calls [sleep(ms)]. *)
Inductive Event : Type :=
| EvSpawn (script arg : string) (attempt : nat)
| EvSleep (ms : Z).

(** ** Product data and reviews *)

(** [interface ProductData] of the scraper, as declared. *)
Record ProductData : Type := mkProductData {
  title : string;
  price : string;
  original_price : option string;
  discount_percentage : option string;
  rating : float;
  reviewCount : float;
  availability : string;
  images : list string;
  description : string;
  features : list string;
  asin : string
}.

(** The object [scrapeAmazonProduct] builds.  [data] is [any]: a field
    filled by [data.f ?? d] holds whatever the payload held there. *)
Record ProductObj : Type := mkProductObj {
  o_asin : JsVal;
  o_title : JsVal;
  o_price : JsVal;
  o_original_price : JsVal;
  o_discount_percentage : JsVal;
  o_rating : float;
  o_reviewCount : float;
  o_availability : JsVal;
  o_features : list JsVal;
  o_description : JsVal;
  o_images : list JsVal
}.

Definition js_of_option (o : option string) : JsVal :=
  match o with
  | Some s => JStr s
  | None => JNull
  end.

(** A [ProductData] as the object it is at run time. *)
Definition obj_of_ProductData (p : ProductData) : ProductObj :=
  {| o_asin := JStr (asin p);
     o_title := JStr (title p);
     o_price := JStr (price p);
     o_original_price := js_of_option (original_price p);
     o_discount_percentage := js_of_option (discount_percentage p);
     o_rating := rating p;
     o_reviewCount := reviewCount p;
     o_availability := JStr (availability p);
     o_features := map JStr (features p);
     o_description := JStr (description p);
     o_images := map JStr (images p) |}.

(** A review as the specification's data model has it: the text and the
    star rating, both strings (["4.0 out of 5 stars"]). *)
Record ReviewRecord : Type := mkReviewRecord {
  Description : string;
  Stars : string
}.

(** The object [analyzeReviews] builds for one element [r] of the payload:
    [{ Description: r.Description ?? "", Stars: r.Stars ?? "0" }]. *)
Record ReviewObj : Type := mkReviewObj {
  o_Description : JsVal;
  o_Stars : JsVal
}.

Definition obj_of_ReviewRecord (r : ReviewRecord) : ReviewObj :=
  {| o_Description := JStr (Description r); o_Stars := JStr (Stars r) |}.

Definition map_ok {A B : Type} (f : A -> B) (c : Err A) : Err B :=
  match c with
  | Ok a => Ok (f a)
  | Throw e => Throw e
  end.

(** ** The scraper adapter ([lib/scraper.ts]) *)

(** The retry budget is a count: [runPythonScript] is local to the module
    and is only called with the default. *)
Definition MAX_RETRIES : nat := 2.
Definition RETRY_DELAY : Z := 1000.
Definition PROCESS_TIMEOUT_MS : Z := 60000.

(** [RETRY_DELAY * Math.pow(2, attempt)], an integer that binary64 holds
    exactly. *)
Definition getRetryDelay (attempt : nat) : Z := RETRY_DELAY * 2 ^ Z.of_nat attempt.

(** The test on the diagnostic stream, lines 120-121. *)
Definition rate_limit_indicator (errorData : string) : bool :=
  includes errorData "429" || includes errorData "rate limit"
  || includes errorData "too many requests" || includes errorData "blocked".

Definition code_toString (code : option Z) : string :=
  match code with
  | Some z => pretty z
  | None => "null"
  end.

(** [`Python script failed with code ${code}\nstdout: ${data}\nstderr: ${errorData}`] *)
Definition errorMessage (code : option Z) (data errorData : string) : string :=
  "Python script failed with code " ++ code_toString code ++ nl
  ++ "stdout: " ++ data ++ nl ++ "stderr: " ++ errorData.

Definition timeout_message : string :=
  "Process timed out after " ++ pretty (PROCESS_TIMEOUT_MS / 1000) ++ " seconds".

Definition parse_failure (err : Exn) : Exn :=
  JsError ("Failed to parse Python script output: " ++ exn_toString err).

Definition exit_ok (code : option Z) : bool :=
  match code with
  | Some z => z =? 0
  | None => false
  end.

Section Model.

Variable rt : Runtime.

(** What [OrdinaryToPrimitive] throws when neither [toString] nor [valueOf]
    gives a primitive. *)
Definition not_primitive : Exn := JsTypeError "Cannot convert object to primitive value".

(** [String(v)], [`${v}`], and the conversion of the argument of
    [parseInt].  An object is converted by its [toString]: the inherited
    one gives "[object Object]"; an own property of that name is no
    function, the inherited [valueOf] returns the object itself, and the
    conversion throws.  An array is converted by [join], which converts
    its elements in turn, [null] to the empty string. *)
Fixpoint ToString (v : JsVal) : Err string :=
  match v with
  | JUndefined => Ok "undefined"
  | JNull => Ok "null"
  | JBool b => Ok (if b then "true" else "false")
  | JNum n => Ok (rt_numToString rt n)
  | JStr s => Ok s
  | JArr l =>
      map_ok (String.concat ",")
        ((fix join (l : list JsVal) : Err (list string) :=
            match l with
            | [] => Ok []
            | x :: l' =>
                do s <- (if nullish x then Ok "" else ToString x);
                do ss <- join l';
                Ok (s :: ss)
            end) l)
  | JObj ps => if has_own "toString" ps then Throw not_primitive else Ok "[object Object]"
  end.

(** [Number(v)]: an object or an array is first converted to a primitive,
    which for the values of JSON is its string (the inherited [valueOf]
    returns the object; an own [valueOf] is no function). *)
Definition ToNumber (v : JsVal) : Err float :=
  match v with
  | JUndefined => Ok PrimFloat.nan
  | JNull => Ok 0%float
  | JBool b => Ok (if b then 1%float else 0%float)
  | JNum n => Ok n
  | JStr s => Ok (rt_strToNum rt s)
  | JArr _ | JObj _ => map_ok (rt_strToNum rt) (ToString v)
  end.

(** [parseInt(v)] *)
Definition parseInt (v : JsVal) : Err float := map_ok (rt_parseInt rt) (ToString v).

(** The body of the ['close'] handler, lines 108-138, and of the timer and
    the ['error'] handler: how one attempt settles. *)
Definition attempt_outcome (r : ProcRun) : Err JsVal :=
  match r with
  | TimedOut => Throw (JsError timeout_message)
  | SpawnError m => Throw (JsError ("Failed to start Python process: " ++ m))
  | Closed code data errorData =>
      if negb (exit_ok code) then
        if rate_limit_indicator errorData then Throw (JsError "RATE_LIMITED")
        else Throw (JsError (errorMessage code data errorData))
      else
        match (do parsed <- rt_JSON_parse rt data;
               do d <- get_prop parsed "data";
               Ok (coalesce d (coalesce parsed (JObj []))))
        with
        | Ok v => Ok v
        | Throw err => Throw (parse_failure err)
        end
  end.

Variable w : World.

(** [throw lastError || new Error(...)], line 170 *)
Definition throw_last (lastError : option Exn) (scriptPath : string) : Err JsVal :=
  match lastError with
  | Some e => Throw e
  | None => Throw (JsError ("All retry attempts failed for " ++ scriptPath))
  end.

(** The loop of lines 83-167 with [remaining] iterations to go, the next
    one being number [attempt]. *)
Fixpoint attempts (scriptPath arg : string) (maxRetries remaining attempt : nat)
    (lastError : option Exn) : list Event * Err JsVal :=
  match remaining with
  | O => ([], throw_last lastError scriptPath)
  | S remaining' =>
      match attempt_outcome (worker w scriptPath arg attempt) with
      | Ok v => ([EvSpawn scriptPath arg attempt], Ok v)
      | Throw error =>
          if (attempt =? maxRetries)%nat then
            ([EvSpawn scriptPath arg attempt], throw_last (Some error) scriptPath)
          else
            let delay := getRetryDelay attempt in
            let '(tr, r) :=
              attempts scriptPath arg maxRetries remaining' (S attempt) (Some error) in
            if String.eqb (exn_message error) "RATE_LIMITED" then
              (EvSpawn scriptPath arg attempt :: EvSleep delay :: tr, r)
            else
              (EvSpawn scriptPath arg attempt :: EvSleep delay :: tr, r)
      end
  end.

Definition runPythonScript (scriptPath arg : string) (maxRetries : nat)
    : list Event * Err JsVal :=
  attempts scriptPath arg maxRetries (S maxRetries) 0 None.

(** The object literal of lines 176-188, its properties evaluated in the
    order they are written; [Number(...)] may throw. *)
Definition product_of_payload (data : JsVal) : Err ProductObj :=
  do d_asin <- get_prop data "asin";
  do d_title <- get_prop data "title";
  do d_price <- get_prop data "price";
  do d_original_price <- get_prop data "original_price";
  do d_discount_percentage <- get_prop data "discount_percentage";
  do d_rating <- get_prop data "rating";
  do rating <- ToNumber (coalesce d_rating (JNum 0%float));
  do d_reviewCount <- get_prop data "reviewCount";
  do reviewCount <- ToNumber (coalesce d_reviewCount (JNum 0%float));
  do d_availability <- get_prop data "availability";
  do d_features <- get_prop data "features";
  do d_description <- get_prop data "description";
  do d_images <- get_prop data "images";
  Ok {| o_asin := coalesce d_asin (JStr "N/A");
        o_title := coalesce d_title (JStr "N/A");
        o_price := coalesce d_price (JStr "N/A");
        o_original_price := coalesce d_original_price JNull;
        o_discount_percentage := coalesce d_discount_percentage JNull;
        o_rating := rating;
        o_reviewCount := reviewCount;
        o_availability := coalesce d_availability (JStr "N/A");
        o_features := if isArray d_features then array_items d_features else [];
        o_description := coalesce d_description (JStr "N/A");
        o_images := if isArray d_images then array_items d_images else [] |}.

Definition scrapeAmazonProduct (url : string) : list Event * Err ProductObj :=
  let '(tr, r) := runPythonScript "scripts/product.py" url MAX_RETRIES in
  (tr, do data <- r; product_of_payload data).

(** Lines 194-198. *)
Definition reviews_of_payload (data : JsVal) : Err (list ReviewObj) :=
  if negb (isArray data) then Ok []
  else mapM (fun r =>
               do d <- get_prop r "Description";
               do s <- get_prop r "Stars";
               Ok {| o_Description := coalesce d (JStr ""); o_Stars := coalesce s (JStr "0") |})
            (array_items data).

Definition analyzeReviews (url : string) : list Event * Err (list ReviewObj) :=
  let '(tr, r) := runPythonScript "scripts/script2.py" url MAX_RETRIES in
  (tr, do data <- r; reviews_of_payload data).

Record PricePoint : Type := mkPricePoint { pp_date : string; pp_price : float }.

(** One turn of the loop of lines 207-213: [i] months back from the time
    the result is assembled, with the [k]-th random number.
    [0x1.999999999999ap-1] is the binary64 value of the literal [0.8]. *)
Definition price_point (currentPrice : float) (k : nat) (i : Z) : PricePoint :=
  let variation := ((random w k - 0.5) * 10)%float in
  let p := js_max (currentPrice + variation)%float (currentPrice * 0x1.999999999999ap-1)%float in
  {| pp_date := rt_dateMonthsBefore rt (now_response w) i;
     pp_price := (rt_round rt (p * 100) / 100)%float |}.

Definition generatePriceHistory (currentPrice : float) : list PricePoint :=
  [ price_point currentPrice 0 3; price_point currentPrice 1 2;
    price_point currentPrice 2 1; price_point currentPrice 3 0 ].

End Model.

(** ** The result cache ([productCache]) *)

Record Sentiment : Type := mkSentiment {
  positive : float;
  neutral : float;
  negative : float
}.

Record PriceComparison : Type := mkPriceComparison {
  pc_current : JsVal;
  pc_lowest : float;
  pc_highest : float;
  pc_average : float;
  pc_trend : string
}.

Record PriceBlock : Type := mkPriceBlock {
  pb_current : JsVal;
  pb_original : JsVal;
  pb_discount : JsVal;
  pb_comparison : PriceComparison;
  pb_history : list PricePoint
}.

Record Analysis : Type := mkAnalysis {
  sentiment : Sentiment;
  keyInsights : list string;
  pros : list string;
  cons : list string;
  a_reviewCount : nat
}.

(** The [result] object of lines 272-301, which is also what the cache
    stores. *)
Record Result : Type := mkResult {
  r_title : JsVal;
  r_productUrl : string;
  r_asin : JsVal;
  r_price : PriceBlock;
  r_rating_average : float;
  r_rating_count : float;
  r_availability : JsVal;
  r_images : list JsVal;
  r_features : list JsVal;
  r_description : JsVal;
  r_reviews : list ReviewObj;
  r_analysis : Analysis;
  r_lastUpdated : string;
  r_processingTime : Z
}.

(** Modelled from the spec: an entry of the cache of [@/lib/cache], "value:
    opaque result payload, storedAt: timestamp".  The payload is the
    [result] the handler stores. *)
Record CacheEntry : Type := mkCacheEntry {
  value : Result;
  storedAt : Z
}.

Abbreviation Cache := (gmap string CacheEntry).

(** Modelled from the spec: [productCache.get], of the module [@/lib/cache]
    that is not among the sources.  "[get] returns the stored value only if
    an entry exists for [key] and it has not expired", an entry being valid
    "iff [now - storedAt < TTL]"; a stale entry may stay in the map. *)
Definition cache_get (TTL now : Z) (key : string) (c : Cache) : option Result :=
  match c !! key with
  | Some e => if now - storedAt e <? TTL then Some (value e) else None
  | None => None
  end.

(** Modelled from the spec: [productCache.set], of the same module.  "[set]
    unconditionally inserts or overwrites the entry for [key], stamping the
    current time." *)
Definition cache_set (now : Z) (key : string) (v : Result) (c : Cache) : Cache :=
  <[key := {| value := v; storedAt := now |}]> c.

(** ** The analysis route ([POST]) *)

Inductive Response : Type :=
| JsonError (status : Z) (error : string) (details : option string)
    (** [NextResponse.json({ error, details }, { status })] *)
| JsonResult (body : Result) (cached : bool)
    (** [NextResponse.json(body)], status 200; [cached] is the [cached: true]
        the handler adds to a stored result *).

(** The receiver of a string method: [v.meth(...)] throws when [v] is
    [null] or [undefined], and when [v.meth] is no function, which is so
    for every JSON value but a string.  The messages are V8's. *)
Definition string_receiver (expr meth : string) (v : JsVal) : Err string :=
  match v with
  | JStr s => Ok s
  | JUndefined =>
      Throw (JsTypeError ("Cannot read properties of undefined (reading '" ++ meth ++ "')"))
  | JNull =>
      Throw (JsTypeError ("Cannot read properties of null (reading '" ++ meth ++ "')"))
  | _ => Throw (JsTypeError (expr ++ "." ++ meth ++ " is not a function"))
  end.

(** [v?.meth(...)]: [None] is the [undefined] of the short circuit. *)
Definition optional_receiver (expr meth : string) (v : JsVal) : Err (option string) :=
  if nullish v then Ok None else map_ok Some (string_receiver (expr ++ "?") meth v).

(** [x || d] where [x] is a string or [undefined]. *)
Definition or_default (x : option string) (d : string) : string :=
  match x with
  | Some s => if String.eqb s "" then d else s
  | None => d
  end.

Definition float_of_Z (z : Z) : float :=
  if z <? 0 then (- PrimFloat.of_uint63 (Uint63.of_Z (- z)))%float
  else PrimFloat.of_uint63 (Uint63.of_Z z).

(** [{ ...r, lastUpdated: stamp }] *)
Definition with_lastUpdated (r : Result) (stamp : string) : Result :=
  {| r_title := r_title r;
     r_productUrl := r_productUrl r;
     r_asin := r_asin r;
     r_price := r_price r;
     r_rating_average := r_rating_average r;
     r_rating_count := r_rating_count r;
     r_availability := r_availability r;
     r_images := r_images r;
     r_features := r_features r;
     r_description := r_description r;
     r_reviews := r_reviews r;
     r_analysis := r_analysis r;
     r_lastUpdated := stamp;
     r_processingTime := r_processingTime r |}.

Definition defaultSentiment : Sentiment :=
  {| positive := 60; neutral := 25; negative := 15 |}.

Section Route.

Variable rt : Runtime.
Variable w : World.
Variable TTL : Z.

(** Lines 23-31. *)
Definition isValidAmazonUrl (url : string) : bool :=
  match rt_URL_hostname rt url with
  | Some h =>
      let hostname := rt_toLowerCase rt h in
      includes hostname "amazon" || includes hostname "amzn"
  | None => false
  end.

(** Line 54. *)
Definition reviewsUrl_of (url : string) : string :=
  strip_query (replace_first "/dp/" "/product-reviews/" url)
  ++ "/ref=cm_cr_dp_d_show_all_btm?pageNumber=1&sortBy=recent".

(** Lines 82-90. *)
Definition parseIndianPrice (priceString : JsVal) : Err float :=
  if negb (truthy priceString) || strict_eq_str priceString "N/A" then Ok 1000%float
  else
    do s <- string_receiver "priceString" "replace" priceString;
    let cleanPrice := strip_currency s in
    let numericPrice := rt_parseFloat rt (strip_non_numeric cleanPrice) in
    Ok (if negb (is_nan numericPrice) && gtb numericPrice 0 then numericPrice
        else 1000%float).

(** [parseFloat(review.Stars?.replace(/[^0-9.]/g, '') || d)], lines 105,
    220, 243; [var] is the name of the callback's parameter. *)
Definition stars_number (var d : string) (review : ReviewObj) : Err float :=
  do s <- optional_receiver (var ++ ".Stars") "replace" (o_Stars review);
  Ok (rt_parseFloat rt (or_default (option_map strip_non_numeric s) d)).

Definition count_if (p : float -> bool) (l : list float) : Z :=
  Z.of_nat (length (List.filter p l)).

(** [Math.round((n / total) * 100)] *)
Definition percent (n total : Z) : float :=
  rt_round rt ((float_of_Z n / float_of_Z total) * 100)%float.

(** [parseFloat(String(x).replace(/[^0-9.]/g, '') || '0')] for a number
    [x], or for the string ['0'] that [x || '0'] puts in its place. *)
Definition rating_number (x : string) : float :=
  rt_parseFloat rt (or_default (Some (strip_non_numeric x)) "0").

(** Lines 96-146. *)
Definition sentimentAnalysis (productInfo : ProductObj) (reviews : list ReviewObj)
    : Err Sentiment :=
  if (0 <? length reviews)%nat then
    do ratings <- mapM (stars_number "review" "3") reviews;
    if (0 <? length ratings)%nat then
      let npositive := count_if (fun r => geb r 4) ratings in
      let nnegative := count_if (fun r => PrimFloat.leb r 2) ratings in
      let total := Z.of_nat (length ratings) in
      let nneutral := total - npositive - nnegative in
      Ok {| positive := percent npositive total;
            neutral := percent nneutral total;
            negative := percent nnegative total |}
    else Ok defaultSentiment
  else if truthy_num (o_rating productInfo) then
    let avgRating := rating_number (rt_numToString rt (o_rating productInfo)) in
    if geb avgRating 4 then
      Ok {| positive := rt_round rt (70 + (avgRating - 4) * 15);
            neutral := rt_round rt (20 - (avgRating - 4) * 5);
            negative := rt_round rt (10 - (avgRating - 4) * 5) |}
    else if geb avgRating 3 then
      Ok {| positive := rt_round rt (40 + (avgRating - 3) * 30);
            neutral := rt_round rt (35 - (avgRating - 3) * 5);
            negative := rt_round rt (25 - (avgRating - 3) * 10) |}
    else if gtb avgRating 0 then
      Ok {| positive := rt_round rt (15 + avgRating * 8);
            neutral := rt_round rt (20 + avgRating * 5);
            negative := rt_round rt (65 - avgRating * 13) |}
    else Ok defaultSentiment
  else Ok defaultSentiment.

(** Line 152: [parseFloat(String(productInfo.rating || '0').replace(...) || '0')] *)
Definition avgRating_of (productInfo : ProductObj) : float :=
  rating_number (if truthy_num (o_rating productInfo)
                 then rt_numToString rt (o_rating productInfo) else "0").

(** Lines 153-161. *)
Definition ratingInsight (avgRating : float) : list string :=
  if geb avgRating 4.5 then ["Highly rated product with excellent customer satisfaction"]
  else if geb avgRating 4 then ["Well-received product with strong customer ratings"]
  else if geb avgRating 3 then ["Product has mixed reviews from customers"]
  else if gtb avgRating 0 then ["Product has lower ratings, consider alternatives"]
  else [].

(** Lines 164-170. *)
Definition availabilityInsight (productInfo : ProductObj) : Err (list string) :=
  let a := o_availability productInfo in
  if truthy a && negb (strict_eq_str a "N/A") then
    do s <- string_receiver "productInfo.availability" "toLowerCase" a;
    if includes (rt_toLowerCase rt s) "in stock" then
      Ok ["Currently available for immediate purchase"]
    else
      do s' <- string_receiver "productInfo.availability" "toLowerCase" a;
      if includes (rt_toLowerCase rt s') "out of stock" then
        Ok ["Currently out of stock - check back later"]
      else Ok []
  else Ok [].

(** Lines 173-180. *)
Definition discountInsight (productInfo : ProductObj) : Err (list string) :=
  if truthy (o_discount_percentage productInfo) then
    do discount <- parseInt rt (o_discount_percentage productInfo);
    if geb discount 30 then
      Ok ["Great deal with " ++ rt_numToString rt discount
          ++ "% discount currently available"]
    else if geb discount 15 then
      Ok ["Moderate discount of " ++ rt_numToString rt discount ++ "% off regular price"]
    else Ok []
  else Ok [].

(** Lines 183-187. *)
Definition reviewCountInsight (productInfo : ProductObj) (reviews : list ReviewObj)
    : list string :=
  if (0 <? length reviews)%nat then
    ["Analysis based on " ++ pretty (length reviews) ++ " recent customer reviews"]
  else if truthy_num (o_reviewCount productInfo) && gtb (o_reviewCount productInfo) 0 then
    ["Product has " ++ rt_numToString rt (o_reviewCount productInfo)
     ++ " total customer reviews"]
  else [].

(** Lines 149-192. *)
Definition keyInsightsOf (productInfo : ProductObj) (reviews : list ReviewObj)
    : Err (list string) :=
  let i1 := ratingInsight (avgRating_of productInfo) in
  do i2 <- availabilityInsight productInfo;
  do i3 <- discountInsight productInfo;
  let i4 := reviewCountInsight productInfo reviews in
  let keyInsights := (i1 ++ i2 ++ i3 ++ i4)%list in
  if (length keyInsights =? 0)%nat then
    Ok ["Limited review data available for detailed analysis"]
  else Ok keyInsights.

(** [productInfo.availability?.toLowerCase().includes(pat)], lines 207, 237;
    the [undefined] of the short circuit counts as false. *)
Definition availability_includes (productInfo : ProductObj) (pat : string) : Err bool :=
  do s <- optional_receiver "productInfo.availability" "toLowerCase"
            (o_availability productInfo);
  Ok match s with
     | Some s => includes (rt_toLowerCase rt s) pat
     | None => false
     end.

(** [reviews.filter(r => cmp(parseFloat(...))).length / reviews.length >= bound],
    lines 218-226 and 241-249. *)
Definition review_share (cmp : float -> bool) (bound : float) (reviews : list ReviewObj)
    : Err bool :=
  if (0 <? length reviews)%nat then
    do stars <- mapM (stars_number "r" "0") reviews;
    Ok (geb (float_of_Z (count_if cmp stars) / float_of_Z (Z.of_nat (length reviews))) bound)
  else Ok false.

(** Lines 199-226; [0x1.6666666666666p-1] is the binary64 value of [0.7]. *)
Definition prosFound (productInfo : ProductObj) (reviews : list ReviewObj)
    : Err (list string) :=
  let avgRating := avgRating_of productInfo in
  let d := o_discount_percentage productInfo in
  let p1 := if geb avgRating 4
            then ["High customer rating of " ++ rt_numToString rt (o_rating productInfo)
                  ++ "/5.0"]
            else [] in
  do p2 <- (if truthy d then
              do discount <- parseInt rt d;
              if geb discount 15 then
                do text <- ToString rt d;
                Ok ["Currently " ++ text ++ "% off regular price"]
              else Ok []
            else Ok []);
  do inStock <- availability_includes productInfo "in stock";
  let p3 := if inStock then ["Available for immediate purchase"] else [] in
  let p4 := if truthy_num (o_reviewCount productInfo) && gtb (o_reviewCount productInfo) 0
            then
              let reviewCountNum := o_reviewCount productInfo in
              if negb (is_nan reviewCountNum) && gtb reviewCountNum 100
              then ["Trusted by " ++ rt_numToString rt (o_reviewCount productInfo)
                    ++ " customers"]
              else []
            else [] in
  do mostlyPositive <- review_share (fun s => geb s 4) 0x1.6666666666666p-1 reviews;
  let p5 := if mostlyPositive then ["Majority of recent reviews are positive"] else [] in
  Ok (p1 ++ p2 ++ p3 ++ p4 ++ p5)%list.

(** Lines 229-249; [0x1.999999999999ap-3] is the binary64 value of [0.2]. *)
Definition consFound (productInfo : ProductObj) (reviews : list ReviewObj)
    : Err (list string) :=
  let avgRating := avgRating_of productInfo in
  let d := o_discount_percentage productInfo in
  let c1 := if PrimFloat.ltb avgRating 4 && gtb avgRating 0
            then ["Mixed or lower customer ratings"] else [] in
  do c2 <- (if negb (truthy d) then Ok ["Limited or no discount currently available"]
            else
              do discount <- parseInt rt d;
              Ok (if PrimFloat.ltb discount 5
                  then ["Limited or no discount currently available"] else []));
  do outOfStock <- availability_includes productInfo "out of stock";
  let c3 := if outOfStock then ["Currently out of stock"] else [] in
  do someNegative <- review_share (fun s => PrimFloat.leb s 2) 0x1.999999999999ap-3 reviews;
  let c4 := if someNegative then ["Some customers report issues or dissatisfaction"]
            else [] in
  Ok (c1 ++ c2 ++ c3 ++ c4)%list.

(** Lines 252-257. *)
Definition prosDefault (productInfo : ProductObj) (pros : list string) : list string :=
  if (length pros =? 0)%nat then
    "Product available on Amazon marketplace"
    :: (if (0 <? length (o_features productInfo))%nat
        then ["Detailed product specifications available"] else [])
  else pros.

(** Lines 259-261. *)
Definition consDefault (cons : list string) : list string :=
  if (length cons =? 0)%nat
  then ["Limited recent review data for comprehensive analysis"]
  else cons.

(** The derived fields, lines 96-261, in the order the handler computes
    them. *)
Definition deriveAnalysis (productInfo : ProductObj) (reviews : list ReviewObj)
    : Err Analysis :=
  do sentimentAnalysis <- sentimentAnalysis productInfo reviews;
  do keyInsights <- keyInsightsOf productInfo reviews;
  do pros0 <- prosFound productInfo reviews;
  do cons0 <- consFound productInfo reviews;
  Ok {| sentiment := sentimentAnalysis;
        keyInsights := keyInsights;
        pros := prosDefault productInfo pros0;
        cons := consDefault cons0;
        a_reviewCount := length reviews |}.

Definition sum_floats (l : list float) : float :=
  fold_left (fun sum p => (sum + p)%float) l 0%float.

(** Lines 264-270.  The history has four entries; reading [.price] of a
    missing first or last entry would throw. *)
Definition priceComparisonOf (productInfo : ProductObj) (priceHistory : list PricePoint)
    : Err PriceComparison :=
  let prices := map pp_price priceHistory in
  match head prices, last prices with
  | Some first, Some final =>
      Ok {| pc_current := o_price productInfo;
            pc_lowest := js_min_list prices;
            pc_highest := js_max_list prices;
            pc_average := (sum_floats prices / float_of_nat (length priceHistory))%float;
            pc_trend := if gtb final first then "increasing" else "decreasing" |}
  | _, _ =>
      Throw (JsTypeError "Cannot read properties of undefined (reading 'price')")
  end.

(** The body of the inner [try] after the two fetches have settled and the
    primary has passed the test of line 62: lines 79-301. *)
Definition assemble (url : string) (productInfo : ProductObj) (reviews : list ReviewObj)
    : Err Result :=
  do currentPrice <- parseIndianPrice (o_price productInfo);
  let priceHistory := generatePriceHistory rt w currentPrice in
  do a <- deriveAnalysis productInfo reviews;
  do priceComparison <- priceComparisonOf productInfo priceHistory;
  do discount <- (if truthy (o_discount_percentage productInfo)
                  then map_ok (fun text => JStr (text ++ "%"))
                         (ToString rt (o_discount_percentage productInfo))
                  else Ok JNull);
  Ok {| r_title := o_title productInfo;
        r_productUrl := url;
        r_asin := o_asin productInfo;
        r_price :=
          {| pb_current := o_price productInfo;
             pb_original := o_original_price productInfo;
             pb_discount := discount;
             pb_comparison := priceComparison;
             pb_history := priceHistory |};
        r_rating_average := o_rating productInfo;
        r_rating_count := o_reviewCount productInfo;
        r_availability := o_availability productInfo;
        r_images := o_images productInfo;
        r_features := o_features productInfo;
        r_description := o_description productInfo;
        r_reviews := firstn 25 reviews;
        r_analysis := a;
        r_lastUpdated := rt_toISOString rt (now_response w);
        r_processingTime := now_response w - now_request w |}.

(** The [catch] of lines 310-331. *)
Definition analysis_failed (error : Exn) : Response :=
  if includes (exn_message error) "rate limit" || includes (exn_message error) "429" then
    JsonError 429 "Rate limit exceeded"
      (Some "Please wait a few minutes before analyzing another product")
  else if includes (exn_message error) "timeout" then
    JsonError 408 "Analysis timeout"
      (Some "The analysis is taking too long. Please try again.")
  else JsonError 500 "Analysis failed" (Some (exn_message error)).

(** The answer of lines 64-67. *)
Definition unable_to_extract : Response :=
  JsonError 400 "Unable to extract product information"
    (Some "The product page may be protected or temporarily unavailable. Please try again in a few minutes.").

(** The test of line 62 on the settled primary fetch.  A fulfilled
    [scrapeAmazonProduct] holds an object, so [!productData.value] is false
    and what is left is the test of the title. *)
Definition primary_unusable (productData : Err ProductObj) : bool :=
  match productData with
  | Throw _ => true
  | Ok v => negb (truthy (o_title v)) || strict_eq_str (o_title v) "N/A"
  end.

(** Lines 71-77: [Promise.allSettled] never rejects, and a rejected
    secondary fetch leaves [reviews] empty.  A fulfilled [analyzeReviews]
    holds an array. *)
Definition reviews_of_settled (reviewsData : Err (list ReviewObj)) : list ReviewObj :=
  match reviewsData with
  | Ok l => l
  | Throw _ => []
  end.

(** Lines 61-331, once both fetches have settled. *)
Definition respond_miss (url : string) (c : Cache)
    (productData : Err ProductObj) (reviewsData : Err (list ReviewObj))
    : Response * Cache :=
  match productData with
  | Throw _ => (unable_to_extract, c)
  | Ok productInfo =>
      if primary_unusable productData then (unable_to_extract, c)
      else
        let reviews := reviews_of_settled reviewsData in
        match assemble url productInfo reviews with
        | Ok result => (JsonResult result false, cache_set (now_response w) url result c)
        | Throw error => (analysis_failed error, c)
        end
  end.

(** Lines 9-331: the handler from the moment [url] is bound.  The two
    fetches run concurrently; their events are listed one fetch after the
    other. *)
Definition handle (url : JsVal) (c : Cache) : Response * Cache * list Event :=
  match url with
  | JStr u =>
      if negb (truthy url) then (JsonError 400 "Valid URL is required" None, c, [])
      else
        match rt_URL_hostname rt u with
        | None => (JsonError 400 "Invalid URL format" None, c, [])
        | Some _ =>
            if negb (isValidAmazonUrl u) then
              (JsonError 400 "Only Amazon URLs are supported" None, c, [])
            else
              match cache_get TTL (now_request w) u c with
              | Some cachedResult =>
                  (JsonResult
                     (with_lastUpdated cachedResult (rt_toISOString rt (now_request w)))
                     true, c, [])
              | None =>
                  let '(tr1, productData) := scrapeAmazonProduct rt w u in
                  let '(tr2, reviewsData) := analyzeReviews rt w (reviewsUrl_of u) in
                  let '(resp, c') := respond_miss u c productData reviewsData in
                  (resp, c', (tr1 ++ tr2)%list)
              end
        end
  | _ => (JsonError 400 "Valid URL is required" None, c, [])
  end.

(** [const { k } = v]: destructuring [null] or [undefined] throws.  The
    messages are V8's. *)
Definition destructure_prop (v : JsVal) (k : string) : Err JsVal :=
  match v with
  | JUndefined =>
      Throw (JsTypeError ("Cannot destructure property '" ++ k
                          ++ "' of '(intermediate value)' as it is undefined."))
  | JNull =>
      Throw (JsTypeError ("Cannot destructure property '" ++ k
                          ++ "' of '(intermediate value)' as it is null."))
  | _ => get_prop v k
  end.

(** Lines 5-8 and 333-339: [request.json()] may reject, and destructuring
    [null] throws; the outer [catch] answers both. *)
Definition POST (body : Err JsVal) (c : Cache) : Response * Cache * list Event :=
  match (do b <- body; destructure_prop b "url") with
  | Ok url => handle url c
  | Throw error =>
      (JsonError 500 "Failed to process request" (Some (exn_message error)), c, [])
  end.

End Route.

(** ** A reference runtime

    An executable instance of [Runtime], on which the model is run in the
    examples; no property depends on it.  Numbers are read and printed
    exactly: reading rounds the decimal to the nearest binary64 number,
    printing gives the shortest digits that read back.  It covers the
    inputs of the examples and not all of each built-in: numbers are read
    in decimal only (no [0x], [0o] or [0b] prefix), JSON texts have no
    [\u] escapes and every syntax error has one message, and a URL is
    split at its delimiters without checking or decoding the host name. *)

(** The binary64 number nearest to [n / d], for [0 <= n] and [0 < d]: the
    quotient is taken with 64 bits or more and a sticky bit, then rounded to
    nearest, ties to even. *)
Definition float_of_ratio (n d : Z) : float :=
  if n =? 0 then 0%float
  else
    let s := Z.max 0 (64 + Z.log2 d - Z.log2 n) in
    let q := (n * 2 ^ s) / d in
    let r := (n * 2 ^ s) mod d in
    SF2Prim (binary_normalize prec emax (2 * q + (if r =? 0 then 0 else 1)) (- s - 1) false).

Definition scaled (m e10 : Z) : float :=
  if 0 <=? e10 then float_of_ratio (m * 10 ^ e10) 1 else float_of_ratio m (10 ^ (- e10)).

Definition digit_of (c : ascii) : option Z :=
  let n := Z.of_nat (nat_of_ascii c) in
  if (48 <=? n) && (n <=? 57) then Some (n - 48) else None.

Fixpoint read_digits (s : string) (acc : Z) (cnt : nat) : Z * nat * string :=
  match s with
  | String c s' =>
      match digit_of c with
      | Some d => read_digits s' (10 * acc + d) (S cnt)
      | None => (acc, cnt, s)
      end
  | EmptyString => (acc, cnt, s)
  end.

Definition is_blank (c : ascii) : bool :=
  let n := nat_of_ascii c in
  (n =? 32)%nat || ((9 <=? n)%nat && (n <=? 13)%nat).

Fixpoint skip_blanks (s : string) : string :=
  match s with
  | String c s' => if is_blank c then skip_blanks s' else s
  | EmptyString => s
  end.

Definition read_sign (s : string) : bool * string :=
  match s with
  | String c s' =>
      if (nat_of_ascii c =? 45)%nat then (true, s')
      else if (nat_of_ascii c =? 43)%nat then (false, s')
      else (false, s)
  | EmptyString => (false, s)
  end.

Definition signed (neg : bool) (x : float) : float := if neg then (- x)%float else x.

(** [e], a sign and digits, if they follow. *)
Definition read_exponent (s : string) : Z * string :=
  match s with
  | String c s' =>
      if (nat_of_ascii c =? 101)%nat || (nat_of_ascii c =? 69)%nat then
        let '(neg, s'') := read_sign s' in
        let '(ex, n, rest) := read_digits s'' 0 0 in
        if (n =? 0)%nat then (0, s) else ((if neg then - ex else ex), rest)
      else (0, s)
  | EmptyString => (0, s)
  end.

(** An unsigned decimal literal at the head of [s], and what follows it. *)
Definition read_decimal (s : string) : option (float * string) :=
  let '(ip, ni, rest) := read_digits s 0 0 in
  let '(m, nf, rest') :=
    match rest with
    | String c r =>
        if (nat_of_ascii c =? 46)%nat then read_digits r ip 0 else (ip, 0%nat, rest)
    | EmptyString => (ip, 0%nat, rest)
    end in
  if (ni =? 0)%nat && (nf =? 0)%nat then None
  else
    let '(ex, rest'') := read_exponent rest' in
    Some (scaled m (ex - Z.of_nat nf), rest'').

Definition ref_parseFloat (s : string) : float :=
  let '(neg, s1) := read_sign (skip_blanks s) in
  if String.prefix "Infinity" s1 then signed neg PrimFloat.infinity
  else match read_decimal s1 with
       | Some (x, _) => signed neg x
       | None => PrimFloat.nan
       end.

(** [parseInt(s)] in base 10; a [0x] prefix is not read as hexadecimal. *)
Definition ref_parseInt (s : string) : float :=
  let '(neg, s1) := read_sign (skip_blanks s) in
  let '(v, n, _) := read_digits s1 0 0 in
  if (n =? 0)%nat then PrimFloat.nan else signed neg (float_of_ratio v 1).

(** [Number(s)] of a decimal literal, of [Infinity] and of the blank
    string. *)
Definition ref_strToNum (s : string) : float :=
  let s0 := skip_blanks s in
  if String.eqb s0 "" then 0%float
  else
    let '(neg, s1) := read_sign s0 in
    if String.prefix "Infinity" s1 then
      if String.eqb (skip_blanks (drop_chars 8 s1)) "" then signed neg PrimFloat.infinity
      else PrimFloat.nan
    else match read_decimal s1 with
         | Some (x, rest) => if String.eqb (skip_blanks rest) "" then signed neg x else PrimFloat.nan
         | None => PrimFloat.nan
         end.

(** [Math.round]: the integer nearest to [x], a half going up. *)
Definition ref_round (x : float) : float :=
  match Prim2SF x with
  | S754_finite s m e =>
      if 0 <=? e then x
      else
        let sm := if s then Z.neg m else Z.pos m in
        let n := (2 * sm + 2 ^ (- e)) / 2 ^ (1 - e) in
        if n =? 0 then (if s then PrimFloat.neg_zero else 0%float)
        else if n <? 0 then (- float_of_ratio (- n) 1)%float
        else float_of_ratio n 1
  | _ => x
  end.


(** *** Printing a number *)

Definition lt_pow10 (num den n : Z) : bool :=
  if 0 <=? n then num <? den * 10 ^ n else num * 10 ^ (- n) <? den.

Fixpoint magnitude_from (num den n : Z) (fuel : nat) : Z :=
  match fuel with
  | O => n
  | S fuel' => if lt_pow10 num den n then n else magnitude_from num den (n + 1) fuel'
  end.

(** The [n] with [10 ^ (n - 1) <= num / den < 10 ^ n]. *)
Definition magnitude (num den : Z) : Z :=
  let e2 := Z.log2 num - Z.log2 den - 1 in
  magnitude_from num den ((e2 * 30103) / 100000 - 1) 8.

Fixpoint strip_zeros_rev (ds : list ascii) : list ascii :=
  match ds with
  | c :: ds' => if (nat_of_ascii c =? 48)%nat then strip_zeros_rev ds' else ds
  | [] => []
  end.

(** The digits of [c] without the zeros at their end, and how many digits
    [c] had. *)
Definition significant_digits (c : Z) : string * Z :=
  let ds := list_ascii_of_string (pretty c) in
  (string_of_list_ascii (rev (strip_zeros_rev (rev ds))), Z.of_nat (length ds)).

(** With [k] digits: the one or two integers next to [x * 10 ^ (k - n)],
    those of them that read back as [x], the nearest first. *)
Definition shortest_at (x : float) (num den n k : Z) : option Z :=
  let '(tn, td) :=
    if 0 <=? k - n then (num * 10 ^ (k - n), den) else (num, den * 10 ^ (n - k)) in
  let lo := tn / td in
  let back c := PrimFloat.eqb (scaled c (n - k)) x in
  let twice := 2 * (tn - lo * td) in
  let lo_first := (twice <? td) || ((twice =? td) && Z.even lo) in
  match back lo, back (lo + 1) with
  | true, true => Some (if lo_first then lo else lo + 1)
  | true, false => Some lo
  | false, true => Some (lo + 1)
  | false, false => None
  end.

Fixpoint shortest_from (x : float) (num den n k : Z) (fuel : nat) : Z * Z :=
  match fuel with
  | O => (num * 10 ^ 17 / den, 17)
  | S fuel' =>
      match shortest_at x num den n k with
      | Some c => (c, k)
      | None => shortest_from x num den n (k + 1) fuel'
      end
  end.

Definition zeros (n : Z) : string := string_of_list_ascii (repeat "0"%char (Z.to_nat n)).

Definition take_chars (n : Z) (s : string) : string := String.substring 0 (Z.to_nat n) s.

(** The layout of Number::toString for the digits [ds] and the decimal
    exponent [n]. *)
Definition layout (ds : string) (n : Z) : string :=
  let k := Z.of_nat (String.length ds) in
  if (k <=? n) && (n <=? 21) then ds ++ zeros (n - k)
  else if (0 <? n) && (n <=? 21) then
    take_chars n ds ++ "." ++ drop_chars (Z.to_nat n) ds
  else if (-6 <? n) && (n <=? 0) then "0." ++ zeros (- n) ++ ds
  else
    let e := n - 1 in
    let ex := (if e <? 0 then "e-" else "e+") ++ pretty (Z.abs e) in
    if k =? 1 then ds ++ ex
    else take_chars 1 ds ++ "." ++ drop_chars 1 ds ++ ex.

(** [String(x)]: the shortest digits that read back as [x]. *)
Definition ref_numToString (x : float) : string :=
  match Prim2SF x with
  | S754_nan => "NaN"
  | S754_zero _ => "0"
  | S754_infinity s => if s then "-Infinity" else "Infinity"
  | S754_finite s m e =>
      let '(num, den) := if 0 <=? e then (Z.pos m * 2 ^ e, 1) else (Z.pos m, 2 ^ (- e)) in
      let n := magnitude num den in
      let '(c, k) := shortest_from (PrimFloat.abs x) num den n 1 17 in
      let '(ds, len) := significant_digits c in
      (if s then "-" else "") ++ layout ds (n + (len - k))
  end.


(** *** Strings, URLs, dates *)

Definition lower_ascii (c : ascii) : ascii :=
  let n := nat_of_ascii c in
  if (65 <=? n)%nat && (n <=? 90)%nat then ascii_of_nat (n + 32) else c.

Fixpoint ref_toLowerCase (s : string) : string :=
  match s with
  | String c s' => String (lower_ascii c) (ref_toLowerCase s')
  | EmptyString => EmptyString
  end.

Fixpoint take_until (stop : ascii -> bool) (s : string) : string * string :=
  match s with
  | String c s' =>
      if stop c then (EmptyString, s)
      else let '(a, b) := take_until stop s' in (String c a, b)
  | EmptyString => (EmptyString, EmptyString)
  end.

Definition is_char (n : nat) (c : ascii) : bool := (nat_of_ascii c =? n)%nat.

Definition is_scheme_char (c : ascii) : bool :=
  let n := nat_of_ascii (lower_ascii c) in
  ((97 <=? n)%nat && (n <=? 122)%nat) || ((48 <=? n)%nat && (n <=? 57)%nat)
  || (n =? 43)%nat || (n =? 45)%nat || (n =? 46)%nat.

Definition is_letter (c : ascii) : bool :=
  let n := nat_of_ascii (lower_ascii c) in (97 <=? n)%nat && (n <=? 122)%nat.

(** What is left of [s] after its last [@], or [s]. *)
Fixpoint after_last_at (s : string) : string :=
  match s with
  | String c s' => if is_char 64 c && negb (includes s' "@") then s'
                   else if includes s "@" then after_last_at s' else s
  | EmptyString => EmptyString
  end.

(** The schemes whose URLs always have a host; in them a backslash counts
    as a slash, and the slashes before the host may be missing. *)
Definition is_special_scheme (scheme : string) : bool :=
  let s := ref_toLowerCase scheme in
  String.eqb s "http" || String.eqb s "https" || String.eqb s "ftp"
  || String.eqb s "ws" || String.eqb s "wss".

Definition is_slash (c : ascii) : bool := is_char 47 c || is_char 92 c.

(** The host name of an absolute URL [scheme://user@host:port/...], in
    lower case; the empty host name of a URL with no authority
    ([mailto:...]); [None] without a scheme or with an empty host. *)
Definition ref_URL_hostname (s : string) : option string :=
  let '(scheme, rest) := take_until (fun c => negb (is_scheme_char c)) (skip_blanks s) in
  match scheme, rest with
  | String c0 _, String c rest1 =>
      if is_letter c0 && is_char 58 c then
        if is_special_scheme scheme then
          let '(_, rest2) := take_until (fun c => negb (is_slash c)) rest1 in
          let '(authority, _) :=
            take_until (fun c => is_slash c || is_char 63 c || is_char 35 c) rest2 in
          let '(host, _) := take_until (is_char 58) (after_last_at authority) in
          if String.eqb host "" then None else Some (ref_toLowerCase host)
        else if String.prefix "//" rest1 then
          let '(authority, _) :=
            take_until (fun c => is_char 47 c || is_char 63 c || is_char 35 c)
                       (drop_chars 2 rest1) in
          let '(host, _) := take_until (is_char 58) (after_last_at authority) in
          if String.eqb host "" then None else Some (ref_toLowerCase host)
        else Some ""
      else None
  | _, _ => None
  end.

Definition pad (width : nat) (z : Z) : string :=
  let s := pretty z in
  string_of_list_ascii (repeat "0"%char (width - String.length s)) ++ s.

(** Days since 1970-01-01 to year, month, day (proleptic Gregorian). *)
Definition civil_from_days (days : Z) : Z * Z * Z :=
  let z := days + 719468 in
  let era := z / 146097 in
  let doe := z - era * 146097 in
  let yoe := (doe - doe / 1460 + doe / 36524 - doe / 146096) / 365 in
  let doy := doe - (365 * yoe + yoe / 4 - yoe / 100) in
  let mp := (5 * doy + 2) / 153 in
  let d := doy - (153 * mp + 2) / 5 + 1 in
  let m := if mp <? 10 then mp + 3 else mp - 9 in
  let y := yoe + era * 400 + (if m <=? 2 then 1 else 0) in
  (y, m, d).

Definition days_from_civil (y m d : Z) : Z :=
  let y' := if m <=? 2 then y - 1 else y in
  let era := y' / 400 in
  let yoe := y' - era * 400 in
  let doy := (153 * (if 2 <? m then m - 3 else m + 9) + 2) / 5 + d - 1 in
  let doe := yoe * 365 + yoe / 4 - yoe / 100 + doy in
  era * 146097 + doe - 719468.

Definition ms_per_day : Z := 86400000.

Definition date_string (days : Z) : string :=
  let '(y, m, d) := civil_from_days days in
  pad 4 y ++ "-" ++ pad 2 m ++ "-" ++ pad 2 d.

(** [new Date(t).toISOString()], for the years 0 to 9999. *)
Definition ref_toISOString (t : Z) : string :=
  let ms := t mod ms_per_day in
  date_string (t / ms_per_day) ++ "T" ++ pad 2 (ms / 3600000) ++ ":"
  ++ pad 2 (ms / 60000 mod 60) ++ ":" ++ pad 2 (ms / 1000 mod 60) ++ "."
  ++ pad 3 (ms mod 1000) ++ "Z".

(** [setMonth(getMonth() - i)] and the date part of the ISO string, the
    local time zone being UTC: a day the earlier month does not have runs
    over into the next one. *)
Definition ref_dateMonthsBefore (t i : Z) : string :=
  let '(y, m, d) := civil_from_days (t / ms_per_day) in
  let months := y * 12 + (m - 1) - i in
  date_string (days_from_civil (months / 12) (months mod 12 + 1) 1 + (d - 1)).


(** *** JSON *)

Definition is_json_blank (c : ascii) : bool :=
  is_char 32 c || is_char 9 c || is_char 10 c || is_char 13 c.

Fixpoint skip_json_blanks (s : string) : string :=
  match s with
  | String c s' => if is_json_blank c then skip_json_blanks s' else s
  | EmptyString => s
  end.

Definition unescape (c : ascii) : option ascii :=
  let n := nat_of_ascii c in
  if (n =? 34)%nat || (n =? 92)%nat || (n =? 47)%nat then Some c
  else if (n =? 98)%nat then Some (ascii_of_nat 8)
  else if (n =? 102)%nat then Some (ascii_of_nat 12)
  else if (n =? 110)%nat then Some (ascii_of_nat 10)
  else if (n =? 114)%nat then Some (ascii_of_nat 13)
  else if (n =? 116)%nat then Some (ascii_of_nat 9)
  else None.

(** The characters of a string literal after its opening quote, and what
    follows the closing one. *)
Fixpoint read_string_body (s : string) : option (string * string) :=
  match s with
  | EmptyString => None
  | String c s' =>
      if is_char 34 c then Some (EmptyString, s')
      else if is_char 92 c then
        match s' with
        | String e s'' =>
            match unescape e, read_string_body s'' with
            | Some ch, Some (t, r) => Some (String ch t, r)
            | _, _ => None
            end
        | EmptyString => None
        end
      else if (nat_of_ascii c <? 32)%nat then None
      else match read_string_body s' with
           | Some (t, r) => Some (String c t, r)
           | None => None
           end
  end.

Definition read_json_number (s : string) : option (float * string) :=
  let '(neg, s1) :=
    match s with
    | String c s' => if is_char 45 c then (true, s') else (false, s)
    | EmptyString => (false, s)
    end in
  let '(ip, ni, rest) := read_digits s1 0 0 in
  if (ni =? 0)%nat || ((1 <? ni)%nat && String.prefix "0" s1) then None
  else
    let frac :=
      match rest with
      | String c r =>
          if is_char 46 c then
            let '(m, nf, rest') := read_digits r ip 0 in
            if (nf =? 0)%nat then None else Some (m, nf, rest')
          else Some (ip, 0%nat, rest)
      | EmptyString => Some (ip, 0%nat, rest)
      end in
    match frac with
    | Some (m, nf, rest') =>
        let '(ex, rest'') := read_exponent rest' in
        Some (signed neg (scaled m (ex - Z.of_nat nf)), rest'')
    | None => None
    end.

Fixpoint parse_value (fuel : nat) (s : string) : option (JsVal * string) :=
  match fuel with
  | O => None
  | S fuel' =>
      let s0 := skip_json_blanks s in
      match s0 with
      | EmptyString => None
      | String c s' =>
          if is_char 123 c then
            let s1 := skip_json_blanks s' in
            if String.prefix "}" s1 then Some (JObj [], drop_chars 1 s1)
            else match parse_members fuel' s1 with
                 | Some (ps, rest) => Some (JObj (rev ps), rest)
                 | None => None
                 end
          else if is_char 91 c then
            let s1 := skip_json_blanks s' in
            if String.prefix "]" s1 then Some (JArr [], drop_chars 1 s1)
            else match parse_elements fuel' s1 with
                 | Some (vs, rest) => Some (JArr vs, rest)
                 | None => None
                 end
          else if is_char 34 c then
            match read_string_body s' with
            | Some (t, r) => Some (JStr t, r)
            | None => None
            end
          else if String.prefix "null" s0 then Some (JNull, drop_chars 4 s0)
          else if String.prefix "true" s0 then Some (JBool true, drop_chars 4 s0)
          else if String.prefix "false" s0 then Some (JBool false, drop_chars 5 s0)
          else match read_json_number s0 with
               | Some (x, r) => Some (JNum x, r)
               | None => None
               end
      end
  end
with parse_elements (fuel : nat) (s : string) : option (list JsVal * string) :=
  match fuel with
  | O => None
  | S fuel' =>
      match parse_value fuel' s with
      | Some (v, rest) =>
          match skip_json_blanks rest with
          | String c r =>
              if is_char 44 c then
                match parse_elements fuel' r with
                | Some (vs, rest') => Some (v :: vs, rest')
                | None => None
                end
              else if is_char 93 c then Some ([v], r)
              else None
          | EmptyString => None
          end
      | None => None
      end
  end
with parse_members (fuel : nat) (s : string) : option (list (string * JsVal) * string) :=
  match fuel with
  | O => None
  | S fuel' =>
      match skip_json_blanks s with
      | String q s' =>
          if is_char 34 q then
            match read_string_body s' with
            | Some (k, r) =>
                match skip_json_blanks r with
                | String c r' =>
                    if is_char 58 c then
                      match parse_value fuel' r' with
                      | Some (v, rest) =>
                          match skip_json_blanks rest with
                          | String c' r'' =>
                              if is_char 44 c' then
                                match parse_members fuel' r'' with
                                | Some (ps, rest') => Some ((k, v) :: ps, rest')
                                | None => None
                                end
                              else if is_char 125 c' then Some ([(k, v)], r'')
                              else None
                          | EmptyString => None
                          end
                      | None => None
                      end
                    else None
                | EmptyString => None
                end
            | None => None
            end
          else None
      | EmptyString => None
      end
  end.

(** [JSON.parse] on the documents without [\u] escapes, with one message
    for every syntax error.  The properties of an object are kept last
    first, so that of two with one name the later one is found. *)
Definition ref_JSON_parse (s : string) : Err JsVal :=
  match parse_value (2 * String.length s + 2) s with
  | Some (v, rest) =>
      if String.eqb (skip_json_blanks rest) "" then Ok v
      else Throw (mkExn KSyntaxError "Unexpected non-whitespace character after JSON")
  | None => Throw (mkExn KSyntaxError "Unexpected token in JSON")
  end.

(** A JSON text written with single quotes in the place of the double
    ones. *)
Fixpoint json (s : string) : string :=
  match s with
  | String c s' => String (if is_char 39 c then ascii_of_nat 34 else c) (json s')
  | EmptyString => EmptyString
  end.

Definition refRuntime : Runtime :=
  {| rt_parseFloat := ref_parseFloat;
     rt_parseInt := ref_parseInt;
     rt_numToString := ref_numToString;
     rt_strToNum := ref_strToNum;
     rt_round := ref_round;
     rt_toLowerCase := ref_toLowerCase;
     rt_URL_hostname := ref_URL_hostname;
     rt_JSON_parse := ref_JSON_parse;
     rt_toISOString := ref_toISOString;
     rt_dateMonthsBefore := ref_dateMonthsBefore |}.

(** ** Sample surroundings *)

Definition sampleUrl : string := "https://www.amazon.in/dp/B0EXAMPLE?th=1".

Definition productJson : string :=
  json "{'success': true, 'data': {'title': 'Echo Dot (5th Gen)', 'price': '4,499.00', 'original_price': '5,499.00', 'discount_percentage': '18', 'rating': '4.5', 'reviewCount': 1234, 'availability': 'In stock', 'features': ['Alexa built in'], 'asin': 'B0EXAMPLE'}}".

Definition reviewsJson : string :=
  json "[{'Description': 'Great sound', 'Stars': '5.0 out of 5 stars'}, {'Description': 'Stopped working', 'Stars': '1.0 out of 5 stars'}, {'Description': 'Fine'}]".

Definition is_product_script (scriptPath : string) : bool :=
  String.eqb scriptPath "scripts/product.py".

(** Both workers succeed at once. *)
Definition sampleWorld : World :=
  {| worker := fun scriptPath _ _ =>
       if is_product_script scriptPath then Closed (Some 0) productJson ""
       else Closed (Some 0) reviewsJson "";
     now_request := 1793688000000;
     now_response := 1793688004200;
     random := fun _ => 0.5%float |}.

(** The product worker is turned away with a 429 at every attempt. *)
Definition rateLimitedWorld : World :=
  {| worker := fun scriptPath _ _ =>
       if is_product_script scriptPath
       then Closed (Some 1) "" "HTTP Error 429: Too Many Requests"
       else Closed (Some 0) reviewsJson "";
     now_request := 1793688000000;
     now_response := 1793688007500;
     random := fun _ => 0.5%float |}.

(** The product worker is blocked twice and succeeds at the third attempt;
    the reviews worker cannot be started. *)
Definition flakyWorld : World :=
  {| worker := fun scriptPath _ attempt =>
       if is_product_script scriptPath then
         if (attempt <? 2)%nat then Closed (Some 1) "" "request blocked"
         else Closed (Some 0) productJson ""
       else SpawnError "spawn python3 ENOENT";
     now_request := 1793688000000;
     now_response := 1793688007500;
     random := fun _ => 0.5%float |}.

(** The reviews worker prints the star ratings as numbers. *)
Definition numericStarsWorld : World :=
  {| worker := fun scriptPath _ _ =>
       if is_product_script scriptPath then Closed (Some 0) productJson ""
       else Closed (Some 0) (json "[{'Description': 'Good', 'Stars': 5}]") "";
     now_request := 1793688000000;
     now_response := 1793688004200;
     random := fun _ => 0.5%float |}.

(** The product worker prints the price as a number, and the reviews
    worker fails. *)
Definition numericPriceWorld : World :=
  {| worker := fun scriptPath _ _ =>
       if is_product_script scriptPath
       then Closed (Some 0) (json "{'title': 'Echo Dot', 'price': 4499}") ""
       else Closed (Some 2) "" "Traceback (most recent call last)";
     now_request := 1793688000000;
     now_response := 1793688004200;
     random := fun _ => 0.5%float |}.

(** The product worker prints a rating that is an object with a property
    named [toString]. *)
Definition shadowedRatingWorld : World :=
  {| worker := fun scriptPath _ _ =>
       if is_product_script scriptPath
       then Closed (Some 0) (json "{'title': 'Echo Dot', 'rating': {'toString': 0}}") ""
       else Closed (Some 0) reviewsJson "";
     now_request := 1793688000000;
     now_response := 1793688004200;
     random := fun _ => 0.5%float |}.

(** Thirty minutes, in milliseconds. *)
Definition sampleTTL : Z := 30 * 60 * 1000.

Definition sampleProduct : ProductData :=
  {| title := "Echo Dot (5th Gen)";
     price := "4,499.00";
     original_price := Some "5,499.00";
     discount_percentage := Some "18";
     rating := 4.5%float;
     reviewCount := 1234%float;
     availability := "In stock";
     images := [];
     description := "N/A";
     features := ["Alexa built in"];
     asin := "B0EXAMPLE" |}.

(** ** The vocabulary of the properties *)

Definition is_spawn (ev : Event) : bool :=
  match ev with
  | EvSpawn _ _ _ => true
  | EvSleep _ => false
  end.

(** How many worker processes a trace starts. *)
Definition spawn_count (tr : list Event) : nat := length (List.filter is_spawn tr).

(** Attempt [a] of a worker does not yield a payload. *)
Definition attempt_fails (rt : Runtime) (w : World) (scriptPath arg : string) (a : nat)
    : Prop :=
  is_ok (attempt_outcome rt (worker w scriptPath arg a)) = false.

Definition is_failure (r : Response) : bool :=
  match r with
  | JsonError _ _ _ => true
  | JsonResult _ _ => false
  end.

Definition status_of (r : Response) : Z :=
  match r with
  | JsonError status _ _ => status
  | JsonResult _ _ => 200
  end.

(** The primary fetch as the specification calls it unusable: rejected, or
    with a title that is absent (falsy, which is what [!title] tests: the
    empty string, or some other falsy value of the payload) or the
    sentinel.  A fulfilled fetch always holds an object, so "no value" does
    not occur. *)
Definition primary_failed (productData : Err ProductObj) : Prop :=
  match productData with
  | Throw _ => True
  | Ok p => truthy (o_title p) = false \/ o_title p = JStr "N/A"
  end.

(** A value that can be converted to a primitive: every value but an object
    with an own property [toString], and an array that holds one. *)
Fixpoint coercible (v : JsVal) : bool :=
  match v with
  | JObj ps => negb (has_own "toString" ps)
  | JArr l => forallb coercible l
  | _ => true
  end.

(** What the analysis can work with.  The price is text, or falsy (then
    it is not looked at); the availability is text, or absent; the discount
    is falsy, or can be converted to text. *)
Definition price_ok (v : JsVal) : Prop := truthy v = false \/ exists s, v = JStr s.

Definition availability_ok (v : JsVal) : Prop := nullish v = true \/ exists s, v = JStr s.

Definition discount_ok (v : JsVal) : Prop := truthy v = false \/ coercible v = true.

(** The star rating of a review is text, or absent: what [Stars?.replace]
    can be called on. *)
Definition stars_ok (review : ReviewObj) : Prop :=
  match o_Stars review with
  | JStr _ | JNull | JUndefined => True
  | _ => False
  end.

(** The snapshots and reviews of which the derived fields can be computed,
    and those of which a result can be assembled. *)
Definition derivable (p : ProductObj) (reviews : list ReviewObj) : Prop :=
  availability_ok (o_availability p) /\ discount_ok (o_discount_percentage p)
  /\ Forall stars_ok reviews.

Definition analysable (p : ProductObj) (reviews : list ReviewObj) : Prop :=
  price_ok (o_price p) /\ derivable p reviews.

(** The secondary fetch failed: [analyzeReviews] rejected, or its payload
    was no array. *)
Definition secondary_failed (reviewsData : Err (list ReviewObj)) : Prop :=
  (exists e, reviewsData = Throw e)
  \/ (exists data, isArray data = false /\ reviewsData = reviews_of_payload data).

(** The inputs the handler turns away: [url] missing (undefined, null,
    empty) or no string, not parseable as a URL, or with a host name that
    has neither marker in it. *)
Definition invalid_input (rt : Runtime) (url : JsVal) : Prop :=
  match url with
  | JStr u =>
      u = ""
      \/ rt_URL_hostname rt u = None
      \/ (exists h, rt_URL_hostname rt u = Some h
                    /\ includes (rt_toLowerCase rt h) "amazon" = false
                    /\ includes (rt_toLowerCase rt h) "amzn" = false)
  | _ => True
  end.

(** A URL that passes lines 9-35. *)
Definition accepted (rt : Runtime) (u : string) : bool :=
  negb (String.eqb u "") && isValidAmazonUrl rt u.

(** Every key of the cache is a URL the handler accepts: the handler
    writes no other. *)
Definition cache_wf (rt : Runtime) (c : Cache) : Prop :=
  forall k e, c !! k = Some e -> accepted rt k = true.

(** The caches the handler can leave behind: the empty one at start, and
    the one after each request, whatever its [url] and surroundings. *)
Inductive reachable (rt : Runtime) (TTL : Z) : Cache -> Prop :=
| reach_start : reachable rt TTL ∅
| reach_request (c : Cache) (w : World) (url : JsVal) :
    reachable rt TTL c -> reachable rt TTL (snd (fst (handle rt w TTL url c))).

(** The property [k] of a payload that is no [null]. *)
Definition payload_field (data : JsVal) (k : string) : JsVal :=
  match data with
  | JObj ps => assoc k ps
  | _ => JUndefined
  end.

(** [out] is [raw ?? d]. *)
Definition defaults_to (d raw out : JsVal) : Prop :=
  (nullish raw = true -> out = d) /\ (nullish raw = false -> out = raw).

Definition is_undefined (v : JsVal) : bool :=
  match v with
  | JUndefined => true
  | _ => false
  end.

(** The first request for [sampleUrl], on an empty cache; what it leaves in
    the cache; and the same request one minute later. *)
Definition sampleOutcome : Response * Cache * list Event :=
  handle refRuntime sampleWorld sampleTTL (JStr sampleUrl) ∅.

Definition sampleCache : Cache := snd (fst sampleOutcome).

Definition laterWorld : World :=
  {| worker := worker sampleWorld;
     now_request := now_request sampleWorld + 60000;
     now_response := now_response sampleWorld + 60000;
     random := random sampleWorld |}.

(** The payload of the product worker in [sampleWorld]. *)
Definition sampleData : JsVal :=
  Eval vm_compute in
    match snd (runPythonScript refRuntime sampleWorld "scripts/product.py" sampleUrl
                 MAX_RETRIES) with
    | Ok v => v
    | Throw _ => JUndefined
    end.

(** ** The Python interpreter ([lib/python-utils.ts]) *)

(** What [getPythonPath] and [verifyPythonEnvironment] read of the
    process: [process.env.NODE_ENV], [process.platform], [process.cwd()],
    [fs.existsSync], [path.join], and what [exec] calls back with ([Some]
    error when the command failed). *)
Record ProcessEnv : Type := mkProcessEnv {
  NODE_ENV : option string;
  platform : string;
  cwd : string;
  existsSync : string -> bool;
  path_join : list string -> string;
  exec : string -> option Exn
}.

(** Lines 17-21: the interpreter of the project's virtual environment. *)
Definition venvPythonPath (env : ProcessEnv) : string :=
  if String.eqb (platform env) "win32"
  then path_join env [cwd env; ".venv"; "Scripts"; "python.exe"]
  else path_join env [cwd env; ".venv"; "bin"; "python"].

(** Lines 9-31. *)
Definition getPythonPath (env : ProcessEnv) : string :=
  match NODE_ENV env with
  | Some "production" => "python"
  | _ =>
      let isWindows := String.eqb (platform env) "win32" in
      if existsSync env (venvPythonPath env) then venvPythonPath env
      else if isWindows then "python" else "python3"
  end.

(** Lines 36-50: what the promise resolves to; it never rejects. *)
Definition verifyPythonEnvironment (env : ProcessEnv) : bool :=
  match exec env (getPythonPath env ++ " --version") with
  | Some _ => false
  | None => true
  end.

(** ** More vocabulary *)

Definition is_sleep (ev : Event) : bool :=
  match ev with
  | EvSleep _ => true
  | EvSpawn _ _ _ => false
  end.

(** How often a trace sleeps, and for how long in all. *)
Definition sleep_count (tr : list Event) : nat := length (List.filter is_sleep tr).

Definition sleep_total (tr : list Event) : Z :=
  fold_right (fun ev acc => match ev with EvSleep ms => ms + acc | EvSpawn _ _ _ => acc end)
             0 tr.

(** What a request for [u] may do to the outside: start the product worker
    on [u] or the reviews worker on the reviews URL, at one of the three
    attempts, and sleep for one or two seconds. *)
Definition request_event (u : string) (ev : Event) : Prop :=
  match ev with
  | EvSpawn scriptPath arg attempt =>
      (attempt <= MAX_RETRIES)%nat
      /\ ((scriptPath = "scripts/product.py" /\ arg = u)
          \/ (scriptPath = "scripts/script2.py"
              /\ arg = reviewsUrl_of u))
  | EvSleep ms => ms = 1000 \/ ms = 2000
  end.

(** The messages the [catch] of lines 310-331 looks for. *)
Definition mentions_rate_limit_or_timeout (e : Exn) : bool :=
  includes (exn_message e) "rate limit" || includes (exn_message e) "429"
  || includes (exn_message e) "timeout".

(** A stored entry is the result of a request for its key, with a usable
    title. *)
Definition entry_ok (rt : Runtime) (k : string) (e : CacheEntry) : Prop :=
  accepted rt k = true
  /\ r_productUrl (value e) = k
  /\ truthy (r_title (value e)) = true
  /\ strict_eq_str (r_title (value e)) "N/A" = false.

(** [l.includes(s)] on a list of texts. *)
Definition says (l : list string) (s : string) : bool := existsb (String.eqb s) l.

(** The same request once the entry of [sampleCache] has expired. *)
Definition expiredWorld : World :=
  {| worker := worker sampleWorld;
     now_request := now_response sampleWorld + sampleTTL;
     now_response := now_response sampleWorld + sampleTTL + 4200;
     random := random sampleWorld |}.

(** Thirty reviews, more than the result carries. *)
Definition thirtyReviews : list ReviewObj :=
  repeat {| o_Description := JStr "Great sound"; o_Stars := JStr "5.0 out of 5 stars" |} 30.

(** Case analysis on every test of the goal. *)
Ltac case_ifs :=
  repeat match goal with
         | |- context [if ?b then _ else _] => destruct b; cbn
         end.

(** * Properties *)

(** ** The adapter: classification of one attempt *)

Section Attempt.

Variable rt : Runtime.

Lemma rate_limit_indicator_spec errorData :
  rate_limit_indicator errorData = true <->
  includes errorData "429" = true \/ includes errorData "rate limit" = true
  \/ includes errorData "too many requests" = true \/ includes errorData "blocked" = true.
Proof.
  unfold rate_limit_indicator. rewrite !orb_true_iff. tauto.
Qed.

Lemma errorMessage_not_marker code data errorData :
  JsError (errorMessage code data errorData) <> JsError "RATE_LIMITED".
Proof. unfold errorMessage. cbn. intros H. discriminate H. Qed.

Lemma attempt_outcome_nonzero code data errorData :
  exit_ok code = false ->
  attempt_outcome rt (Closed code data errorData)
  = if rate_limit_indicator errorData then Throw (JsError "RATE_LIMITED")
    else Throw (JsError (errorMessage code data errorData)).
Proof. intros H. cbn. rewrite H. reflexivity. Qed.

(** C5.  An attempt whose worker exits with a status other than zero is
    rejected with [Error('RATE_LIMITED')] exactly when the diagnostic stream
    contains one of "429", "rate limit", "too many requests", "blocked", and
    with the generic process error (exit code and both streams in its
    message) otherwise; with exit status zero, output that [JSON.parse]
    rejects yields the parse error. *)
Theorem attempt_outcome_classification (code : option Z) (data errorData : string) :
  (exit_ok code = false ->
     (attempt_outcome rt (Closed code data errorData) = Throw (JsError "RATE_LIMITED")
      <-> includes errorData "429" = true \/ includes errorData "rate limit" = true
          \/ includes errorData "too many requests" = true
          \/ includes errorData "blocked" = true)
     /\ (rate_limit_indicator errorData = false ->
         attempt_outcome rt (Closed code data errorData)
         = Throw (JsError (errorMessage code data errorData))))
  /\ (exit_ok code = true ->
      forall err, rt_JSON_parse rt data = Throw err ->
        attempt_outcome rt (Closed code data errorData) = Throw (parse_failure err)).
Proof.
  split.
  - intros Hcode. rewrite (attempt_outcome_nonzero _ _ _ Hcode).
    rewrite <- rate_limit_indicator_spec. split.
    + destruct (rate_limit_indicator errorData); [tauto|].
      split; [|discriminate]. intros H.
      exfalso. apply (errorMessage_not_marker code data errorData). congruence.
    + intros ->. reflexivity.
  - intros Hcode err Hparse. cbn. rewrite Hcode, Hparse. reflexivity.
Qed.

(** A payload is never [null] or [undefined]: reading [parsed.data] off
    such a value throws inside the [try]. *)
Lemma attempt_outcome_not_nullish r v :
  attempt_outcome rt r = Ok v -> nullish v = false.
Proof.
  destruct r as [code data errorData| |m]; cbn; try discriminate.
  destruct (exit_ok code); cbn; [|destruct (rate_limit_indicator errorData); discriminate].
  destruct (rt_JSON_parse rt data) as [parsed|e]; cbn; [|discriminate].
  destruct parsed as [| | b | n | s | l | ps]; cbn; try discriminate;
    try (intros [= <-]; reflexivity).
  unfold coalesce. destruct (nullish (assoc "data" ps)) eqn:E; intros [= <-]; [reflexivity|exact E].
Qed.

End Attempt.

(** ** The adapter: retries and backoff *)

Section Adapter.

Variable rt : Runtime.
Variable w : World.
Variables scriptPath arg : string.
Variable maxRetries : nat.

Lemma attempts_unfold remaining attempt lastError :
  attempts rt w scriptPath arg maxRetries (S remaining) attempt lastError =
  match attempt_outcome rt (worker w scriptPath arg attempt) with
  | Ok v => ([EvSpawn scriptPath arg attempt], Ok v)
  | Throw error =>
      if (attempt =? maxRetries)%nat then
        ([EvSpawn scriptPath arg attempt], Throw error)
      else
        (EvSpawn scriptPath arg attempt :: EvSleep (getRetryDelay attempt)
           :: fst (attempts rt w scriptPath arg maxRetries remaining (S attempt) (Some error)),
         snd (attempts rt w scriptPath arg maxRetries remaining (S attempt) (Some error)))
  end.
Proof.
  simpl. destruct (attempt_outcome _ _) as [v|error]; [reflexivity|].
  destruct (attempt =? maxRetries)%nat; [reflexivity|].
  destruct (attempts _ _ _ _ _ _ _ _) as [tr r].
  destruct (String.eqb _ _); reflexivity.
Qed.

Lemma attempts_head remaining attempt lastError :
  exists tl,
    fst (attempts rt w scriptPath arg maxRetries (S remaining) attempt lastError)
    = EvSpawn scriptPath arg attempt :: tl.
Proof.
  rewrite attempts_unfold.
  destruct (attempt_outcome _ _); [|destruct (attempt =? maxRetries)%nat]; cbn; eauto.
Qed.

Lemma attempts_spawn_count remaining attempt lastError :
  (spawn_count (fst (attempts rt w scriptPath arg maxRetries remaining attempt lastError))
   <= remaining)%nat.
Proof.
  revert attempt lastError.
  induction remaining as [|k IH]; intros attempt lastError.
  - cbn. lia.
  - rewrite attempts_unfold.
    destruct (attempt_outcome _ _) as [v|error]; [cbn; lia|].
    destruct (attempt =? maxRetries)%nat; [cbn; lia|].
    specialize (IH (S attempt) (Some error)). cbn [fst].
    change (S (spawn_count
                 (fst (attempts rt w scriptPath arg maxRetries k (S attempt) (Some error))))
            <= S k)%nat.
    lia.
Qed.

(** After a failed attempt that is not the last one comes the sleep of
    [RETRY_DELAY * 2 ^ attempt], and after it the next attempt. *)
Lemma attempts_backoff remaining attempt lastError a :
  (attempt + remaining = S maxRetries)%nat ->
  (attempt <= a < maxRetries)%nat ->
  (forall i, (attempt <= i <= a)%nat -> attempt_fails rt w scriptPath arg i) ->
  exists pre post,
    fst (attempts rt w scriptPath arg maxRetries remaining attempt lastError)
    = (pre ++ EvSpawn scriptPath arg a :: EvSleep (RETRY_DELAY * 2 ^ Z.of_nat a)
           :: EvSpawn scriptPath arg (S a) :: post)%list.
Proof.
  revert attempt lastError.
  induction remaining as [|k IH]; intros attempt lastError Hsum Ha Hfail; [lia|].
  rewrite attempts_unfold.
  pose proof (Hfail attempt ltac:(lia)) as Hf. unfold attempt_fails in Hf.
  destruct (attempt_outcome rt (worker w scriptPath arg attempt)) as [v|error];
    [discriminate Hf|].
  destruct (Nat.eqb_spec attempt maxRetries) as [->|Hne]; [lia|].
  destruct (Nat.eq_dec a attempt) as [->|Hlt].
  - destruct k as [|k]; [lia|].
    destruct (attempts_head k (S attempt) (Some error)) as [tl E].
    exists [], tl. cbn [fst app]. rewrite E. reflexivity.
  - destruct (IH (S attempt) (Some error)) as (pre & post & E); [lia|lia| |].
    { intros i Hi. apply Hfail. lia. }
    exists (EvSpawn scriptPath arg attempt :: EvSleep (getRetryDelay attempt) :: pre), post.
    cbn [fst]. rewrite E. reflexivity.
Qed.

(** When every attempt fails, the error of the last one is thrown. *)
Lemma attempts_exhausted remaining attempt lastError :
  (attempt + remaining = S maxRetries)%nat ->
  (0 < remaining)%nat ->
  (forall i, (attempt <= i <= maxRetries)%nat -> attempt_fails rt w scriptPath arg i) ->
  exists e,
    attempt_outcome rt (worker w scriptPath arg maxRetries) = Throw e
    /\ snd (attempts rt w scriptPath arg maxRetries remaining attempt lastError) = Throw e.
Proof.
  revert attempt lastError.
  induction remaining as [|k IH]; intros attempt lastError Hsum Hpos Hfail; [lia|].
  rewrite attempts_unfold.
  pose proof (Hfail attempt ltac:(lia)) as Hf. unfold attempt_fails in Hf.
  destruct (attempt_outcome rt (worker w scriptPath arg attempt)) as [v|error] eqn:E;
    [discriminate Hf|].
  destruct (Nat.eqb_spec attempt maxRetries) as [->|Hne].
  - exists error. split; [exact E|reflexivity].
  - cbn [snd]. apply IH; [lia|lia|]. intros i Hi. apply Hfail. lia.
Qed.

(** A payload comes from an attempt that yielded it. *)
Lemma attempts_ok_inv remaining attempt lastError v :
  snd (attempts rt w scriptPath arg maxRetries remaining attempt lastError) = Ok v ->
  exists a, attempt_outcome rt (worker w scriptPath arg a) = Ok v.
Proof.
  revert attempt lastError.
  induction remaining as [|k IH]; intros attempt lastError.
  - cbn. destruct lastError; discriminate.
  - rewrite attempts_unfold.
    destruct (attempt_outcome rt (worker w scriptPath arg attempt)) as [v'|error] eqn:E.
    + intros [= <-]. eauto.
    + destruct (attempt =? maxRetries)%nat; [discriminate|]. cbn [snd]. apply IH.
Qed.

(** The first attempt that yields a payload ends the loop: its payload is
    the result, and the trace holds one sleep for each attempt before it. *)
Lemma attempts_first_success remaining attempt lastError k v :
  (attempt + remaining = S maxRetries)%nat ->
  (attempt + k <= maxRetries)%nat ->
  (forall i, (attempt <= i < attempt + k)%nat -> attempt_fails rt w scriptPath arg i) ->
  attempt_outcome rt (worker w scriptPath arg (attempt + k)) = Ok v ->
  snd (attempts rt w scriptPath arg maxRetries remaining attempt lastError) = Ok v
  /\ spawn_count (fst (attempts rt w scriptPath arg maxRetries remaining attempt lastError))
     = S k.
Proof.
  revert remaining attempt lastError.
  induction k as [|k IH]; intros remaining attempt lastError Hsum Hk Hfail Hok.
  - destruct remaining as [|r]; [lia|]. rewrite attempts_unfold.
    rewrite Nat.add_0_r in Hok. rewrite Hok. split; reflexivity.
  - destruct remaining as [|r]; [lia|]. rewrite attempts_unfold.
    pose proof (Hfail attempt ltac:(lia)) as Hf. unfold attempt_fails in Hf.
    destruct (attempt_outcome rt (worker w scriptPath arg attempt)) as [v'|error];
      [discriminate Hf|].
    destruct (Nat.eqb_spec attempt maxRetries) as [->|Hne]; [lia|].
    destruct (IH r (S attempt) (Some error)) as [IH1 IH2]; [lia|lia| | |].
    { intros i Hi. apply Hfail. lia. }
    { replace (S attempt + k)%nat with (attempt + S k)%nat by lia. exact Hok. }
    cbn [fst snd]. split; [exact IH1|].
    change (S (spawn_count
                 (fst (attempts rt w scriptPath arg maxRetries r (S attempt) (Some error))))
            = S (S k)).
    now rewrite IH2.
Qed.

(** C4.  With a retry budget [maxRetries] (2 by default, hence 3 tries),
    [runPythonScript] starts at most [maxRetries + 1] workers; after every
    failed attempt [a] that is not the last one it sleeps
    [RETRY_DELAY * 2 ^ a] and then starts attempt [a + 1]; and when every
    attempt fails it throws the error of the last attempt. *)
Theorem runPythonScript_retry_policy :
  (spawn_count (fst (runPythonScript rt w scriptPath arg maxRetries)) <= maxRetries + 1)%nat
  /\ (forall a,
        (a < maxRetries)%nat ->
        (forall i, (i <= a)%nat -> attempt_fails rt w scriptPath arg i) ->
        exists pre post,
          fst (runPythonScript rt w scriptPath arg maxRetries)
          = (pre ++ EvSpawn scriptPath arg a :: EvSleep (RETRY_DELAY * 2 ^ Z.of_nat a)
                 :: EvSpawn scriptPath arg (S a) :: post)%list)
  /\ ((forall i, (i <= maxRetries)%nat -> attempt_fails rt w scriptPath arg i) ->
      exists e,
        attempt_outcome rt (worker w scriptPath arg maxRetries) = Throw e
        /\ snd (runPythonScript rt w scriptPath arg maxRetries) = Throw e)
  /\ MAX_RETRIES = 2%nat.
Proof.
  unfold runPythonScript. split; [|split; [|split]].
  - pose proof (attempts_spawn_count (S maxRetries) 0 None). lia.
  - intros a Ha Hfail. apply attempts_backoff; [lia|lia|].
    intros i Hi. apply Hfail. lia.
  - intros Hfail. apply attempts_exhausted; [lia|lia|].
    intros i Hi. apply Hfail. lia.
  - reflexivity.
Qed.

Lemma runPythonScript_exhausted :
  (forall i, (i <= maxRetries)%nat -> attempt_fails rt w scriptPath arg i) ->
  exists e,
    attempt_outcome rt (worker w scriptPath arg maxRetries) = Throw e
    /\ snd (runPythonScript rt w scriptPath arg maxRetries) = Throw e.
Proof.
  intros Hfail. apply attempts_exhausted; [lia|lia|].
  intros i Hi. apply Hfail. lia.
Qed.

Lemma runPythonScript_not_nullish v :
  snd (runPythonScript rt w scriptPath arg maxRetries) = Ok v -> nullish v = false.
Proof.
  intros H. apply attempts_ok_inv in H as [a H].
  eapply attempt_outcome_not_nullish; eassumption.
Qed.

End Adapter.

(** The adapter test of the specification: rate-limited at the first two
    attempts, a payload at the third; two sleeps, of [RETRY_DELAY * 1] and
    [RETRY_DELAY * 2]. *)
Example runPythonScript_third_attempt :
  runPythonScript refRuntime flakyWorld "scripts/product.py" sampleUrl MAX_RETRIES
  = ([EvSpawn "scripts/product.py" sampleUrl 0; EvSleep 1000;
      EvSpawn "scripts/product.py" sampleUrl 1; EvSleep 2000;
      EvSpawn "scripts/product.py" sampleUrl 2],
     Ok (payload_field (match ref_JSON_parse productJson with Ok v => v | Throw _ => JNull end)
           "data")).
Proof. vm_compute. reflexivity. Qed.

(** ** Lists of computations *)

Lemma mapM_length {A B : Type} (f : A -> Err B) l bs :
  mapM f l = Ok bs -> length bs = length l.
Proof.
  revert bs. induction l as [|a l IH]; intros bs; cbn.
  - now intros [= <-].
  - destruct (f a) as [b|e]; cbn [ebind]; [|discriminate].
    destruct (mapM f l) as [bs'|e]; cbn [ebind]; [|discriminate].
    intros [= <-]. cbn. f_equal. now apply IH.
Qed.

Lemma mapM_Forall {A B : Type} (f : A -> Err B) (P : B -> Prop) l bs :
  (forall a b, f a = Ok b -> P b) -> mapM f l = Ok bs -> Forall P bs.
Proof.
  intros Hf. revert bs. induction l as [|a l IH]; intros bs; cbn.
  - intros [= <-]. constructor.
  - destruct (f a) as [b|e] eqn:E; cbn [ebind]; [|discriminate].
    destruct (mapM f l) as [bs'|e]; cbn [ebind]; [|discriminate].
    intros [= <-]. constructor; [eapply Hf; eassumption|now apply IH].
Qed.

Lemma mapM_throw_inv {A B : Type} (f : A -> Err B) l e :
  mapM f l = Throw e -> exists a, In a l /\ f a = Throw e.
Proof.
  induction l as [|a l IH]; cbn; [discriminate|].
  destruct (f a) as [b|e'] eqn:E; cbn [ebind].
  - destruct (mapM f l) as [bs'|e'] eqn:E'; cbn [ebind]; [discriminate|].
    intros [= ->]. destruct (IH eq_refl) as (x & Hx & Hfx). eauto.
  - intros [= ->]. eauto.
Qed.

Lemma mapM_fails_iff {A B : Type} (f : A -> Err B) l :
  is_ok (mapM f l) = false <-> Exists (fun a => is_ok (f a) = false) l.
Proof.
  induction l as [|a l IH]; cbn.
  - split; [discriminate|]. intros H. inversion H.
  - destruct (f a) as [b|e] eqn:E; cbn [ebind].
    + destruct (mapM f l) as [bs|e]; cbn [ebind is_ok] in *.
      * split; [discriminate|]. intros H. inversion H as [? ? H1|? ? H1]; subst.
        -- rewrite E in H1. discriminate.
        -- now apply IH.
      * split; [|reflexivity]. intros _. apply Exists_cons_tl. now apply IH.
    + split; [|reflexivity]. intros _. apply Exists_cons_hd. now rewrite E.
Qed.

Lemma mapM_is_ok {A B : Type} (f : A -> Err B) l :
  is_ok (mapM f l) = forallb (fun a => is_ok (f a)) l.
Proof.
  induction l as [|a l IH]; [reflexivity|]. cbn.
  destruct (f a) as [b|e]; cbn [ebind is_ok andb]; [|reflexivity].
  rewrite <- IH. now destruct (mapM f l).
Qed.

Lemma is_ok_map_ok {A B : Type} (f : A -> B) (c : Err A) : is_ok (map_ok f c) = is_ok c.
Proof. now destruct c. Qed.

Lemma is_ok_true {A : Type} (c : Err A) : is_ok c = true <-> exists a, c = Ok a.
Proof. destruct c; cbn; split; eauto; [discriminate|intros [a H]; discriminate H]. Qed.

(** ** Conversion to a primitive *)

Lemma JsVal_nested_ind (P : JsVal -> Prop) :
  P JUndefined -> P JNull -> (forall b, P (JBool b)) -> (forall n, P (JNum n)) ->
  (forall s, P (JStr s)) -> (forall l, Forall P l -> P (JArr l)) ->
  (forall ps, P (JObj ps)) ->
  forall v, P v.
Proof.
  intros H1 H2 H3 H4 H5 H6 H7. fix IH 1.
  intros [| | b | n | s | l | ps];
    [exact H1|exact H2|apply H3|apply H4|apply H5| |apply H7].
  apply H6. induction l as [|x l IHl]; constructor; [apply IH|exact IHl].
Qed.

Section Coercions.

Variable rt : Runtime.

(** [join] converts the elements one after the other. *)
Lemma ToString_array l :
  ToString rt (JArr l)
  = map_ok (String.concat ",")
      (mapM (fun x => if nullish x then Ok "" else ToString rt x) l).
Proof.
  cbn [ToString]. f_equal. induction l as [|x l IH]; [reflexivity|].
  cbn [mapM]. rewrite <- IH. reflexivity.
Qed.

Lemma coercible_nullish v : nullish v = true -> coercible v = true.
Proof. now destruct v. Qed.

(** The conversion to a string throws exactly on the values that are not
    [coercible], and what it throws is the [TypeError] of
    [OrdinaryToPrimitive]. *)
Lemma ToString_coercible v : is_ok (ToString rt v) = coercible v.
Proof.
  induction v as [| | b | n | s | l IH | ps] using JsVal_nested_ind; try reflexivity.
  - rewrite ToString_array, is_ok_map_ok, mapM_is_ok. cbn [coercible].
    induction IH as [|x l Hx _ IHl]; [reflexivity|]. cbn [forallb]. rewrite IHl. f_equal.
    destruct (nullish x) eqn:E; [now rewrite coercible_nullish|exact Hx].
  - cbn. now destruct (has_own "toString" ps).
Qed.

Lemma ToString_throws v e : ToString rt v = Throw e -> e = not_primitive.
Proof.
  revert e. induction v as [| | b | n | s | l IH | ps] using JsVal_nested_ind;
    intros e; try discriminate.
  - rewrite ToString_array.
    destruct (mapM _ l) as [ss|e'] eqn:E; cbn [map_ok]; [discriminate|].
    intros [= ->]. apply mapM_throw_inv in E as (x & Hin & Hx).
    rewrite List.Forall_forall in IH. destruct (nullish x); [discriminate Hx|].
    eapply IH; eassumption.
  - cbn. destruct (has_own "toString" ps); [now intros [= <-]|discriminate].
Qed.

Lemma ToNumber_coercible v : is_ok (ToNumber rt v) = coercible v.
Proof.
  destruct v; try reflexivity; unfold ToNumber; rewrite is_ok_map_ok;
    apply ToString_coercible.
Qed.

Lemma ToNumber_throws v e : ToNumber rt v = Throw e -> e = not_primitive.
Proof.
  destruct v; try discriminate; unfold ToNumber;
    (destruct (ToString rt _) as [s|e'] eqn:E; cbn [map_ok]; [discriminate|]);
    intros [= <-]; eapply ToString_throws; exact E.
Qed.

Lemma ToNumber_fails v : coercible v = false -> ToNumber rt v = Throw not_primitive.
Proof.
  rewrite <- ToNumber_coercible. destruct (ToNumber rt v) as [x|e] eqn:E; [discriminate|].
  intros _. f_equal. eapply ToNumber_throws. exact E.
Qed.

Lemma parseInt_coercible v : is_ok (parseInt rt v) = coercible v.
Proof. unfold parseInt. rewrite is_ok_map_ok. apply ToString_coercible. Qed.

Lemma parseInt_throws v e : parseInt rt v = Throw e -> e = not_primitive.
Proof.
  unfold parseInt. destruct (ToString rt v) as [s|e'] eqn:E; cbn [map_ok]; [discriminate|].
  intros [= <-]. eapply ToString_throws. exact E.
Qed.

Lemma coercible_coalesce v d : coercible d = true -> coercible (coalesce v d) = coercible v.
Proof.
  intros Hd. unfold coalesce. destruct (nullish v) eqn:E; [|reflexivity].
  rewrite (coercible_nullish v E). exact Hd.
Qed.

End Coercions.

(** ** The scraper: defaults of the product object *)

Lemma get_prop_payload data k :
  nullish data = false -> get_prop data k = Ok (payload_field data k).
Proof. destruct data; cbn; intros H; try discriminate H; reflexivity. Qed.

Lemma coalesce_defaults d raw : defaults_to d raw (coalesce raw d).
Proof. unfold defaults_to, coalesce. destruct (nullish raw); split; congruence. Qed.

Lemma coalesce_not_nullish v d : nullish d = false -> nullish (coalesce v d) = false.
Proof. unfold coalesce. destruct (nullish v) eqn:E; congruence. Qed.

Lemma coalesce_null_defined v : is_undefined (coalesce v JNull) = false.
Proof. destruct v; reflexivity. Qed.

(** The object literal once the payload is known to be no [null]: only the
    two calls of [Number] are left to fail. *)
Lemma product_of_payload_ok rt data :
  nullish data = false ->
  product_of_payload rt data
  = do rating <- ToNumber rt (coalesce (payload_field data "rating") (JNum 0%float));
    do reviewCount <-
      ToNumber rt (coalesce (payload_field data "reviewCount") (JNum 0%float));
    Ok {| o_asin := coalesce (payload_field data "asin") (JStr "N/A");
          o_title := coalesce (payload_field data "title") (JStr "N/A");
          o_price := coalesce (payload_field data "price") (JStr "N/A");
          o_original_price := coalesce (payload_field data "original_price") JNull;
          o_discount_percentage :=
            coalesce (payload_field data "discount_percentage") JNull;
          o_rating := rating;
          o_reviewCount := reviewCount;
          o_availability := coalesce (payload_field data "availability") (JStr "N/A");
          o_features := if isArray (payload_field data "features")
                        then array_items (payload_field data "features") else [];
          o_description := coalesce (payload_field data "description") (JStr "N/A");
          o_images := if isArray (payload_field data "images")
                      then array_items (payload_field data "images") else [] |}.
Proof.
  intros H. unfold product_of_payload. rewrite !(get_prop_payload _ _ H). cbn [ebind].
  destruct (ToNumber rt (coalesce (payload_field data "rating") (JNum 0%float)));
    cbn [ebind]; [|reflexivity].
  destruct (ToNumber rt (coalesce (payload_field data "reviewCount") (JNum 0%float)));
    reflexivity.
Qed.

(** The title of the object is the payload's. *)
Lemma product_of_payload_title rt data p :
  nullish data = false -> product_of_payload rt data = Ok p ->
  o_title p = coalesce (payload_field data "title") (JStr "N/A").
Proof.
  intros H. rewrite (product_of_payload_ok rt data H).
  destruct (ToNumber rt _); cbn [ebind]; [|discriminate].
  destruct (ToNumber rt _); cbn [ebind]; [|discriminate].
  now intros [= <-].
Qed.

(** C10, amended.  For a payload of the product worker whose [rating] and
    [reviewCount] can be converted to a number, [scrapeAmazonProduct]
    returns an object all of whose fields are defined: [title], [price],
    [availability], [description] and [asin] are the payload's or "N/A" when
    absent, [original_price] and [discount_percentage] the payload's or
    [null], [rating] and [reviewCount] the [Number(...)] of the payload's,
    0 when absent, and [features] and [images] are the payload's array or the
    empty one.  For every other payload [Number(...)] throws a [TypeError]
    and [scrapeAmazonProduct] rejects with it. *)
Theorem scrapeAmazonProduct_defaults (rt : Runtime) (w : World) (url : string)
    (data : JsVal) :
  snd (runPythonScript rt w "scripts/product.py" url MAX_RETRIES) = Ok data ->
  (coercible (payload_field data "rating") = true ->
   coercible (payload_field data "reviewCount") = true ->
   exists p,
     snd (scrapeAmazonProduct rt w url) = Ok p
     /\ (defaults_to (JStr "N/A") (payload_field data "title") (o_title p)
         /\ defaults_to (JStr "N/A") (payload_field data "price") (o_price p)
         /\ defaults_to (JStr "N/A") (payload_field data "availability") (o_availability p)
         /\ defaults_to (JStr "N/A") (payload_field data "description") (o_description p)
         /\ defaults_to (JStr "N/A") (payload_field data "asin") (o_asin p))
     /\ (defaults_to JNull (payload_field data "original_price") (o_original_price p)
         /\ defaults_to JNull (payload_field data "discount_percentage")
              (o_discount_percentage p))
     /\ (ToNumber rt (coalesce (payload_field data "rating") (JNum 0%float))
         = Ok (o_rating p)
         /\ (nullish (payload_field data "rating") = true -> o_rating p = 0%float)
         /\ ToNumber rt (coalesce (payload_field data "reviewCount") (JNum 0%float))
            = Ok (o_reviewCount p)
         /\ (nullish (payload_field data "reviewCount") = true -> o_reviewCount p = 0%float))
     /\ ((forall l, payload_field data "features" = JArr l -> o_features p = l)
         /\ (isArray (payload_field data "features") = false -> o_features p = [])
         /\ (forall l, payload_field data "images" = JArr l -> o_images p = l)
         /\ (isArray (payload_field data "images") = false -> o_images p = []))
     /\ (nullish (o_title p) = false /\ nullish (o_price p) = false
         /\ nullish (o_availability p) = false /\ nullish (o_description p) = false
         /\ nullish (o_asin p) = false
         /\ is_undefined (o_original_price p) = false
         /\ is_undefined (o_discount_percentage p) = false))
  /\ (coercible (payload_field data "rating") = false
      \/ coercible (payload_field data "reviewCount") = false ->
      snd (scrapeAmazonProduct rt w url) = Throw not_primitive).
Proof.
  intros Hrun.
  pose proof (runPythonScript_not_nullish _ _ _ _ _ _ Hrun) as Hdata.
  unfold scrapeAmazonProduct.
  destruct (runPythonScript rt w "scripts/product.py" url MAX_RETRIES) as [tr r].
  cbn [snd] in *. subst r. cbn [ebind].
  rewrite (product_of_payload_ok rt data Hdata).
  pose proof (ToNumber_coercible rt (coalesce (payload_field data "rating") (JNum 0%float)))
    as Hr.
  pose proof (ToNumber_coercible rt
                (coalesce (payload_field data "reviewCount") (JNum 0%float))) as Hc.
  rewrite coercible_coalesce in Hr, Hc by reflexivity.
  split.
  - intros Cr Cc. rewrite Cr in Hr. rewrite Cc in Hc.
    destruct (ToNumber rt (coalesce (payload_field data "rating") (JNum 0%float)))
      as [rating|e] eqn:Er; [|discriminate Hr].
    destruct (ToNumber rt (coalesce (payload_field data "reviewCount") (JNum 0%float)))
      as [reviewCount|e] eqn:Ec; [|discriminate Hc].
    cbn [ebind]. eexists. split; [reflexivity|]. cbn.
    repeat split;
      try apply coalesce_defaults;
      try (apply coalesce_not_nullish; reflexivity);
      try apply coalesce_null_defined.
    + intros H. unfold coalesce in Er. rewrite H in Er. now injection Er as <-.
    + intros H. unfold coalesce in Ec. rewrite H in Ec. now injection Ec as <-.
    + intros l ->. reflexivity.
    + intros ->. reflexivity.
    + intros l ->. reflexivity.
    + intros ->. reflexivity.
  - intros [Cr|Cc].
    + rewrite ToNumber_fails by now rewrite coercible_coalesce. reflexivity.
    + destruct (ToNumber rt (coalesce (payload_field data "rating") (JNum 0%float)))
        as [rating|e] eqn:Er; cbn [ebind].
      * rewrite ToNumber_fails by now rewrite coercible_coalesce. reflexivity.
      * apply ToNumber_throws in Er. now subst e.
Qed.

(** ** The derived fields *)

Section WellFormed.

Variable rt : Runtime.
Variable w : World.

Lemma stars_number_ok var d review :
  stars_ok review -> exists x, stars_number rt var d review = Ok x.
Proof.
  unfold stars_ok, stars_number, optional_receiver.
  destruct (o_Stars review); cbn; intros H; try contradiction; eauto.
Qed.

Lemma stars_number_inv var d review :
  is_ok (stars_number rt var d review) = true -> stars_ok review.
Proof.
  unfold stars_ok, stars_number, optional_receiver.
  destruct (o_Stars review); cbn; try discriminate; auto.
Qed.

Lemma mapM_stars_ok var d reviews :
  Forall stars_ok reviews -> exists l, mapM (stars_number rt var d) reviews = Ok l.
Proof.
  induction 1 as [|r rs Hr _ (l & IH)]; cbn; [eauto|].
  destruct (stars_number_ok var d r Hr) as [x ->]. cbn. rewrite IH. cbn. eauto.
Qed.

Lemma mapM_stars_inv var d reviews :
  is_ok (mapM (stars_number rt var d) reviews) = true -> Forall stars_ok reviews.
Proof.
  rewrite mapM_is_ok, forallb_forall, List.Forall_forall.
  intros H r Hr. eapply stars_number_inv, H, Hr.
Qed.

Lemma stars_ok_typed (rs : list ReviewRecord) : Forall stars_ok (map obj_of_ReviewRecord rs).
Proof. induction rs; constructor; [exact I|assumption]. Qed.

Lemma parseIndianPrice_typed s : exists x, parseIndianPrice rt (JStr s) = Ok x.
Proof. unfold parseIndianPrice. case_ifs; eauto. Qed.

(** [parseIndianPrice] returns exactly on a price that is falsy or text. *)
Lemma parseIndianPrice_ok_iff v : is_ok (parseIndianPrice rt v) = true <-> price_ok v.
Proof.
  unfold price_ok, parseIndianPrice.
  destruct v as [| | b | n | s | l | ps]; cbn;
    try (split; [intros _; left; reflexivity|reflexivity]);
    try (split; [discriminate|intros [H|[s H]]; discriminate H]).
  - destruct b; cbn;
      [split; [discriminate|intros [H|[s H]]; discriminate H]
      |split; [intros _; left; reflexivity|reflexivity]].
  - destruct (truthy_num n); cbn;
      [split; [discriminate|intros [H|[s H]]; discriminate H]
      |split; [intros _; left; reflexivity|reflexivity]].
  - split; [eauto|]. intros _.
    now destruct (negb (negb (String.eqb s "")) || String.eqb s "N/A").
Qed.

Lemma sentimentAnalysis_ok p reviews :
  Forall stars_ok reviews -> exists s, sentimentAnalysis rt p reviews = Ok s.
Proof.
  intros H. unfold sentimentAnalysis.
  destruct (0 <? length reviews)%nat.
  - destruct (mapM_stars_ok "review" "3" reviews H) as (l & ->). cbn [ebind].
    case_ifs; eauto.
  - case_ifs; eauto.
Qed.

Lemma sentimentAnalysis_inv p reviews :
  is_ok (sentimentAnalysis rt p reviews) = true -> Forall stars_ok reviews.
Proof.
  unfold sentimentAnalysis. destruct reviews as [|r rs]; [constructor|].
  cbn [length Nat.ltb Nat.leb].
  destruct (mapM (stars_number rt "review" "3") (r :: rs)) as [l|e] eqn:E;
    cbn [ebind]; [|discriminate].
  intros _. apply (mapM_stars_inv "review" "3"). now rewrite E.
Qed.

Lemma availabilityInsight_ok p :
  availability_ok (o_availability p) -> exists l, availabilityInsight rt p = Ok l.
Proof.
  unfold availabilityInsight. intros [H|[s ->]].
  - destruct (o_availability p); try discriminate H; cbn; eauto.
  - cbn. case_ifs; eauto.
Qed.

(** [availability?.toLowerCase()] returns exactly on an availability that
    is absent or text. *)
Lemma availability_includes_ok_iff p pat :
  is_ok (availability_includes rt p pat) = true <-> availability_ok (o_availability p).
Proof.
  unfold availability_ok, availability_includes, optional_receiver.
  destruct (o_availability p) as [| | b | n | s | l | ps]; cbn;
    try solve [split; [intros _; left; reflexivity|reflexivity]];
    try solve [split; [discriminate|intros [H|[s H]]; discriminate H]].
  split; eauto.
Qed.

Lemma availability_includes_ok p pat :
  availability_ok (o_availability p) -> exists b, availability_includes rt p pat = Ok b.
Proof. intros H. now apply is_ok_true, availability_includes_ok_iff. Qed.

Lemma discount_texts d :
  discount_ok d -> truthy d = true ->
  exists text, ToString rt d = Ok text /\ parseInt rt d = Ok (rt_parseInt rt text).
Proof.
  intros [H|H] Ht; [congruence|].
  rewrite <- (ToString_coercible rt) in H. apply is_ok_true in H as [text H].
  exists text. unfold parseInt. rewrite H. auto.
Qed.

(** The discount is converted exactly when it is truthy. *)
Lemma discountInsight_ok_iff p :
  is_ok (discountInsight rt p) = true <-> discount_ok (o_discount_percentage p).
Proof.
  unfold discountInsight, discount_ok.
  destruct (truthy (o_discount_percentage p)) eqn:Ht; [|split; auto].
  rewrite <- (parseInt_coercible rt).
  destruct (parseInt rt (o_discount_percentage p)) as [discount|e]; cbn [ebind is_ok].
  - split; [auto|]. intros _. case_ifs; reflexivity.
  - split; [discriminate|]. intros [H|H]; discriminate H.
Qed.

Lemma review_share_ok cmp bound reviews :
  Forall stars_ok reviews -> exists b, review_share rt cmp bound reviews = Ok b.
Proof.
  intros H. unfold review_share. destruct (0 <? _)%nat; [|eauto].
  destruct (mapM_stars_ok "r" "0" reviews H) as (l & ->). cbn. eauto.
Qed.

Lemma keyInsightsOf_ok p reviews :
  availability_ok (o_availability p) -> discount_ok (o_discount_percentage p) ->
  exists l, keyInsightsOf rt p reviews = Ok l.
Proof.
  intros Ha Hd. unfold keyInsightsOf.
  destruct (availabilityInsight_ok p Ha) as [i2 ->]. cbn [ebind].
  apply discountInsight_ok_iff, is_ok_true in Hd as [i3 ->]. cbn [ebind].
  destruct (_ =? 0)%nat; eauto.
Qed.

Lemma prosFound_ok p reviews :
  derivable p reviews -> exists l, prosFound rt p reviews = Ok l.
Proof.
  intros (Ha & Hd & Hs). unfold prosFound.
  assert (exists p2,
            (if truthy (o_discount_percentage p) then
               do discount <- parseInt rt (o_discount_percentage p);
               if geb discount 15 then
                 do text <- ToString rt (o_discount_percentage p);
                 Ok ["Currently " ++ text ++ "% off regular price"]
               else Ok []
             else Ok []) = Ok p2) as [p2 ->].
  { destruct (truthy (o_discount_percentage p)) eqn:Ht; [|eauto].
    destruct (discount_texts _ Hd Ht) as (text & -> & ->). cbn [ebind].
    destruct (geb _ 15); cbn [ebind]; eauto. }
  cbn [ebind].
  destruct (availability_includes_ok p "in stock" Ha) as [b ->]. cbn [ebind].
  destruct (review_share_ok (fun s => geb s 4) 0x1.6666666666666p-1%float reviews Hs)
    as [b' ->].
  cbn [ebind]. eauto.
Qed.

Lemma consFound_ok p reviews :
  derivable p reviews -> exists l, consFound rt p reviews = Ok l.
Proof.
  intros (Ha & Hd & Hs). unfold consFound.
  assert (exists c2,
            (if negb (truthy (o_discount_percentage p))
             then Ok ["Limited or no discount currently available"]
             else
               do discount <- parseInt rt (o_discount_percentage p);
               Ok (if PrimFloat.ltb discount 5
                   then ["Limited or no discount currently available"] else []))
            = Ok c2) as [c2 ->].
  { destruct (truthy (o_discount_percentage p)) eqn:Ht; cbn [negb]; [|eauto].
    destruct (discount_texts _ Hd Ht) as (text & _ & ->). cbn [ebind]. eauto. }
  cbn [ebind].
  destruct (availability_includes_ok p "out of stock" Ha) as [b ->]. cbn [ebind].
  destruct (review_share_ok (fun s => PrimFloat.leb s 2) 0x1.999999999999ap-3%float
              reviews Hs) as [b' ->].
  cbn [ebind]. eauto.
Qed.

Lemma deriveAnalysis_ok p reviews :
  derivable p reviews -> exists a, deriveAnalysis rt p reviews = Ok a.
Proof.
  intros H. pose proof H as (Ha & Hd & Hs). unfold deriveAnalysis.
  destruct (sentimentAnalysis_ok p reviews Hs) as [s ->].
  destruct (keyInsightsOf_ok p reviews Ha Hd) as [k ->].
  destruct (prosFound_ok p reviews H) as [pr ->].
  destruct (consFound_ok p reviews H) as [co ->].
  cbn. eauto.
Qed.

(** The derived fields are computed of no other snapshot and reviews. *)
Lemma deriveAnalysis_inv p reviews :
  is_ok (deriveAnalysis rt p reviews) = true -> derivable p reviews.
Proof.
  unfold deriveAnalysis.
  destruct (sentimentAnalysis rt p reviews) as [s|e] eqn:Es; cbn [ebind]; [|discriminate].
  destruct (keyInsightsOf rt p reviews) as [k|e] eqn:Ek; cbn [ebind]; [|discriminate].
  destruct (prosFound rt p reviews) as [pr|e] eqn:Ep; cbn [ebind]; [|discriminate].
  intros _. split; [|split].
  - revert Ep. unfold prosFound.
    destruct (if truthy (o_discount_percentage p) then _ else _) as [p2|e];
      cbn [ebind]; [|discriminate].
    destruct (availability_includes rt p "in stock") as [b|e] eqn:Ea; cbn [ebind];
      [|discriminate].
    intros _. apply (availability_includes_ok_iff p "in stock"). now rewrite Ea.
  - revert Ek. unfold keyInsightsOf.
    destruct (availabilityInsight rt p) as [i2|e]; cbn [ebind]; [|discriminate].
    destruct (discountInsight rt p) as [i3|e] eqn:Ed; cbn [ebind]; [|discriminate].
    intros _. apply discountInsight_ok_iff. now rewrite Ed.
  - apply (sentimentAnalysis_inv p). now rewrite Es.
Qed.

Lemma priceComparisonOf_history productInfo x :
  exists pc, priceComparisonOf productInfo (generatePriceHistory rt w x) = Ok pc.
Proof. unfold priceComparisonOf, generatePriceHistory. cbn. eauto. Qed.

(** A snapshot of the declared interface can be analysed. *)
Lemma derivable_typed (t : ProductData) reviews :
  Forall stars_ok reviews -> derivable (obj_of_ProductData t) reviews.
Proof.
  intros H. split; [right; cbn; eauto|]. split; [|exact H].
  right. cbn. now destruct (discount_percentage t).
Qed.

Lemma analysable_typed (t : ProductData) reviews :
  Forall stars_ok reviews -> analysable (obj_of_ProductData t) reviews.
Proof. intros H. split; [right; cbn; eauto|now apply derivable_typed]. Qed.

End WellFormed.

Section Derived.

Variable rt : Runtime.

Lemma keyInsightsOf_nonempty productInfo reviews l :
  keyInsightsOf rt productInfo reviews = Ok l -> (0 < length l)%nat.
Proof.
  unfold keyInsightsOf.
  destruct (availabilityInsight rt productInfo) as [i2|e]; cbn [ebind]; [|discriminate].
  destruct (discountInsight rt productInfo) as [i3|e]; cbn [ebind]; [|discriminate].
  destruct (Nat.eqb_spec
              (length (ratingInsight (avgRating_of rt productInfo) ++ i2 ++ i3
                       ++ reviewCountInsight rt productInfo reviews)%list) 0)
    as [E|E]; intros [= <-]; [cbn|]; lia.
Qed.

Lemma prosDefault_nonempty productInfo l : (0 < length (prosDefault productInfo l))%nat.
Proof. unfold prosDefault. destruct (Nat.eqb_spec (length l) 0); [cbn|]; lia. Qed.

Lemma consDefault_nonempty l : (0 < length (consDefault l))%nat.
Proof. unfold consDefault. destruct (Nat.eqb_spec (length l) 0); [cbn|]; lia. Qed.

(** Whenever the derived fields are computed at all, the three lists are
    not empty. *)
Lemma deriveAnalysis_nonempty productInfo reviews a :
  deriveAnalysis rt productInfo reviews = Ok a ->
  (0 < length (keyInsights a))%nat /\ (0 < length (pros a))%nat
  /\ (0 < length (cons a))%nat /\ a_reviewCount a = length reviews.
Proof.
  unfold deriveAnalysis.
  destruct (sentimentAnalysis rt productInfo reviews) as [s|e]; cbn [ebind]; [|discriminate].
  destruct (keyInsightsOf rt productInfo reviews) as [k|e] eqn:Ek; cbn [ebind];
    [|discriminate].
  destruct (prosFound rt productInfo reviews) as [pr|e]; cbn [ebind]; [|discriminate].
  destruct (consFound rt productInfo reviews) as [co|e]; cbn [ebind]; [|discriminate].
  intros [= <-]. cbn.
  split; [eapply keyInsightsOf_nonempty; eassumption|].
  split; [apply prosDefault_nonempty|]. split; [apply consDefault_nonempty|reflexivity].
Qed.

Lemma deriveAnalysis_sentiment productInfo reviews a :
  deriveAnalysis rt productInfo reviews = Ok a ->
  sentimentAnalysis rt productInfo reviews = Ok (sentiment a).
Proof.
  unfold deriveAnalysis.
  destruct (sentimentAnalysis rt productInfo reviews) as [s|e]; cbn [ebind]; [|discriminate].
  destruct (keyInsightsOf rt productInfo reviews) as [k|e]; cbn [ebind]; [|discriminate].
  destruct (prosFound rt productInfo reviews) as [pr|e]; cbn [ebind]; [|discriminate].
  destruct (consFound rt productInfo reviews) as [co|e]; cbn [ebind]; [|discriminate].
  intros [= <-]. reflexivity.
Qed.

(** Sparse input: without reviews and without a rating the estimate is the
    default one. *)
Lemma sentimentAnalysis_sparse productInfo :
  truthy_num (o_rating productInfo) = false ->
  sentimentAnalysis rt productInfo [] = Ok defaultSentiment.
Proof. intros H. unfold sentimentAnalysis. cbn. rewrite H. reflexivity. Qed.

(** The steps of [assemble], one after the other. *)
Lemma assemble_steps w url productInfo reviews result :
  assemble rt w url productInfo reviews = Ok result ->
  exists currentPrice priceComparison discount,
    parseIndianPrice rt (o_price productInfo) = Ok currentPrice
    /\ deriveAnalysis rt productInfo reviews = Ok (r_analysis result)
    /\ result
       = {| r_title := o_title productInfo;
            r_productUrl := url;
            r_asin := o_asin productInfo;
            r_price :=
              {| pb_current := o_price productInfo;
                 pb_original := o_original_price productInfo;
                 pb_discount := discount;
                 pb_comparison := priceComparison;
                 pb_history := generatePriceHistory rt w currentPrice |};
            r_rating_average := o_rating productInfo;
            r_rating_count := o_reviewCount productInfo;
            r_availability := o_availability productInfo;
            r_images := o_images productInfo;
            r_features := o_features productInfo;
            r_description := o_description productInfo;
            r_reviews := firstn 25 reviews;
            r_analysis := r_analysis result;
            r_lastUpdated := rt_toISOString rt (now_response w);
            r_processingTime := now_response w - now_request w |}.
Proof.
  unfold assemble.
  destruct (parseIndianPrice rt (o_price productInfo)) as [x|e]; cbn [ebind]; [|discriminate].
  destruct (deriveAnalysis rt productInfo reviews) as [a|e]; cbn [ebind]; [|discriminate].
  destruct (priceComparisonOf _ _) as [pc|e]; cbn [ebind]; [|discriminate].
  destruct (if truthy (o_discount_percentage productInfo) then _ else _) as [d|e];
    cbn [ebind]; [|discriminate].
  intros [= <-]. exists x, pc, d. auto.
Qed.

Lemma assemble_analysis w url productInfo reviews result :
  assemble rt w url productInfo reviews = Ok result ->
  deriveAnalysis rt productInfo reviews = Ok (r_analysis result)
  /\ r_reviews result = firstn 25 reviews
  /\ r_title result = o_title productInfo.
Proof.
  intros (x & pc & d & _ & Ha & ->)%assemble_steps. cbn. auto.
Qed.

(** A result is assembled of every snapshot and reviews that can be
    analysed, and of no other. *)
Lemma assemble_ok w url p reviews :
  analysable p reviews -> exists result, assemble rt w url p reviews = Ok result.
Proof.
  intros (Hp & Hd). unfold assemble.
  apply (parseIndianPrice_ok_iff rt) in Hp. apply is_ok_true in Hp as [x ->].
  cbn [ebind].
  destruct (deriveAnalysis_ok rt p reviews Hd) as [a ->]. cbn [ebind].
  destruct (priceComparisonOf_history rt w p x) as [pc ->]. cbn [ebind].
  destruct Hd as (_ & Hd & _).
  destruct (truthy (o_discount_percentage p)) eqn:Ht; cbn [ebind]; [|eauto].
  destruct (discount_texts rt _ Hd Ht) as (text & -> & _). cbn. eauto.
Qed.

Lemma assemble_inv w url p reviews :
  is_ok (assemble rt w url p reviews) = true -> analysable p reviews.
Proof.
  unfold assemble.
  destruct (parseIndianPrice rt (o_price p)) as [x|e] eqn:Ep; cbn [ebind]; [|discriminate].
  destruct (deriveAnalysis rt p reviews) as [a|e] eqn:Ea; cbn [ebind]; [|discriminate].
  intros _. split.
  - apply (parseIndianPrice_ok_iff rt (o_price p)). now rewrite Ep.
  - apply (deriveAnalysis_inv rt p reviews). now rewrite Ea.
Qed.

(** C9, amended.  Of a product snapshot whose availability is text or
    absent and whose discount is falsy or can be converted to text (every
    snapshot of the declared interface is one), and of reviews whose star
    ratings are text or absent, the empty sequence included, the derived
    fields are computed without an exception: the sentiment estimate exists
    (it is the default one when there are no reviews and no rating), and
    [keyInsights], [pros] and [cons] are not empty, in the analysis and,
    when the price is text or falsy, in the assembled result.  Of every
    other snapshot and reviews the computation throws. *)
Theorem derived_fields_never_fail (w : World) (url : string) (p : ProductObj)
    (reviews : list ReviewObj) :
  (derivable p reviews ->
   exists a,
     deriveAnalysis rt p reviews = Ok a
     /\ (0 < length (keyInsights a))%nat
     /\ (0 < length (pros a))%nat
     /\ (0 < length (cons a))%nat
     /\ (reviews = [] -> truthy_num (o_rating p) = false -> sentiment a = defaultSentiment)
     /\ (price_ok (o_price p) ->
         exists result, assemble rt w url p reviews = Ok result /\ r_analysis result = a))
  /\ (is_ok (deriveAnalysis rt p reviews) = true -> derivable p reviews)
  /\ (forall t : ProductData,
        p = obj_of_ProductData t -> Forall stars_ok reviews -> derivable p reviews).
Proof.
  split; [|split].
  - intros Hd. destruct (deriveAnalysis_ok rt p reviews Hd) as [a Ha].
    destruct (deriveAnalysis_nonempty _ _ _ Ha) as (H1 & H2 & H3 & _).
    exists a. repeat split; try assumption.
    + intros -> Hrating. apply deriveAnalysis_sentiment in Ha.
      rewrite sentimentAnalysis_sparse in Ha by exact Hrating. congruence.
    + intros Hp. destruct (assemble_ok w url p reviews (conj Hp Hd)) as [result Hres].
      exists result. split; [exact Hres|].
      apply assemble_analysis in Hres as (Ha' & _). congruence.
  - apply deriveAnalysis_inv.
  - intros t -> Hs. now apply derivable_typed.
Qed.

(** The messages of the exceptions the analysis can throw hold none of
    the markers the [catch] of lines 310-331 looks for. *)
Ltac benign_receiver v :=
  destruct v; cbn; try discriminate; intros [= <-]; vm_compute; reflexivity.

Lemma parseIndianPrice_benign v e :
  parseIndianPrice rt v = Throw e -> mentions_rate_limit_or_timeout e = false.
Proof.
  unfold parseIndianPrice.
  destruct (negb (truthy v) || strict_eq_str v "N/A"); [discriminate|].
  destruct (string_receiver "priceString" "replace" v) as [s|e'] eqn:E; cbn [ebind];
    [discriminate|].
  intros [= <-]. revert E. benign_receiver v.
Qed.

Lemma stars_number_benign var d review e :
  var = "review" \/ var = "r" ->
  stars_number rt var d review = Throw e -> mentions_rate_limit_or_timeout e = false.
Proof.
  intros Hv. unfold stars_number, optional_receiver.
  destruct (nullish (o_Stars review)); cbn [ebind]; [discriminate|].
  destruct (string_receiver _ "replace" (o_Stars review))
    as [s|e'] eqn:E; cbn [ebind map_ok]; [discriminate|].
  intros [= <-]. revert E. destruct Hv as [-> | ->]; benign_receiver (o_Stars review).
Qed.

Lemma mapM_stars_benign var d reviews e :
  var = "review" \/ var = "r" ->
  mapM (stars_number rt var d) reviews = Throw e ->
  mentions_rate_limit_or_timeout e = false.
Proof.
  intros Hv (r & _ & Hr)%mapM_throw_inv. eapply stars_number_benign; eassumption.
Qed.

Lemma sentimentAnalysis_benign productInfo reviews e :
  sentimentAnalysis rt productInfo reviews = Throw e ->
  mentions_rate_limit_or_timeout e = false.
Proof.
  unfold sentimentAnalysis. destruct (0 <? length reviews)%nat.
  - destruct (mapM (stars_number rt "review" "3") reviews) as [ratings|e'] eqn:E;
      cbn [ebind].
    + case_ifs; discriminate.
    + intros [= <-]. eapply mapM_stars_benign; [|exact E]. now left.
  - case_ifs; discriminate.
Qed.

Lemma availabilityInsight_benign productInfo e :
  availabilityInsight rt productInfo = Throw e ->
  mentions_rate_limit_or_timeout e = false.
Proof.
  unfold availabilityInsight.
  destruct (truthy (o_availability productInfo)
            && negb (strict_eq_str (o_availability productInfo) "N/A")); [|discriminate].
  destruct (string_receiver "productInfo.availability" "toLowerCase"
              (o_availability productInfo)) as [s|e'] eqn:E; cbn [ebind].
  - case_ifs; discriminate.
  - intros [= <-]. revert E. benign_receiver (o_availability productInfo).
Qed.

Lemma availability_includes_benign productInfo pat e :
  availability_includes rt productInfo pat = Throw e ->
  mentions_rate_limit_or_timeout e = false.
Proof.
  unfold availability_includes, optional_receiver.
  destruct (nullish (o_availability productInfo)); cbn [ebind]; [discriminate|].
  destruct (string_receiver _ "toLowerCase"
              (o_availability productInfo)) as [s|e'] eqn:E; cbn [ebind map_ok];
    [discriminate|].
  intros [= <-]. revert E. benign_receiver (o_availability productInfo).
Qed.

Lemma review_share_benign cmp bound reviews e :
  review_share rt cmp bound reviews = Throw e ->
  mentions_rate_limit_or_timeout e = false.
Proof.
  unfold review_share. destruct (0 <? length reviews)%nat; [|discriminate].
  destruct (mapM (stars_number rt "r" "0") reviews) as [stars|e'] eqn:E; cbn [ebind];
    [discriminate|].
  intros [= <-]. eapply mapM_stars_benign; [|exact E]. now right.
Qed.

Lemma not_primitive_benign : mentions_rate_limit_or_timeout not_primitive = false.
Proof. reflexivity. Qed.

Lemma parseInt_benign v e :
  parseInt rt v = Throw e -> mentions_rate_limit_or_timeout e = false.
Proof. intros ->%parseInt_throws. reflexivity. Qed.

Lemma ToString_benign v e :
  ToString rt v = Throw e -> mentions_rate_limit_or_timeout e = false.
Proof. intros ->%ToString_throws. reflexivity. Qed.

Lemma discountInsight_benign productInfo e :
  discountInsight rt productInfo = Throw e -> mentions_rate_limit_or_timeout e = false.
Proof.
  unfold discountInsight. destruct (truthy _); [|discriminate].
  destruct (parseInt rt _) as [discount|e'] eqn:E; cbn [ebind].
  - case_ifs; discriminate.
  - intros [= <-]. eapply parseInt_benign. exact E.
Qed.

Lemma keyInsightsOf_benign productInfo reviews e :
  keyInsightsOf rt productInfo reviews = Throw e ->
  mentions_rate_limit_or_timeout e = false.
Proof.
  unfold keyInsightsOf.
  destruct (availabilityInsight rt productInfo) as [i2|e'] eqn:E2; cbn [ebind];
    [|intros [= <-]; eapply availabilityInsight_benign; exact E2].
  destruct (discountInsight rt productInfo) as [i3|e'] eqn:E3; cbn [ebind];
    [case_ifs; discriminate|].
  intros [= <-]. eapply discountInsight_benign. exact E3.
Qed.

Lemma prosFound_benign productInfo reviews e :
  prosFound rt productInfo reviews = Throw e -> mentions_rate_limit_or_timeout e = false.
Proof.
  unfold prosFound.
  destruct (if truthy (o_discount_percentage productInfo) then _ else _)
    as [p2|e'] eqn:E2; cbn [ebind].
  - destruct (availability_includes rt productInfo "in stock") as [b|e4] eqn:E4;
      cbn [ebind];
      [|intros [= <-]; eapply availability_includes_benign; exact E4].
    destruct (review_share rt _ _ reviews) as [b'|e5] eqn:E5; cbn [ebind];
      [discriminate|].
    intros [= <-]. eapply review_share_benign; exact E5.
  - intros [= <-]. revert E2. destruct (truthy _); [|discriminate].
    destruct (parseInt rt _) as [discount|e1] eqn:E; cbn [ebind];
      [|intros [= <-]; eapply parseInt_benign; exact E].
    destruct (geb discount 15); [|discriminate].
    destruct (ToString rt _) as [text|e2] eqn:E'; cbn [ebind]; [discriminate|].
    intros [= <-]. eapply ToString_benign. exact E'.
Qed.

Lemma consFound_benign productInfo reviews e :
  consFound rt productInfo reviews = Throw e -> mentions_rate_limit_or_timeout e = false.
Proof.
  unfold consFound.
  destruct (if negb (truthy (o_discount_percentage productInfo)) then _ else _)
    as [c2|e'] eqn:E2; cbn [ebind].
  - destruct (availability_includes rt productInfo "out of stock") as [b|e5] eqn:E5;
      cbn [ebind];
      [|intros [= <-]; eapply availability_includes_benign; exact E5].
    destruct (review_share rt _ _ reviews) as [b'|e6] eqn:E6; cbn [ebind];
      [discriminate|].
    intros [= <-]. eapply review_share_benign; exact E6.
  - intros [= <-]. revert E2. destruct (negb (truthy _)); [discriminate|].
    destruct (parseInt rt _) as [discount|e1] eqn:E; cbn [ebind]; [discriminate|].
    intros [= <-]. eapply parseInt_benign. exact E.
Qed.

Lemma deriveAnalysis_benign productInfo reviews e :
  deriveAnalysis rt productInfo reviews = Throw e ->
  mentions_rate_limit_or_timeout e = false.
Proof.
  unfold deriveAnalysis.
  destruct (sentimentAnalysis rt productInfo reviews) as [s|e1] eqn:E1; cbn [ebind];
    [|intros [= <-]; eapply sentimentAnalysis_benign; exact E1].
  destruct (keyInsightsOf rt productInfo reviews) as [k|e2] eqn:E2; cbn [ebind];
    [|intros [= <-]; eapply keyInsightsOf_benign; exact E2].
  destruct (prosFound rt productInfo reviews) as [pr|e3] eqn:E3; cbn [ebind];
    [|intros [= <-]; eapply prosFound_benign; exact E3].
  destruct (consFound rt productInfo reviews) as [co|e4] eqn:E4; cbn [ebind];
    [discriminate|].
  intros [= <-]. eapply consFound_benign. exact E4.
Qed.

Lemma assemble_benign w url productInfo reviews e :
  assemble rt w url productInfo reviews = Throw e ->
  mentions_rate_limit_or_timeout e = false.
Proof.
  unfold assemble.
  destruct (parseIndianPrice rt (o_price productInfo)) as [x|e1] eqn:E1; cbn [ebind];
    [|intros [= <-]; eapply parseIndianPrice_benign; exact E1].
  destruct (deriveAnalysis rt productInfo reviews) as [a|e2] eqn:E2; cbn [ebind];
    [|intros [= <-]; eapply deriveAnalysis_benign; exact E2].
  destruct (priceComparisonOf_history rt w productInfo x) as [pc ->]. cbn [ebind].
  destruct (truthy (o_discount_percentage productInfo)); cbn [ebind]; [|discriminate].
  destruct (ToString rt _) as [text|e'] eqn:E'; cbn [ebind map_ok]; [discriminate|].
  intros [= <-]. eapply ToString_benign. exact E'.
Qed.

Lemma analysis_failed_benign e :
  mentions_rate_limit_or_timeout e = false ->
  analysis_failed e = JsonError 500 "Analysis failed" (Some (exn_message e)).
Proof.
  unfold mentions_rate_limit_or_timeout, analysis_failed.
  intros [[-> ->]%orb_false_iff ->]%orb_false_iff. reflexivity.
Qed.

End Derived.

(** ** The handler *)

Section Handler.

Variable rt : Runtime.
Variable TTL : Z.

Lemma accepted_inv u :
  accepted rt u = true ->
  truthy (JStr u) = true /\ isValidAmazonUrl rt u = true
  /\ exists h, rt_URL_hostname rt u = Some h.
Proof.
  unfold accepted. intros [H1 H2]%andb_true_iff. repeat split; [exact H1|exact H2|].
  unfold isValidAmazonUrl in H2. destruct (rt_URL_hostname rt u); [eauto|discriminate].
Qed.

(** A request that passes validation and misses the cache fetches both
    sources and answers from what they settled to. *)
Lemma handle_miss w u c :
  accepted rt u = true ->
  cache_get TTL (now_request w) u c = None ->
  handle rt w TTL (JStr u) c
  = (respond_miss rt w u c (snd (scrapeAmazonProduct rt w u))
       (snd (analyzeReviews rt w (reviewsUrl_of u))),
     (fst (scrapeAmazonProduct rt w u) ++ fst (analyzeReviews rt w (reviewsUrl_of u)))%list).
Proof.
  intros (H1 & H2 & h & Hh)%accepted_inv Hmiss.
  unfold handle. rewrite H1, Hh, H2, Hmiss. cbn [negb].
  destruct (scrapeAmazonProduct rt w u) as [tr1 productData].
  destruct (analyzeReviews rt w (reviewsUrl_of u)) as [tr2 reviewsData].
  cbn [fst snd]. destruct (respond_miss _ _ _ _ _ _); reflexivity.
Qed.

Lemma handle_hit w u c cachedResult :
  accepted rt u = true ->
  cache_get TTL (now_request w) u c = Some cachedResult ->
  handle rt w TTL (JStr u) c
  = (JsonResult (with_lastUpdated cachedResult (rt_toISOString rt (now_request w))) true,
     c, []).
Proof.
  intros (H1 & H2 & h & Hh)%accepted_inv Hhit.
  unfold handle. rewrite H1, Hh, H2, Hhit. reflexivity.
Qed.

Lemma respond_miss_unusable w url c productData reviewsData :
  primary_unusable productData = true ->
  respond_miss rt w url c productData reviewsData = (unable_to_extract, c).
Proof.
  intros H. unfold respond_miss. destruct productData; [|reflexivity]. now rewrite H.
Qed.

Lemma respond_miss_usable w url c productInfo reviewsData :
  primary_unusable (Ok productInfo) = false ->
  respond_miss rt w url c (Ok productInfo) reviewsData
  = match assemble rt w url productInfo (reviews_of_settled reviewsData) with
    | Ok result => (JsonResult result false, cache_set (now_response w) url result c)
    | Throw error => (analysis_failed error, c)
    end.
Proof. intros H. unfold respond_miss. now rewrite H. Qed.

(** The handler writes the cache on one path only, and fails on all the
    others. *)
Lemma respond_miss_cache w url c productData reviewsData :
  (is_failure (fst (respond_miss rt w url c productData reviewsData)) = true
   /\ snd (respond_miss rt w url c productData reviewsData) = c)
  \/ (exists result,
        respond_miss rt w url c productData reviewsData
        = (JsonResult result false, cache_set (now_response w) url result c)).
Proof.
  unfold respond_miss. destruct productData as [productInfo|e]; [|left; split; reflexivity].
  destruct (primary_unusable (Ok productInfo)); [left; split; reflexivity|].
  destruct (assemble _ _ _ _ _) as [result|error]; [right; eauto|].
  left. split; [|reflexivity]. unfold analysis_failed. case_ifs; reflexivity.
Qed.

Lemma primary_unusable_failed (productData : Err ProductObj) :
  primary_unusable productData = true <-> primary_failed productData.
Proof.
  destruct productData as [p|e]; cbn; [|tauto].
  rewrite orb_true_iff, negb_true_iff.
  destruct (o_title p) as [| | b | n | s | l | ps]; cbn;
    try (split; [intros [H|H]; [now left|discriminate H]
                |intros [H|H]; [now left|discriminate H]]).
  rewrite String.eqb_eq. split; (intros [H|H]; [now left|right; congruence]).
Qed.

Lemma analysis_failed_not_400 error : analysis_failed error <> unable_to_extract.
Proof. unfold analysis_failed, unable_to_extract. case_ifs; discriminate. Qed.

(** C2, amended.  On a cache miss the request is answered with the 400 of
    line 64 exactly when the primary fetch was rejected or its snapshot has
    a title that is absent (falsy) or "N/A", and then, as after every other
    failure, the cache is left as it was.  When the snapshot and the
    reviews can be analysed (the price text or falsy, the availability text
    or absent, the discount falsy or convertible to text, the star rating
    of every review text or absent) the request fails in these cases only.
    With a usable primary fetch the request fails exactly when they cannot
    be analysed, and is then answered with the 500 of line 327. *)
Theorem primary_decides_failure (w : World) (url : string) (c : Cache)
    (productData : Err ProductObj) (reviewsData : Err (list ReviewObj)) :
  let out := respond_miss rt w url c productData reviewsData in
  (fst out = unable_to_extract <-> primary_failed productData)
  /\ (primary_failed productData -> snd out = c)
  /\ (is_failure (fst out) = true -> snd out = c)
  /\ (forall p, productData = Ok p ->
       analysable p (reviews_of_settled reviewsData) ->
       (is_failure (fst out) = true <-> primary_failed productData))
  /\ (forall p, productData = Ok p -> ~ primary_failed productData ->
       (is_failure (fst out) = false <-> analysable p (reviews_of_settled reviewsData))
       /\ (is_failure (fst out) = true ->
           exists details, fst out = JsonError 500 "Analysis failed" (Some details))).
Proof.
  cbv zeta. destruct (primary_unusable productData) eqn:E.
  - rewrite respond_miss_unusable by exact E.
    apply primary_unusable_failed in E. cbn.
    repeat split; auto; try tauto; intros p _ Hn; now destruct (Hn E).
  - assert (~ primary_failed productData) as Hn.
    { rewrite <- primary_unusable_failed. congruence. }
    destruct productData as [p0|e]; [|discriminate E].
    rewrite respond_miss_usable by exact E.
    destruct (assemble rt w url p0 (reviews_of_settled reviewsData))
      as [result|error] eqn:Ea; cbn [fst snd is_failure].
    + split; [split; [discriminate|tauto]|].
      split; [tauto|]. split; [discriminate|].
      split; [intros p _ _; split; [discriminate|tauto]|].
      intros p [= <-] _. split; [|discriminate].
      split; [|reflexivity]. intros _. apply (assemble_inv rt w url). now rewrite Ea.
    + assert (analysis_failed error
              = JsonError 500 "Analysis failed" (Some (exn_message error))) as Hf
        by (eapply analysis_failed_benign, assemble_benign; exact Ea).
      rewrite Hf. cbn [is_failure].
      split; [split; [discriminate|tauto]|].
      split; [tauto|]. split; [reflexivity|].
      split.
      * intros p [= <-] Han. destruct (assemble_ok rt w url _ _ Han) as [r Hr]. congruence.
      * intros p [= <-] _. split; [|eauto]. split; [discriminate|].
        intros Han. destruct (assemble_ok rt w url _ _ Han) as [r Hr]. congruence.
Qed.

Lemma secondary_failed_empty reviewsData :
  secondary_failed reviewsData -> reviews_of_settled reviewsData = [].
Proof.
  intros [[e ->]|(data & Hdata & ->)]; [reflexivity|].
  unfold reviews_of_payload. now rewrite Hdata.
Qed.

Lemma respond_miss_reviews w url c productData reviewsData reviewsData' :
  reviews_of_settled reviewsData = reviews_of_settled reviewsData' ->
  respond_miss rt w url c productData reviewsData
  = respond_miss rt w url c productData reviewsData'.
Proof. intros H. unfold respond_miss. now rewrite H. Qed.

(** C3, amended.  A secondary fetch that was rejected, or whose payload
    was no array, is answered like one that found no reviews, whatever the
    primary fetch settled to: its failure is never what the caller sees.
    When the primary fetch is usable the request then succeeds, with no
    reviews in the result and the result cached, if the snapshot can be
    analysed (the price text or falsy, the availability text or absent,
    the discount falsy or convertible to text), as every snapshot of the
    declared interface can, and only then. *)
Theorem secondary_failure_tolerated (w : World) (url : string) (c : Cache)
    (p : ProductObj) (reviewsData : Err (list ReviewObj)) :
  truthy (o_title p) = true ->
  o_title p <> JStr "N/A" ->
  secondary_failed reviewsData ->
  (forall productData : Err ProductObj,
     respond_miss rt w url c productData reviewsData
     = respond_miss rt w url c productData (Ok []))
  /\ (analysable p [] ->
      exists result,
        respond_miss rt w url c (Ok p) reviewsData
        = (JsonResult result false, cache_set (now_response w) url result c)
        /\ r_reviews result = []
        /\ a_reviewCount (r_analysis result) = 0%nat)
  /\ (is_failure (fst (respond_miss rt w url c (Ok p) reviewsData)) = false ->
      analysable p [])
  /\ (forall t : ProductData, p = obj_of_ProductData t -> analysable p []).
Proof.
  intros H1 H2 Hsec.
  split; [intros productData; apply respond_miss_reviews, (secondary_failed_empty _ Hsec)|].
  assert (primary_unusable (Ok p) = false) as E.
  { destruct (primary_unusable (Ok p)) eqn:E; [|reflexivity].
    apply primary_unusable_failed in E as [E|E]; [congruence|now destruct H2]. }
  rewrite respond_miss_usable by exact E.
  rewrite (secondary_failed_empty _ Hsec).
  split; [|split].
  - intros Han. destruct (assemble_ok rt w url p [] Han) as [result Hres].
    rewrite Hres. exists result. split; [reflexivity|].
    destruct (assemble_analysis _ _ _ _ _ _ Hres) as (Ha & Hr & _).
    split; [exact Hr|].
    now destruct (deriveAnalysis_nonempty _ _ _ _ Ha) as (_ & _ & _ & ->).
  - destruct (assemble rt w url p []) as [result|error] eqn:Ea.
    + intros _. apply (assemble_inv rt w url). now rewrite Ea.
    + unfold analysis_failed. case_ifs; discriminate.
  - intros t -> . apply analysable_typed. constructor.
Qed.

(** C1 (what the code does).  When every attempt of the product worker is
    turned away with a rate-limit indicator, [scrapeAmazonProduct] rejects
    with [Error('RATE_LIMITED')]; [Promise.allSettled] keeps the rejection
    from the [catch] that holds the 429 answer, and the request gets the
    same 400 as any other failure of the primary fetch.  Nothing is
    cached. *)
Theorem rate_limited_primary_answers_400 (w : World) (u : string) (c : Cache) :
  accepted rt u = true ->
  cache_get TTL (now_request w) u c = None ->
  (forall a, (a <= MAX_RETRIES)%nat ->
     exists code data errorData,
       worker w "scripts/product.py" u a = Closed code data errorData
       /\ exit_ok code = false /\ rate_limit_indicator errorData = true) ->
  snd (scrapeAmazonProduct rt w u) = Throw (JsError "RATE_LIMITED")
  /\ fst (fst (handle rt w TTL (JStr u) c)) = unable_to_extract
  /\ status_of (fst (fst (handle rt w TTL (JStr u) c))) = 400
  /\ snd (fst (handle rt w TTL (JStr u) c)) = c.
Proof.
  intros Hacc Hmiss Hlim.
  assert (forall a, (a <= MAX_RETRIES)%nat ->
            attempt_outcome rt (worker w "scripts/product.py" u a)
            = Throw (JsError "RATE_LIMITED")) as Hout.
  { intros a Ha. destruct (Hlim a Ha) as (code & data & errorData & -> & Hc & Hr).
    rewrite attempt_outcome_nonzero by exact Hc. now rewrite Hr. }
  assert (snd (scrapeAmazonProduct rt w u) = Throw (JsError "RATE_LIMITED")) as Hscrape.
  { unfold scrapeAmazonProduct.
    destruct (runPythonScript_exhausted rt w "scripts/product.py" u MAX_RETRIES)
      as (e & He & Hrun).
    - intros i Hi. unfold attempt_fails. now rewrite Hout.
    - rewrite Hout in He by lia.
      destruct (runPythonScript rt w "scripts/product.py" u MAX_RETRIES) as [tr r].
      cbn [snd] in *. subst r. cbn. congruence. }
  split; [exact Hscrape|].
  rewrite (handle_miss w u c Hacc Hmiss). cbn [fst snd]. rewrite Hscrape.
  rewrite respond_miss_unusable by reflexivity. auto.
Qed.

Lemma cache_get_lookup now key (c : Cache) v :
  cache_get TTL now key c = Some v -> exists e, c !! key = Some e.
Proof. unfold cache_get. destruct (c !! key); [eauto|discriminate]. Qed.

Lemma cache_wf_empty : cache_wf rt ∅.
Proof. intros k e H. rewrite lookup_empty in H. discriminate. Qed.

Lemma cache_wf_set now u v c :
  accepted rt u = true -> cache_wf rt c -> cache_wf rt (cache_set now u v c).
Proof.
  intros Hu Hc k e. unfold cache_set. rewrite lookup_insert.
  case_decide as Hk; [now subst k|apply Hc].
Qed.

(** The handler leaves the cache as it was, or adds the result under the
    URL it accepted. *)
Lemma handle_cache w url c :
  snd (fst (handle rt w TTL url c)) = c
  \/ (exists u result,
        url = JStr u /\ accepted rt u = true
        /\ snd (fst (handle rt w TTL url c)) = cache_set (now_response w) u result c).
Proof.
  destruct url as [| | b | n | u | l | ps]; try (left; reflexivity).
  destruct (accepted rt u) eqn:Hacc.
  - destruct (cache_get TTL (now_request w) u c) as [r|] eqn:Hget.
    + rewrite (handle_hit w u c r Hacc Hget). left. reflexivity.
    + rewrite (handle_miss w u c Hacc Hget). cbn [fst snd].
      destruct (respond_miss_cache w u c (snd (scrapeAmazonProduct rt w u))
                  (snd (analyzeReviews rt w (reviewsUrl_of u))))
        as [[_ H]|[result H]]; [left; exact H|].
      right. exists u, result. rewrite H. auto.
  - left. unfold accepted in Hacc. unfold handle. cbn [truthy].
    destruct (String.eqb u ""); cbn [negb]; [reflexivity|].
    cbn [andb negb] in Hacc.
    destruct (rt_URL_hostname rt u); [|reflexivity]. now rewrite Hacc.
Qed.

Lemma reachable_wf c : reachable rt TTL c -> cache_wf rt c.
Proof.
  induction 1 as [|c w url Hreach IH]; [apply cache_wf_empty|].
  destruct (handle_cache w url c) as [->|(u & result & _ & Hacc & ->)]; [exact IH|].
  now apply cache_wf_set.
Qed.

(** [{ ...r, lastUpdated: stamp }] changes [lastUpdated] and nothing else. *)
Lemma with_lastUpdated_fields r stamp :
  r_lastUpdated (with_lastUpdated r stamp) = stamp
  /\ r_title (with_lastUpdated r stamp) = r_title r
  /\ r_productUrl (with_lastUpdated r stamp) = r_productUrl r
  /\ r_asin (with_lastUpdated r stamp) = r_asin r
  /\ r_price (with_lastUpdated r stamp) = r_price r
  /\ r_rating_average (with_lastUpdated r stamp) = r_rating_average r
  /\ r_rating_count (with_lastUpdated r stamp) = r_rating_count r
  /\ r_availability (with_lastUpdated r stamp) = r_availability r
  /\ r_images (with_lastUpdated r stamp) = r_images r
  /\ r_features (with_lastUpdated r stamp) = r_features r
  /\ r_description (with_lastUpdated r stamp) = r_description r
  /\ r_reviews (with_lastUpdated r stamp) = r_reviews r
  /\ r_analysis (with_lastUpdated r stamp) = r_analysis r
  /\ r_processingTime (with_lastUpdated r stamp) = r_processingTime r.
Proof. cbn. repeat split; reflexivity. Qed.

(** C7.  A request whose URL has an entry in the cache that has not
    expired is answered with the stored value, marked [cached]; its
    [lastUpdated] is the time of this request, and every other field is
    that of the stored value.  No worker is started and the cache is not
    written. *)
Theorem cache_hit_bypasses_fetch (w : World) (u : string) (c : Cache)
    (cachedResult : Result) :
  reachable rt TTL c ->
  cache_get TTL (now_request w) u c = Some cachedResult ->
  exists body,
    handle rt w TTL (JStr u) c = (JsonResult body true, c, [])
    /\ r_lastUpdated body = rt_toISOString rt (now_request w)
    /\ r_title body = r_title cachedResult
    /\ r_productUrl body = r_productUrl cachedResult
    /\ r_asin body = r_asin cachedResult
    /\ r_price body = r_price cachedResult
    /\ r_rating_average body = r_rating_average cachedResult
    /\ r_rating_count body = r_rating_count cachedResult
    /\ r_availability body = r_availability cachedResult
    /\ r_images body = r_images cachedResult
    /\ r_features body = r_features cachedResult
    /\ r_description body = r_description cachedResult
    /\ r_reviews body = r_reviews cachedResult
    /\ r_analysis body = r_analysis cachedResult
    /\ r_processingTime body = r_processingTime cachedResult.
Proof.
  intros Hreach Hhit.
  destruct (cache_get_lookup _ _ _ _ Hhit) as [e He].
  pose proof (reachable_wf c Hreach u e He) as Hacc.
  rewrite (handle_hit w u c cachedResult Hacc Hhit).
  eexists. split; [reflexivity|]. apply with_lastUpdated_fields.
Qed.

(** C8.  An input whose [url] is missing or no string, cannot be parsed as
    a URL, or has a host name without "amazon" and without "amzn" in it
    (case ignored) is answered at once with a 400: no worker is started, the
    cache is not written. *)
Theorem invalid_input_rejected (w : World) (url : JsVal) (c : Cache) :
  invalid_input rt url ->
  exists message, handle rt w TTL url c = (JsonError 400 message None, c, []).
Proof.
  destruct url as [| | b | n | u | l | ps]; cbn [invalid_input handle]; eauto.
  intros [->|[Hparse|(h & Hh & H1 & H2)]].
  - cbn. eauto.
  - rewrite Hparse. destruct (negb (truthy (JStr u))); eauto.
  - rewrite Hh. unfold isValidAmazonUrl. rewrite Hh, H1, H2.
    destruct (negb (truthy (JStr u))); cbn; eauto.
Qed.

End Handler.

(** ** The cache *)

Lemma cache_get_never_set (TTL now : Z) (key : string) : cache_get TTL now key ∅ = None.
Proof. unfold cache_get. now rewrite lookup_empty. Qed.

Lemma cache_get_set (TTL now : Z) (key : string) (v : Result) (c : Cache) :
  0 < TTL -> cache_get TTL now key (cache_set now key v c) = Some v.
Proof.
  intros H. unfold cache_get, cache_set. rewrite lookup_insert_eq. cbn.
  destruct (Z.ltb_spec (now - now) TTL); [reflexivity|lia].
Qed.

Lemma cache_get_set_other (TTL now now' : Z) (key key' : string) (v : Result) (c : Cache) :
  key <> key' -> cache_get TTL now key' (cache_set now' key v c) = cache_get TTL now key' c.
Proof. intros H. unfold cache_get, cache_set. now rewrite lookup_insert_ne. Qed.

(** C6.  Once [TTL <= now - storedAt], [get] returns nothing for the key,
    as it does for a key that was never set; a [set] of the key makes the
    new value visible again, at once and for as long as it is younger than
    [TTL]. *)
Theorem cache_expiry_and_refresh (TTL now : Z) (key : string) (c : Cache) (e : CacheEntry) :
  0 < TTL ->
  c !! key = Some e ->
  TTL <= now - storedAt e ->
  cache_get TTL now key c = None
  /\ (forall c0 : Cache, c0 !! key = None -> cache_get TTL now key c0 = cache_get TTL now key c)
  /\ (forall v now', cache_get TTL now' key (cache_set now' key v c) = Some v)
  /\ (forall v now' later,
        later - now' < TTL -> cache_get TTL later key (cache_set now' key v c) = Some v).
Proof.
  intros Hpos He Hold.
  assert (cache_get TTL now key c = None) as Hnone.
  { unfold cache_get. rewrite He. destruct (Z.ltb_spec (now - storedAt e) TTL); [lia|easy]. }
  assert (forall v now' later,
            later - now' < TTL -> cache_get TTL later key (cache_set now' key v c) = Some v)
    as Hfresh.
  { intros v now' later Hlt. unfold cache_get, cache_set. rewrite lookup_insert_eq. cbn.
    destruct (Z.ltb_spec (later - now') TTL); [reflexivity|lia]. }
  split; [exact Hnone|]. split; [|split; [|exact Hfresh]].
  - intros c0 H0. rewrite Hnone. unfold cache_get. now rewrite H0.
  - intros v now'. apply Hfresh. lia.
Qed.

(** ** The properties at the sample surroundings *)

(** Scenario A of the specification, first half: on an empty cache both
    workers are started once, the answer is the result, and it is stored
    under the URL. *)
Example first_request :
  exists result,
    sampleOutcome
    = (JsonResult result false,
       cache_set (now_response sampleWorld) sampleUrl result ∅,
       [EvSpawn "scripts/product.py" sampleUrl 0;
        EvSpawn "scripts/script2.py" (reviewsUrl_of sampleUrl) 0])
    /\ r_title result = JStr "Echo Dot (5th Gen)"
    /\ sentiment (r_analysis result) = {| positive := 33; neutral := 0; negative := 67 |}
    /\ pros (r_analysis result)
       = ["High customer rating of 4.5/5.0"; "Currently 18% off regular price";
          "Available for immediate purchase"; "Trusted by 1234 customers"]
    /\ cons (r_analysis result) = ["Some customers report issues or dissatisfaction"]
    /\ length (r_reviews result) = 3%nat.
Proof. vm_compute. eexists. repeat split; reflexivity. Qed.

(** Scenario C of the specification: the three attempts and the two sleeps
    of the product fetch, the 400, and the empty cache. *)
Example rate_limited_request :
  handle refRuntime rateLimitedWorld sampleTTL (JStr sampleUrl) ∅
  = (JsonError 400 "Unable to extract product information"
       (Some "The product page may be protected or temporarily unavailable. Please try again in a few minutes."),
     ∅,
     [EvSpawn "scripts/product.py" sampleUrl 0; EvSleep 1000;
      EvSpawn "scripts/product.py" sampleUrl 1; EvSleep 2000;
      EvSpawn "scripts/product.py" sampleUrl 2;
      EvSpawn "scripts/script2.py" (reviewsUrl_of sampleUrl) 0]).
Proof. vm_compute. reflexivity. Qed.

Lemma rate_limited_primary_answers_400_witness :
  snd (scrapeAmazonProduct refRuntime rateLimitedWorld sampleUrl)
  = Throw (JsError "RATE_LIMITED")
  /\ fst (fst (handle refRuntime rateLimitedWorld sampleTTL (JStr sampleUrl) ∅))
     = unable_to_extract
  /\ status_of (fst (fst (handle refRuntime rateLimitedWorld sampleTTL (JStr sampleUrl) ∅)))
     = 400
  /\ snd (fst (handle refRuntime rateLimitedWorld sampleTTL (JStr sampleUrl) ∅)) = ∅.
Proof.
  apply (rate_limited_primary_answers_400 refRuntime sampleTTL rateLimitedWorld sampleUrl ∅).
  - vm_compute. reflexivity.
  - vm_compute. reflexivity.
  - intros a _. exists (Some 1), "", "HTTP Error 429: Too Many Requests".
    repeat split; reflexivity.
Defined.

Lemma secondary_failure_tolerated_witness :
  exists result,
    respond_miss refRuntime flakyWorld sampleUrl ∅ (Ok (obj_of_ProductData sampleProduct))
      (Throw (JsError "Failed to start Python process: spawn python3 ENOENT"))
    = (JsonResult result false, cache_set (now_response flakyWorld) sampleUrl result ∅)
    /\ r_reviews result = []
    /\ a_reviewCount (r_analysis result) = 0%nat.
Proof.
  destruct (secondary_failure_tolerated refRuntime flakyWorld sampleUrl ∅
              (obj_of_ProductData sampleProduct)
              (Throw (JsError "Failed to start Python process: spawn python3 ENOENT")))
    as (_ & H & _).
  - reflexivity.
  - discriminate.
  - left. eexists. reflexivity.
  - apply H. split; [right; eexists; reflexivity|].
    split; [right; eexists; reflexivity|]. split; [right; reflexivity|constructor].
Defined.

(** C3 as stated fails: in [numericPriceWorld] the primary fetch is
    fulfilled with a title that is neither absent nor "N/A", the reviews
    fetch is rejected, and the request fails: [priceString.replace] is no
    function of the number the product worker printed. *)
Lemma secondary_failure_fails_request :
  map_ok o_title (snd (scrapeAmazonProduct refRuntime numericPriceWorld sampleUrl))
  = Ok (JStr "Echo Dot")
  /\ primary_unusable (snd (scrapeAmazonProduct refRuntime numericPriceWorld sampleUrl))
     = false
  /\ is_ok (snd (analyzeReviews refRuntime numericPriceWorld (reviewsUrl_of sampleUrl)))
     = false
  /\ fst (fst (handle refRuntime numericPriceWorld sampleTTL (JStr sampleUrl) ∅))
     = JsonError 500 "Analysis failed" (Some "priceString.replace is not a function")
  /\ snd (fst (handle refRuntime numericPriceWorld sampleTTL (JStr sampleUrl) ∅)) = ∅.
Proof. vm_compute. repeat split; reflexivity. Qed.

Lemma sampleCache_entry :
  exists e, sampleCache !! sampleUrl = Some e /\ storedAt e = now_response sampleWorld.
Proof. vm_compute. eexists. split; reflexivity. Qed.

Lemma cache_expiry_and_refresh_witness :
  cache_get sampleTTL (now_response sampleWorld + sampleTTL) sampleUrl sampleCache = None
  /\ (forall v now',
        cache_get sampleTTL now' sampleUrl (cache_set now' sampleUrl v sampleCache) = Some v).
Proof.
  destruct sampleCache_entry as (e & He & Hst).
  destruct (cache_expiry_and_refresh sampleTTL (now_response sampleWorld + sampleTTL)
              sampleUrl sampleCache e) as (H1 & _ & H3 & _).
  - reflexivity.
  - exact He.
  - rewrite Hst. lia.
  - split; [exact H1|exact H3].
Defined.

Lemma sampleCache_reachable : reachable refRuntime sampleTTL sampleCache.
Proof. apply (reach_request _ _ ∅ sampleWorld (JStr sampleUrl)). apply reach_start. Qed.

Lemma sampleCache_hit :
  exists r, cache_get sampleTTL (now_request laterWorld) sampleUrl sampleCache = Some r
            /\ fst (fst sampleOutcome) = JsonResult r false
            /\ r_lastUpdated r = "2026-11-03T06:40:04.200Z".
Proof. vm_compute. eexists. repeat split; reflexivity. Qed.

(** Scenario A of the specification: the second request within the TTL is
    answered with what the first one stored, stamped anew, and starts no
    worker. *)
Lemma cache_hit_bypasses_fetch_witness :
  exists r body,
    fst (fst sampleOutcome) = JsonResult r false
    /\ handle refRuntime laterWorld sampleTTL (JStr sampleUrl) sampleCache
       = (JsonResult body true, sampleCache, [])
    /\ r_lastUpdated r = "2026-11-03T06:40:04.200Z"
    /\ r_lastUpdated body = "2026-11-03T06:41:00.000Z"
    /\ r_title body = r_title r
    /\ r_analysis body = r_analysis r.
Proof.
  destruct sampleCache_hit as (r & Hr & Hfirst & Hstamp).
  destruct (cache_hit_bypasses_fetch refRuntime sampleTTL laterWorld sampleUrl sampleCache r
              sampleCache_reachable Hr) as (body & Hb & Hl & Hs).
  exists r, body. split; [exact Hfirst|]. split; [exact Hb|]. split; [exact Hstamp|].
  split; [rewrite Hl; vm_compute; reflexivity|].
  destruct Hs as (Ht & _ & _ & _ & _ & _ & _ & _ & _ & _ & _ & Ha & _).
  split; [exact Ht|exact Ha].
Defined.

(** Scenario B of the specification. *)
Lemma invalid_input_rejected_witness :
  exists message,
    handle refRuntime sampleWorld sampleTTL (JStr "https://example.com/product") ∅
    = (JsonError 400 message None, ∅, []).
Proof.
  apply (invalid_input_rejected refRuntime sampleTTL sampleWorld
           (JStr "https://example.com/product") ∅).
  right. right. exists "example.com". repeat split; reflexivity.
Defined.

Lemma scrapeAmazonProduct_defaults_witness :
  exists p,
    snd (scrapeAmazonProduct refRuntime sampleWorld sampleUrl) = Ok p
    /\ o_title p = JStr "Echo Dot (5th Gen)"
    /\ o_description p = JStr "N/A"
    /\ o_rating p = 4.5%float
    /\ o_images p = [].
Proof.
  destruct (scrapeAmazonProduct_defaults refRuntime sampleWorld sampleUrl sampleData)
    as (H & _).
  - vm_compute. reflexivity.
  - destruct H
      as (p & Hp & (Ht & _ & _ & Hd & _) & _ & (Hr & _) & (_ & _ & _ & Hi) & _);
      [reflexivity|reflexivity|].
    exists p. split; [exact Hp|].
    split; [apply Ht; reflexivity|].
    split; [apply Hd; reflexivity|].
    split; [|apply Hi; reflexivity].
    vm_compute in Hr. injection Hr as Hr. symmetry. exact Hr.
Defined.

(** C10 as stated fails: the product worker of [shadowedRatingWorld] prints
    a rating that is an object with a property named [toString];
    [Number(...)] throws on it, [scrapeAmazonProduct] returns no product,
    and the request is answered with the 400 of line 64. *)
Lemma scrapeAmazonProduct_rejects_shadowed_rating :
  is_ok (snd (runPythonScript refRuntime shadowedRatingWorld "scripts/product.py"
                sampleUrl MAX_RETRIES)) = true
  /\ snd (scrapeAmazonProduct refRuntime shadowedRatingWorld sampleUrl)
     = Throw (JsTypeError "Cannot convert object to primitive value")
  /\ fst (fst (handle refRuntime shadowedRatingWorld sampleTTL (JStr sampleUrl) ∅))
     = unable_to_extract.
Proof. vm_compute. repeat split; reflexivity. Qed.

Lemma derived_fields_never_fail_witness :
  exists a result,
    deriveAnalysis refRuntime (obj_of_ProductData sampleProduct)
      [{| o_Description := JStr "Great sound"; o_Stars := JStr "5.0 out of 5 stars" |};
       {| o_Description := JStr "Fine"; o_Stars := JNull |}] = Ok a
    /\ (0 < length (keyInsights a))%nat
    /\ (0 < length (pros a))%nat
    /\ (0 < length (cons a))%nat
    /\ assemble refRuntime sampleWorld sampleUrl (obj_of_ProductData sampleProduct)
         [{| o_Description := JStr "Great sound"; o_Stars := JStr "5.0 out of 5 stars" |};
          {| o_Description := JStr "Fine"; o_Stars := JNull |}] = Ok result
    /\ r_analysis result = a.
Proof.
  destruct (derived_fields_never_fail refRuntime sampleWorld sampleUrl
              (obj_of_ProductData sampleProduct)
              [{| o_Description := JStr "Great sound"; o_Stars := JStr "5.0 out of 5 stars" |};
               {| o_Description := JStr "Fine"; o_Stars := JNull |}])
    as (H & _).
  destruct H as (a & H1 & H2 & H3 & H4 & _ & H6).
  - split; [right; eexists; reflexivity|]. split; [right; reflexivity|repeat constructor].
  - destruct H6 as (result & H6 & H7); [right; eexists; reflexivity|].
    exists a, result. auto 10.
Defined.

(** C9 as stated fails: the reviews worker of [numericStarsWorld] prints
    [Stars: 5]; [analyzeReviews] passes the number on, [.replace] is no
    function of it, the derived fields are not computed and the [catch] of
    line 310 answers with a 500. *)
Lemma derived_fields_fail_on_numeric_stars :
  snd (analyzeReviews refRuntime numericStarsWorld (reviewsUrl_of sampleUrl))
  = Ok [{| o_Description := JStr "Good"; o_Stars := JNum 5 |}]
  /\ is_ok (deriveAnalysis refRuntime (obj_of_ProductData sampleProduct)
              [{| o_Description := JStr "Good"; o_Stars := JNum 5 |}]) = false
  /\ status_of (fst (fst (handle refRuntime numericStarsWorld sampleTTL (JStr sampleUrl) ∅)))
     = 500.
Proof. vm_compute. repeat split; reflexivity. Qed.

(** C2 as stated fails: in [numericStarsWorld] the request misses the
    cache and fails, while the primary fetch is fulfilled with a snapshot
    whose title is neither absent nor "N/A". *)
Lemma request_fails_with_usable_primary :
  cache_get sampleTTL (now_request numericStarsWorld) sampleUrl ∅ = None
  /\ is_failure (fst (fst (handle refRuntime numericStarsWorld sampleTTL (JStr sampleUrl) ∅)))
     = true
  /\ map_ok o_title (snd (scrapeAmazonProduct refRuntime numericStarsWorld sampleUrl))
     = Ok (JStr "Echo Dot (5th Gen)")
  /\ primary_unusable (snd (scrapeAmazonProduct refRuntime numericStarsWorld sampleUrl))
     = false.
Proof. vm_compute. repeat split; reflexivity. Qed.

(** * Further properties of the code *)

(** ** The adapter: the shape of a run *)

Lemma attempt_outcome_not_fallback rt r scriptPath :
  attempt_outcome rt r <> Throw (JsError ("All retry attempts failed for " ++ scriptPath)).
Proof.
  destruct r as [code data errorData| |m]; cbn.
  - destruct (negb (exit_ok code)).
    + destruct (rate_limit_indicator errorData); intros H; cbn in H; discriminate H.
    + destruct (do parsed <- rt_JSON_parse rt data;
                do d <- get_prop parsed "data";
                Ok (coalesce d (coalesce parsed (JObj []))));
        [discriminate|]. intros H; cbn in H; discriminate H.
  - intros H; vm_compute in H; discriminate H.
  - intros H; cbn in H; discriminate H.
Qed.

Section AdapterRuns.

Variable rt : Runtime.
Variable w : World.
Variables scriptPath arg : string.
Variable maxRetries : nat.

Lemma spawn_count_cons_spawn s a n tr :
  spawn_count (EvSpawn s a n :: tr) = S (spawn_count tr).
Proof. reflexivity. Qed.

Lemma spawn_count_cons_sleep ms tr : spawn_count (EvSleep ms :: tr) = spawn_count tr.
Proof. reflexivity. Qed.

Lemma sleep_count_cons_spawn s a n tr : sleep_count (EvSpawn s a n :: tr) = sleep_count tr.
Proof. reflexivity. Qed.

Lemma sleep_count_cons_sleep ms tr : sleep_count (EvSleep ms :: tr) = S (sleep_count tr).
Proof. reflexivity. Qed.

Lemma getRetryDelay_succ a : getRetryDelay (S a) = 2 * getRetryDelay a.
Proof.
  unfold getRetryDelay. rewrite Nat2Z.inj_succ, Z.pow_succ_r by lia. lia.
Qed.

Lemma getRetryDelay_pos a : 0 < getRetryDelay a.
Proof.
  unfold getRetryDelay, RETRY_DELAY.
  pose proof (Z.pow_pos_nonneg 2 (Z.of_nat a)). lia.
Qed.

(** The loop sleeps between two attempts and nowhere else: a run that
    made [n] attempts slept [n - 1] times, for [RETRY_DELAY * 2 ^ a] after
    attempt [a]. *)
Lemma attempts_shape remaining attempt lastError :
  (attempt + S remaining = S maxRetries)%nat ->
  let tr := fst (attempts rt w scriptPath arg maxRetries (S remaining) attempt lastError) in
  spawn_count tr = S (sleep_count tr)
  /\ sleep_total tr = getRetryDelay (attempt + sleep_count tr) - getRetryDelay attempt
  /\ (attempt + sleep_count tr <= maxRetries)%nat.
Proof.
  revert attempt lastError.
  induction remaining as [|k IH]; intros attempt lastError Hsum; cbv zeta;
    rewrite attempts_unfold;
    destruct (attempt_outcome rt (worker w scriptPath arg attempt)) as [v|error];
    try (cbn; rewrite Nat.add_0_r; repeat split; lia).
  - destruct (Nat.eqb_spec attempt maxRetries) as [->|Hne]; [|lia].
    cbn. rewrite Nat.add_0_r. repeat split; lia.
  - destruct (Nat.eqb_spec attempt maxRetries) as [->|Hne]; [lia|].
    destruct (IH (S attempt) (Some error)) as (H1 & H2 & H3); [lia|].
    cbn [fst].
    set (tr := fst (attempts rt w scriptPath arg maxRetries (S k) (S attempt) (Some error)))
      in *.
    rewrite spawn_count_cons_spawn, spawn_count_cons_sleep, sleep_count_cons_spawn,
      sleep_count_cons_sleep.
    split; [now rewrite H1|].
    split; [|lia].
    cbn [sleep_total fold_right]. fold (sleep_total tr). rewrite H2.
    replace (attempt + S (sleep_count tr))%nat with (S attempt + sleep_count tr)%nat by lia.
    rewrite (getRetryDelay_succ attempt). lia.
Qed.

Lemma getRetryDelay_mono a b : (a <= b)%nat -> getRetryDelay a <= getRetryDelay b.
Proof.
  unfold getRetryDelay, RETRY_DELAY. intros H.
  apply Z.mul_le_mono_nonneg_l; [lia|]. apply Z.pow_le_mono_r; lia.
Qed.

(** X2.  Whatever the workers do, [runPythonScript] sleeps only between
    two attempts: its trace holds exactly one sleep fewer than spawns, at
    least one spawn, and all its sleeps together last less than
    [RETRY_DELAY * 2 ^ maxRetries] (under 4 s with the default budget). *)
Theorem runPythonScript_sleeps_between_attempts :
  let tr := fst (runPythonScript rt w scriptPath arg maxRetries) in
  spawn_count tr = S (sleep_count tr)
  /\ (sleep_count tr <= maxRetries)%nat
  /\ 0 <= sleep_total tr < RETRY_DELAY * 2 ^ Z.of_nat maxRetries
  /\ sleep_total tr = RETRY_DELAY * (2 ^ Z.of_nat (sleep_count tr) - 1).
Proof.
  cbv zeta. unfold runPythonScript.
  destruct (attempts_shape maxRetries 0 None) as (H1 & H2 & H3); [lia|].
  cbn [Nat.add] in H2, H3.
  set (tr := fst (attempts rt w scriptPath arg maxRetries (S maxRetries) 0 None)) in *.
  pose proof (getRetryDelay_mono (sleep_count tr) maxRetries H3) as Hm.
  pose proof (getRetryDelay_mono 0 (sleep_count tr) ltac:(lia)) as H0.
  change (getRetryDelay maxRetries) with (RETRY_DELAY * 2 ^ Z.of_nat maxRetries) in Hm.
  assert (getRetryDelay 0 = RETRY_DELAY) as E0 by reflexivity.
  unfold RETRY_DELAY in *.
  repeat split; try lia.
  rewrite H2. unfold getRetryDelay, RETRY_DELAY. cbn [Z.of_nat]. lia.
Qed.

Lemma attempts_success_run remaining attempt lastError k v :
  (attempt + remaining = S maxRetries)%nat ->
  (attempt + k <= maxRetries)%nat ->
  (forall i, (attempt <= i < attempt + k)%nat -> attempt_fails rt w scriptPath arg i) ->
  attempt_outcome rt (worker w scriptPath arg (attempt + k)) = Ok v ->
  snd (attempts rt w scriptPath arg maxRetries remaining attempt lastError) = Ok v
  /\ sleep_count (fst (attempts rt w scriptPath arg maxRetries remaining attempt lastError))
     = k.
Proof.
  revert remaining attempt lastError.
  induction k as [|k IH]; intros remaining attempt lastError Hsum Hk Hfail Hok.
  - destruct remaining as [|r]; [lia|]. rewrite attempts_unfold.
    rewrite Nat.add_0_r in Hok. rewrite Hok. split; reflexivity.
  - destruct remaining as [|r]; [lia|]. rewrite attempts_unfold.
    pose proof (Hfail attempt ltac:(lia)) as Hf. unfold attempt_fails in Hf.
    destruct (attempt_outcome rt (worker w scriptPath arg attempt)) as [v'|error];
      [discriminate Hf|].
    destruct (Nat.eqb_spec attempt maxRetries) as [->|Hne]; [lia|].
    destruct (IH r (S attempt) (Some error)) as [IH1 IH2]; [lia|lia| | |].
    { intros i Hi. apply Hfail. lia. }
    { replace (S attempt + k)%nat with (attempt + S k)%nat by lia. exact Hok. }
    cbn [fst snd]. split; [exact IH1|].
    rewrite sleep_count_cons_spawn, sleep_count_cons_sleep. now rewrite IH2.
Qed.

(** X1.  When the attempts before attempt [k] fail and attempt [k], within
    the budget, yields a payload, [runPythonScript] returns that payload
    after exactly [k + 1] spawns and [k] sleeps that add up to
    [RETRY_DELAY * (2 ^ k - 1)]: later attempts are not made. *)
Theorem runPythonScript_first_success (k : nat) (v : JsVal) :
  (k <= maxRetries)%nat ->
  (forall i, (i < k)%nat -> attempt_fails rt w scriptPath arg i) ->
  attempt_outcome rt (worker w scriptPath arg k) = Ok v ->
  snd (runPythonScript rt w scriptPath arg maxRetries) = Ok v
  /\ spawn_count (fst (runPythonScript rt w scriptPath arg maxRetries)) = S k
  /\ sleep_count (fst (runPythonScript rt w scriptPath arg maxRetries)) = k
  /\ sleep_total (fst (runPythonScript rt w scriptPath arg maxRetries))
     = RETRY_DELAY * (2 ^ Z.of_nat k - 1).
Proof.
  intros Hk Hfail Hok. unfold runPythonScript.
  destruct (attempts_success_run (S maxRetries) 0 None k v) as [H1 H2];
    [lia|lia| |exact Hok|].
  { intros i Hi. apply Hfail. lia. }
  destruct (attempts_shape maxRetries 0 None) as (H3 & H4 & _); [lia|].
  rewrite H2 in H3, H4. cbn [Nat.add] in H4.
  repeat split; try assumption.
  rewrite H4. unfold getRetryDelay, RETRY_DELAY. cbn [Z.of_nat]. lia.
Qed.

(** Every result of the loop is the result of one of its attempts: of the
    first that yields a payload, or of the last of the budget. *)
Lemma attempts_outcome_inv remaining attempt lastError :
  (attempt + S remaining = S maxRetries)%nat ->
  exists a,
    (attempt <= a <= maxRetries)%nat
    /\ snd (attempts rt w scriptPath arg maxRetries (S remaining) attempt lastError)
       = attempt_outcome rt (worker w scriptPath arg a)
    /\ (forall i, (attempt <= i < a)%nat -> attempt_fails rt w scriptPath arg i)
    /\ (attempt_fails rt w scriptPath arg a -> a = maxRetries).
Proof.
  revert attempt lastError.
  induction remaining as [|k IH]; intros attempt lastError Hsum;
    rewrite attempts_unfold;
    destruct (attempt_outcome rt (worker w scriptPath arg attempt)) as [v|error] eqn:E.
  - exists attempt. unfold attempt_fails. rewrite E.
    repeat split; intros; try reflexivity; try discriminate; lia.
  - destruct (Nat.eqb_spec attempt maxRetries) as [->|Hne]; [|lia].
    exists maxRetries. rewrite E. repeat split; intros; try reflexivity; lia.
  - exists attempt. unfold attempt_fails. rewrite E.
    repeat split; intros; try reflexivity; try discriminate; lia.
  - destruct (Nat.eqb_spec attempt maxRetries) as [->|Hne]; [lia|].
    destruct (IH (S attempt) (Some error)) as (a & Ha & Hres & Hfail & Hlast); [lia|].
    exists a. cbn [snd]. repeat split; try lia; [exact Hres| |exact Hlast].
    intros i Hi. destruct (Nat.eq_dec i attempt) as [->|Hi'].
    + unfold attempt_fails. now rewrite E.
    + apply Hfail. lia.
Qed.

(** X3.  The result of [runPythonScript] is always the outcome of one of
    its attempts: of the first one that yields a payload, or, when none
    does, of the last one of the budget.  So the fallback error of line 170
    ("All retry attempts failed") is never thrown, and a payload is never
    [null] or [undefined]. *)
Theorem runPythonScript_outcome :
  exists a,
    (a <= maxRetries)%nat
    /\ snd (runPythonScript rt w scriptPath arg maxRetries)
       = attempt_outcome rt (worker w scriptPath arg a)
    /\ (forall i, (i < a)%nat -> attempt_fails rt w scriptPath arg i)
    /\ (attempt_fails rt w scriptPath arg a -> a = maxRetries)
    /\ snd (runPythonScript rt w scriptPath arg maxRetries)
       <> Throw (JsError ("All retry attempts failed for " ++ scriptPath))
    /\ (forall v, snd (runPythonScript rt w scriptPath arg maxRetries) = Ok v ->
          nullish v = false).
Proof.
  unfold runPythonScript.
  destruct (attempts_outcome_inv maxRetries 0 None) as (a & Ha & Hres & Hfail & Hlast);
    [lia|].
  exists a. repeat split; try lia; try assumption.
  - intros i Hi. apply Hfail. lia.
  - rewrite Hres. apply attempt_outcome_not_fallback.
  - intros v Hv. rewrite Hres in Hv. eapply attempt_outcome_not_nullish. exact Hv.
Qed.

End AdapterRuns.

(** ** The adapter: what the callers make of a payload *)

(** X4.  [analyzeReviews] on the payload of the reviews worker: a payload
    that is no array gives no reviews; an array gives one record per
    element, in which [Description] and [Stars] are never [null] or
    [undefined]; and the call throws exactly when an element of the array is
    [null] (JSON has no [undefined]), reading [r.Description] off it. *)
Theorem reviews_of_payload_array (data : JsVal) :
  (isArray data = false -> reviews_of_payload data = Ok [])
  /\ (forall rs, reviews_of_payload data = Ok rs ->
        length rs = length (array_items data)
        /\ Forall (fun r => nullish (o_Description r) = false
                            /\ nullish (o_Stars r) = false) rs)
  /\ (is_ok (reviews_of_payload data) = false
      <-> Exists (fun r => nullish r = true) (array_items data)).
Proof.
  unfold reviews_of_payload. split; [|split].
  - intros ->. reflexivity.
  - intros rs. destruct (isArray data) eqn:Ha; cbn [negb].
    + intros H. split; [eapply mapM_length; exact H|].
      eapply mapM_Forall; [|exact H]. intros r b. cbn beta.
      destruct (get_prop r "Description") as [d|e]; cbn [ebind]; [|discriminate].
      destruct (get_prop r "Stars") as [s|e]; cbn [ebind]; [|discriminate].
      intros [= <-]. cbn. split; now apply coalesce_not_nullish.
    + intros [= <-]. destruct data; try discriminate; split; constructor.
  - destruct (isArray data) eqn:Ha; cbn [negb].
    + rewrite mapM_fails_iff, !List.Exists_exists.
      split; intros (r & Hin & Hr); exists r; (split; [exact Hin|]);
        destruct r; cbn in *; congruence.
    + destruct data; try discriminate; cbn; (split; [discriminate|]);
        intros H; inversion H.
Qed.

(** X5.  A product payload without a usable title ends the request: when
    the [title] of the payload is missing, [null], empty or otherwise falsy,
    or is the text "N/A", the record [scrapeAmazonProduct] builds from it
    fails the test of line 62, so the answer is the 400 "Unable to extract
    product information" and nothing is cached, whatever the reviews. *)
Theorem untitled_payload_rejected (rt : Runtime) (w : World) (url : string) (c : Cache)
    (data : JsVal) (reviewsData : Err (list ReviewObj)) :
  nullish data = false ->
  truthy (payload_field data "title") = false
  \/ payload_field data "title" = JStr "N/A" ->
  respond_miss rt w url c (product_of_payload rt data) reviewsData
  = (unable_to_extract, c).
Proof.
  intros Hd Ht. apply respond_miss_unusable.
  destruct (product_of_payload rt data) as [p|e] eqn:E; [|reflexivity].
  cbn [primary_unusable]. rewrite (product_of_payload_title rt data p Hd E).
  destruct Ht as [Ht| ->]; [|reflexivity].
  destruct (payload_field data "title"); cbn in *; try reflexivity; try discriminate;
    rewrite Ht; reflexivity.
Qed.

(** ** The derived fields *)

Section DerivedProps.

Variable rt : Runtime.

Lemma filter_chars_filter_chars p q s :
  (forall c, q c = true -> p c = true) ->
  filter_chars q (filter_chars p s) = filter_chars q s.
Proof.
  intros Hpq. induction s as [|c s IH]; [reflexivity|]. cbn.
  destruct (p c) eqn:Ep; cbn.
  - rewrite IH. reflexivity.
  - destruct (q c) eqn:Eq; [|exact IH]. rewrite (Hpq c Eq) in Ep. discriminate.
Qed.

Lemma strip_currency_redundant s :
  strip_non_numeric (strip_currency s) = strip_non_numeric s.
Proof.
  apply filter_chars_filter_chars. intros c.
  unfold is_digit_or_dot, is_currency_or_blank.
  generalize (nat_of_ascii c). intros n H.
  apply negb_true_iff.
  repeat match goal with
         | |- context [(?a =? ?b)%nat] => destruct (Nat.eqb_spec a b)
         | |- context [(?a <=? ?b)%nat] => destruct (Nat.leb_spec a b)
         | H : context [(?a =? ?b)%nat] |- _ => destruct (Nat.eqb_spec a b)
         | H : context [(?a <=? ?b)%nat] |- _ => destruct (Nat.leb_spec a b)
         end; cbn in *; try reflexivity; try discriminate; lia.
Qed.


(** X7.  [parseIndianPrice] reads nothing of a price text but its digits
    and dots: two texts (neither empty nor "N/A") with the same digits and
    dots in the same order give the same price, so the first [replace] of
    line 85 (currency signs, commas and blanks) changes no result. *)
Theorem parseIndianPrice_digits_only (s s' : string) :
  s <> "" -> s <> "N/A" -> s' <> "" -> s' <> "N/A" ->
  strip_non_numeric s = strip_non_numeric s' ->
  parseIndianPrice rt (JStr s) = parseIndianPrice rt (JStr s').
Proof.
  intros H1 H2 H3 H4 H. unfold parseIndianPrice. cbn.
  apply String.eqb_neq in H1, H2, H3, H4. rewrite H1, H2, H3, H4. cbn.
  rewrite !strip_currency_redundant, H. reflexivity.
Qed.

Lemma length_le1_if (b : bool) (x : string) :
  (length (if b then [x] else []) <= 1)%nat.
Proof. destruct b; cbn; lia. Qed.

Lemma ratingInsight_length avgRating : (length (ratingInsight avgRating) <= 1)%nat.
Proof. unfold ratingInsight. case_ifs; cbn; lia. Qed.

Lemma availabilityInsight_length productInfo l :
  availabilityInsight rt productInfo = Ok l -> (length l <= 1)%nat.
Proof.
  unfold availabilityInsight.
  destruct (truthy (o_availability productInfo)
            && negb (strict_eq_str (o_availability productInfo) "N/A"));
    [|intros [= <-]; cbn; lia].
  destruct (string_receiver _ _ _) as [s|e]; cbn [ebind]; [|discriminate].
  destruct (includes (rt_toLowerCase rt s) "in stock"); [intros [= <-]; cbn; lia|].
  destruct (includes (rt_toLowerCase rt s) "out of stock"); intros [= <-]; cbn; lia.
Qed.

Lemma discountInsight_length productInfo l :
  discountInsight rt productInfo = Ok l -> (length l <= 1)%nat.
Proof.
  unfold discountInsight. destruct (truthy _); [|intros [= <-]; cbn; lia].
  destruct (parseInt rt _) as [discount|e]; cbn [ebind]; [|discriminate].
  case_ifs; intros [= <-]; cbn; lia.
Qed.

Lemma reviewCountInsight_length productInfo reviews :
  (length (reviewCountInsight rt productInfo reviews) <= 1)%nat.
Proof. unfold reviewCountInsight. case_ifs; cbn; lia. Qed.

Lemma keyInsightsOf_length productInfo reviews l :
  keyInsightsOf rt productInfo reviews = Ok l -> (length l <= 4)%nat.
Proof.
  unfold keyInsightsOf.
  destruct (availabilityInsight rt productInfo) as [i2|e] eqn:E2; cbn [ebind];
    [|discriminate].
  destruct (discountInsight rt productInfo) as [i3|e] eqn:E3; cbn [ebind];
    [|discriminate].
  pose proof (ratingInsight_length (avgRating_of rt productInfo)) as H1.
  pose proof (availabilityInsight_length _ _ E2) as H2.
  pose proof (discountInsight_length _ _ E3) as H3.
  pose proof (reviewCountInsight_length productInfo reviews) as H4.
  destruct (length _ =? 0)%nat; intros [= <-]; [cbn; lia|].
  rewrite !length_app. lia.
Qed.

Lemma prosFound_length productInfo reviews l :
  prosFound rt productInfo reviews = Ok l -> (length l <= 5)%nat.
Proof.
  unfold prosFound.
  destruct (if truthy (o_discount_percentage productInfo) then _ else _) as [p2|e] eqn:E2;
    cbn [ebind]; [|discriminate].
  assert (length p2 <= 1)%nat as H2.
  { revert E2. destruct (truthy _); [|intros [= <-]; cbn; lia].
    destruct (parseInt rt _) as [discount|e]; cbn [ebind]; [|discriminate].
    destruct (geb discount 15); [|intros [= <-]; cbn; lia].
    destruct (ToString rt _) as [text|e]; cbn [ebind]; [|discriminate].
    intros [= <-]. cbn. lia. }
  destruct (availability_includes rt productInfo "in stock") as [inStock|e];
    cbn [ebind]; [|discriminate].
  destruct (review_share rt _ _ reviews) as [mostlyPositive|e]; cbn [ebind];
    [|discriminate].
  intros [= <-]. rewrite !length_app.
  repeat match goal with
         | |- context [length (if ?b then _ else _)] => destruct b
         end; cbn; lia.
Qed.

Lemma consFound_length productInfo reviews l :
  consFound rt productInfo reviews = Ok l -> (length l <= 4)%nat.
Proof.
  unfold consFound.
  destruct (if negb (truthy (o_discount_percentage productInfo)) then _ else _)
    as [c2|e] eqn:E2; cbn [ebind]; [|discriminate].
  assert (length c2 <= 1)%nat as H2.
  { revert E2. destruct (negb (truthy _)); [intros [= <-]; cbn; lia|].
    destruct (parseInt rt _) as [discount|e]; cbn [ebind]; [|discriminate].
    intros [= <-]. destruct (PrimFloat.ltb discount 5); cbn; lia. }
  destruct (availability_includes rt productInfo "out of stock") as [outOfStock|e];
    cbn [ebind]; [|discriminate].
  destruct (review_share rt _ _ reviews) as [someNegative|e]; cbn [ebind];
    [|discriminate].
  intros [= <-]. rewrite !length_app.
  repeat match goal with
         | |- context [length (if ?b then _ else _)] => destruct b
         end; cbn; lia.
Qed.

(** X8.  The three lists of the analysis are short as well as non-empty:
    between one and four key insights, between one and five pros, between
    one and four cons, whatever the product and however many reviews. *)
Theorem deriveAnalysis_bounds (productInfo : ProductObj) (reviews : list ReviewObj)
    (a : Analysis) :
  deriveAnalysis rt productInfo reviews = Ok a ->
  (1 <= length (keyInsights a) <= 4)%nat
  /\ (1 <= length (pros a) <= 5)%nat
  /\ (1 <= length (cons a) <= 4)%nat.
Proof.
  intros H. pose proof (deriveAnalysis_nonempty rt _ _ _ H) as (N1 & N2 & N3 & _).
  revert H N1 N2 N3. unfold deriveAnalysis.
  destruct (sentimentAnalysis rt productInfo reviews) as [s|e]; cbn [ebind]; [|discriminate].
  destruct (keyInsightsOf rt productInfo reviews) as [k|e] eqn:Ek; cbn [ebind];
    [|discriminate].
  destruct (prosFound rt productInfo reviews) as [pr|e] eqn:Ep; cbn [ebind];
    [|discriminate].
  destruct (consFound rt productInfo reviews) as [co|e] eqn:Ec; cbn [ebind];
    [|discriminate].
  intros [= <-]. cbn [keyInsights pros cons].
  pose proof (keyInsightsOf_length _ _ _ Ek) as B1.
  pose proof (prosFound_length _ _ _ Ep) as B2.
  pose proof (consFound_length _ _ _ Ec) as B3.
  intros N1 N2 N3. repeat split; try lia.
  - unfold prosDefault in *. destruct (length pr =? 0)%nat; [|lia].
    destruct (0 <? length (o_features productInfo))%nat; cbn; lia.
  - unfold consDefault in *. destruct (length co =? 0)%nat; [cbn|]; lia.
Qed.

End DerivedProps.

(** ** The answers of the handler *)

Section AnswerProps.

Variable rt : Runtime.
Variable w : World.

Lemma respond_miss_status url c productData reviewsData :
  let resp := fst (respond_miss rt w url c productData reviewsData) in
  status_of resp = 200 \/ status_of resp = 400 \/ status_of resp = 500.
Proof.
  unfold respond_miss. destruct productData as [productInfo|e]; [|cbn; auto].
  destruct (primary_unusable (Ok productInfo)); [cbn; auto|].
  destruct (assemble rt w url productInfo (reviews_of_settled reviewsData))
    as [result|error] eqn:E; [cbn; auto|].
  cbn [fst]. rewrite (analysis_failed_benign _ (assemble_benign rt w _ _ _ _ E)). cbn. auto.
Qed.

(** X9.  The endpoint answers with one of three status codes only: 200,
    400 or 500.  The 429 "Rate limit exceeded" and the 408 "Analysis
    timeout" of lines 313-323 are never sent: the failures of the two
    fetches do not reach that [catch], and no exception thrown by the
    analysis has a message with "rate limit", "429" or "timeout" in it. *)
Theorem POST_status_codes (TTL : Z) (body : Err JsVal) (c : Cache) :
  let resp := fst (fst (POST rt w TTL body c)) in
  (status_of resp = 200 \/ status_of resp = 400 \/ status_of resp = 500)
  /\ status_of resp <> 429 /\ status_of resp <> 408.
Proof.
  cbn zeta.
  assert (H : status_of (fst (fst (POST rt w TTL body c))) = 200
              \/ status_of (fst (fst (POST rt w TTL body c))) = 400
              \/ status_of (fst (fst (POST rt w TTL body c))) = 500);
    [|split; [exact H|lia]].
  unfold POST. destruct (do b <- body; destructure_prop b "url") as [url|error];
    [|cbn; auto].
  destruct url as [| | b | n | u | l | ps]; try solve [cbn; auto].
  destruct (accepted rt u) eqn:Hacc.
  - destruct (cache_get TTL (now_request w) u c) as [r|] eqn:Hget.
    + rewrite (handle_hit rt TTL w u c r Hacc Hget). cbn. auto.
    + rewrite (handle_miss rt TTL w u c Hacc Hget). cbn [fst].
      apply respond_miss_status.
  - unfold accepted in Hacc. unfold handle. cbn [truthy].
    destruct (String.eqb u ""); cbn [negb]; [cbn; auto|].
    cbn [andb negb] in Hacc.
    destruct (rt_URL_hostname rt u); [|cbn; auto]. rewrite Hacc. cbn. auto.
Qed.

(** X10.  What a successful analysis returns: the result carries at most
    the first 25 reviews while the analysis counts all of them, it is filed
    under the URL of the request with the title of the product, its price
    history has four points, and its processing time is the time between
    the request and the answer. *)
Theorem assemble_result (url : string) (productInfo : ProductObj)
    (reviews : list ReviewObj) (result : Result) :
  assemble rt w url productInfo reviews = Ok result ->
  r_reviews result = firstn 25 reviews
  /\ length (r_reviews result) = Nat.min 25 (length reviews)
  /\ a_reviewCount (r_analysis result) = length reviews
  /\ r_productUrl result = url
  /\ r_title result = o_title productInfo
  /\ length (pb_history (r_price result)) = 4%nat
  /\ r_processingTime result = now_response w - now_request w.
Proof.
  intros (x & pc & d & _ & Ea & ->)%assemble_steps. cbn.
  pose proof (deriveAnalysis_nonempty rt _ _ _ Ea) as (_ & _ & _ & Hn).
  repeat split; try assumption. apply length_firstn.
Qed.

End AnswerProps.

(** ** The handler: workers, traces and the cache *)

Section AdapterEvents.

Variable rt : Runtime.
Variable w : World.
Variables scriptPath arg : string.
Variable maxRetries : nat.

(** What a run of the adapter does to the outside. *)
Let run_event (ev : Event) : Prop :=
  match ev with
  | EvSpawn s a n => s = scriptPath /\ a = arg /\ (n <= maxRetries)%nat
  | EvSleep ms => exists n, (n < maxRetries)%nat /\ ms = getRetryDelay n
  end.

Lemma attempts_events remaining attempt lastError :
  (attempt + remaining = S maxRetries)%nat ->
  Forall run_event
    (fst (attempts rt w scriptPath arg maxRetries remaining attempt lastError)).
Proof.
  revert attempt lastError.
  induction remaining as [|k IH]; intros attempt lastError Hsum; [constructor|].
  rewrite attempts_unfold.
  destruct (attempt_outcome rt (worker w scriptPath arg attempt)) as [v|error].
  - repeat constructor. lia.
  - destruct (Nat.eqb_spec attempt maxRetries) as [->|Hne].
    + repeat constructor.
    + cbn [fst]. constructor; [repeat split; lia|].
      constructor; [exists attempt; split; [lia|reflexivity]|].
      apply IH. lia.
Qed.

End AdapterEvents.

Lemma spawn_count_app tr1 tr2 :
  spawn_count (tr1 ++ tr2) = (spawn_count tr1 + spawn_count tr2)%nat.
Proof. unfold spawn_count. now rewrite List.filter_app, length_app. Qed.

Lemma sleep_total_app tr1 tr2 : sleep_total (tr1 ++ tr2) = sleep_total tr1 + sleep_total tr2.
Proof.
  induction tr1 as [|ev tr1 IH]; [reflexivity|].
  cbn [app sleep_total fold_right]. fold (sleep_total (tr1 ++ tr2)). fold (sleep_total tr1).
  destruct ev; lia.
Qed.

(** A run with the default budget: one to three workers, on the script and
    the argument of the call, and at most three seconds of sleep. *)
Lemma runPythonScript_default_run rt w scriptPath arg :
  let tr := fst (runPythonScript rt w scriptPath arg MAX_RETRIES) in
  Forall (fun ev => match ev with
                    | EvSpawn s a n => s = scriptPath /\ a = arg /\ (n <= MAX_RETRIES)%nat
                    | EvSleep ms => ms = 1000 \/ ms = 2000
                    end) tr
  /\ (1 <= spawn_count tr <= 3)%nat
  /\ 0 <= sleep_total tr <= 3000.
Proof.
  cbv zeta. unfold runPythonScript. split; [|split].
  - eapply List.Forall_impl;
      [|apply (attempts_events rt w scriptPath arg MAX_RETRIES (S MAX_RETRIES) 0 None);
        reflexivity].
    intros [s a n|ms]; [auto|]. intros (n & Hn & ->). unfold MAX_RETRIES in Hn.
    destruct n as [|[|n]]; [left; reflexivity|right; reflexivity|lia].
  - split; [|apply attempts_spawn_count].
    destruct (attempts_head rt w scriptPath arg MAX_RETRIES MAX_RETRIES 0 None) as [tl ->].
    rewrite spawn_count_cons_spawn. lia.
  - destruct (attempts_shape rt w scriptPath arg MAX_RETRIES MAX_RETRIES 0 None eq_refl)
      as (_ & H2 & H3).
    rewrite H2. clear H2. cbn [Nat.add] in *. unfold MAX_RETRIES in H3.
    destruct (sleep_count _) as [|[|[|n]]]; [vm_compute; split; discriminate..|lia].
Qed.

Lemma scrapeAmazonProduct_trace rt w url :
  fst (scrapeAmazonProduct rt w url)
  = fst (runPythonScript rt w "scripts/product.py" url MAX_RETRIES).
Proof.
  unfold scrapeAmazonProduct. now destruct (runPythonScript _ _ _ _ _).
Qed.

Lemma analyzeReviews_trace rt w url :
  fst (analyzeReviews rt w url)
  = fst (runPythonScript rt w "scripts/script2.py" url MAX_RETRIES).
Proof.
  unfold analyzeReviews. now destruct (runPythonScript _ _ _ _ _).
Qed.

(** A result is filed under the URL of its request, with the title of the
    product. *)
Lemma assemble_filed rt w url productInfo reviews result :
  assemble rt w url productInfo reviews = Ok result ->
  r_productUrl result = url /\ r_title result = o_title productInfo.
Proof.
  intros (x & pc & d & _ & _ & ->)%assemble_steps. split; reflexivity.
Qed.

Section HandlerProps.

Variable rt : Runtime.
Variable TTL : Z.

Lemma handle_not_accepted w u c :
  accepted rt u = false ->
  exists message, handle rt w TTL (JStr u) c = (JsonError 400 message None, c, []).
Proof.
  intros Hacc. unfold accepted in Hacc. unfold handle. cbn [truthy].
  destruct (String.eqb u ""); cbn [negb]; [eauto|].
  cbn [andb negb] in Hacc.
  destruct (rt_URL_hostname rt u); [|eauto]. rewrite Hacc. cbn. eauto.
Qed.

Lemma handle_no_string w url c :
  (forall u, url <> JStr u) ->
  handle rt w TTL url c = (JsonError 400 "Valid URL is required" None, c, []).
Proof. intros H. destruct url; try reflexivity. now destruct (H s). Qed.

(** What a fresh result tells about the request that made it. *)
Lemma respond_miss_result w url c productData reviewsData result cached c' :
  respond_miss rt w url c productData reviewsData = (JsonResult result cached, c') ->
  cached = false /\ c' = cache_set (now_response w) url result c
  /\ exists productInfo,
       productData = Ok productInfo
       /\ primary_unusable (Ok productInfo) = false
       /\ assemble rt w url productInfo (reviews_of_settled reviewsData) = Ok result.
Proof.
  unfold respond_miss. destruct productData as [productInfo|e]; [|discriminate].
  destruct (primary_unusable (Ok productInfo)) eqn:Hp; [discriminate|].
  destruct (assemble _ _ _ _ _) as [r|error] eqn:Ha.
  - intros [= <- <- <-]. eauto 6.
  - unfold analysis_failed. case_ifs; discriminate.
Qed.

(** X11.  What a request does to the outside.  Either nothing at all, or
    the URL passed validation and missed the cache, and then: every worker
    started is the product worker on the URL of the request or the reviews
    worker on the reviews URL, at attempt 0, 1 or 2; between two and six
    workers are started; every sleep is of one or of two seconds, and they
    add up to six seconds at most. *)
Theorem handle_trace (w : World) (url : JsVal) (c : Cache) :
  let tr := snd (handle rt w TTL url c) in
  tr = []
  \/ exists u,
       url = JStr u /\ accepted rt u = true
       /\ cache_get TTL (now_request w) u c = None
       /\ Forall (request_event u) tr
       /\ (2 <= spawn_count tr <= 6)%nat
       /\ 0 <= sleep_total tr <= 6000.
Proof.
  cbv zeta. destruct url as [| | b | n | u | l | ps]; try (left; reflexivity).
  destruct (accepted rt u) eqn:Hacc.
  2:{ left. destruct (handle_not_accepted w u c Hacc) as [m ->]. reflexivity. }
  destruct (cache_get TTL (now_request w) u c) as [r|] eqn:Hget.
  { left. rewrite (handle_hit rt TTL w u c r Hacc Hget). reflexivity. }
  right. exists u. rewrite (handle_miss rt TTL w u c Hacc Hget). cbn [snd].
  rewrite scrapeAmazonProduct_trace, analyzeReviews_trace.
  destruct (runPythonScript_default_run rt w "scripts/product.py" u) as (F1 & S1 & T1).
  destruct (runPythonScript_default_run rt w "scripts/script2.py" (reviewsUrl_of u))
    as (F2 & S2 & T2).
  split; [reflexivity|]. split; [exact Hacc|]. split; [exact Hget|].
  rewrite spawn_count_app, sleep_total_app. split; [|lia].
  apply Forall_app. split.
  - eapply List.Forall_impl; [|exact F1]. intros [s a n|ms]; cbn; [|auto].
    intros (-> & -> & Hn). auto.
  - eapply List.Forall_impl; [|exact F2]. intros [s a n|ms]; cbn; [|auto].
    intros (-> & -> & Hn). auto.
Qed.

(** X12.  The handler reads what it wrote: after a request that was
    answered with a fresh result, the same URL asked again before [TTL]
    milliseconds have passed since that answer gets this very result,
    marked [cached]; its [lastUpdated] is the time of the new request, and
    nothing else of the result is changed.  No worker is started and the
    cache stays as it is. *)
Theorem handle_reads_its_write (w w' : World) (url : JsVal) (c c' : Cache)
    (result : Result) (tr : list Event) :
  handle rt w TTL url c = (JsonResult result false, c', tr) ->
  now_request w' - now_response w < TTL ->
  exists body,
    handle rt w' TTL url c' = (JsonResult body true, c', [])
    /\ r_lastUpdated body = rt_toISOString rt (now_request w')
    /\ r_title body = r_title result
    /\ r_productUrl body = r_productUrl result
    /\ r_asin body = r_asin result
    /\ r_price body = r_price result
    /\ r_rating_average body = r_rating_average result
    /\ r_rating_count body = r_rating_count result
    /\ r_availability body = r_availability result
    /\ r_images body = r_images result
    /\ r_features body = r_features result
    /\ r_description body = r_description result
    /\ r_reviews body = r_reviews result
    /\ r_analysis body = r_analysis result
    /\ r_processingTime body = r_processingTime result.
Proof.
  intros H Hage. destruct url as [| | b | n | u | l | ps]; try discriminate H.
  destruct (accepted rt u) eqn:Hacc.
  2:{ destruct (handle_not_accepted w u c Hacc) as [m Hm]. congruence. }
  destruct (cache_get TTL (now_request w) u c) as [r|] eqn:Hget.
  { rewrite (handle_hit rt TTL w u c r Hacc Hget) in H. discriminate H. }
  rewrite (handle_miss rt TTL w u c Hacc Hget) in H.
  injection H as H _.
  destruct (respond_miss rt w u c _ _) as [resp c0] eqn:Hr. cbn in H.
  injection H as -> ->.
  apply respond_miss_result in Hr as (_ & -> & _).
  rewrite (handle_hit rt TTL w' u _ result Hacc).
  - eexists. split; [reflexivity|]. apply with_lastUpdated_fields.
  - unfold cache_get, cache_set. rewrite lookup_insert_eq. cbn.
    destruct (Z.ltb_spec (now_request w' - now_response w) TTL); [reflexivity|lia].
Qed.

(** X13.  An entry of the handler's expires: the same URL asked again
    [TTL] milliseconds or more after the answer that was cached misses the
    cache, so the product worker is started again (and the answer is not
    marked [cached]). *)
Theorem handle_refetches_after_expiry (w w' : World) (url : JsVal) (c c' : Cache)
    (result : Result) (tr : list Event) :
  handle rt w TTL url c = (JsonResult result false, c', tr) ->
  TTL <= now_request w' - now_response w ->
  exists u tl,
    url = JStr u
    /\ snd (handle rt w' TTL url c') = EvSpawn "scripts/product.py" u 0 :: tl
    /\ forall r, fst (fst (handle rt w' TTL url c')) <> JsonResult r true.
Proof.
  intros H Hage. destruct url as [| | b | n | u | l | ps]; try discriminate H.
  destruct (accepted rt u) eqn:Hacc.
  2:{ destruct (handle_not_accepted w u c Hacc) as [m Hm]. congruence. }
  destruct (cache_get TTL (now_request w) u c) as [r|] eqn:Hget.
  { rewrite (handle_hit rt TTL w u c r Hacc Hget) in H. discriminate H. }
  rewrite (handle_miss rt TTL w u c Hacc Hget) in H.
  injection H as H _.
  destruct (respond_miss rt w u c _ _) as [resp c0] eqn:Hr. cbn in H.
  injection H as -> ->.
  apply respond_miss_result in Hr as (_ & -> & _).
  assert (Hmiss : cache_get TTL (now_request w') u (cache_set (now_response w) u result c)
                  = None).
  { unfold cache_get, cache_set. rewrite lookup_insert_eq. cbn.
    destruct (Z.ltb_spec (now_request w' - now_response w) TTL); [lia|reflexivity]. }
  rewrite (handle_miss rt TTL w' u _ Hacc Hmiss). cbn [fst snd].
  rewrite scrapeAmazonProduct_trace. unfold runPythonScript.
  destruct (attempts_head rt w' "scripts/product.py" u MAX_RETRIES MAX_RETRIES 0 None)
    as [tl Htl].
  exists u, (tl ++ fst (analyzeReviews rt w' (reviewsUrl_of u)))%list.
  split; [reflexivity|]. split; [rewrite Htl; reflexivity|].
  intros r0 Hr0.
  destruct (respond_miss rt w' u _ _ _) as [resp c0] eqn:Hr. cbn in Hr0. subst resp.
  apply respond_miss_result in Hr as (Hc & _). discriminate Hc.
Qed.

Lemma handle_entry_ok w url c :
  (forall k e, c !! k = Some e -> entry_ok rt k e) ->
  forall k e, snd (fst (handle rt w TTL url c)) !! k = Some e -> entry_ok rt k e.
Proof.
  intros Hc k e.
  destruct url as [| | b | n | u | l | ps]; try apply Hc.
  destruct (accepted rt u) eqn:Hacc.
  2:{ destruct (handle_not_accepted w u c Hacc) as [m ->]. apply Hc. }
  destruct (cache_get TTL (now_request w) u c) as [r|] eqn:Hget.
  { rewrite (handle_hit rt TTL w u c r Hacc Hget). apply Hc. }
  rewrite (handle_miss rt TTL w u c Hacc Hget). cbn [fst snd].
  destruct (respond_miss_cache rt w u c (snd (scrapeAmazonProduct rt w u))
              (snd (analyzeReviews rt w (reviewsUrl_of u))))
    as [[_ ->]|[result Hr]]; [apply Hc|].
  rewrite Hr. cbn [snd].
  apply respond_miss_result in Hr as (_ & _ & productInfo & _ & Hp & Ha).
  unfold cache_set. destruct (decide (u = k)) as [->|Hne].
  - rewrite lookup_insert_eq. intros [= <-]. unfold entry_ok. cbn [value].
    destruct (assemble_filed rt w _ _ _ _ Ha) as (Hu & Ht).
    rewrite Hu, Ht. cbn in Hp. apply orb_false_iff in Hp as [Hp1 Hp2].
    apply negb_false_iff in Hp1. auto.
  - rewrite lookup_insert_ne by exact Hne. apply Hc.
Qed.

(** X15.  Every entry of a cache the handler can have left behind is
    sound: its key is a URL that passes validation, the result stored under
    it is the result for that URL, and its title is usable (not empty, not
    "N/A").  So no failed request and no unusable snapshot is ever served
    from the cache. *)
Theorem reachable_entries_ok (c : Cache) (k : string) (e : CacheEntry) :
  reachable rt TTL c -> c !! k = Some e -> entry_ok rt k e.
Proof.
  intros Hreach. revert k e.
  induction Hreach as [|c w url Hreach IH].
  - intros k e H. rewrite lookup_empty in H. discriminate.
  - now apply handle_entry_ok.
Qed.

End HandlerProps.

(** ** The body of the request *)

(** X19.  What the endpoint makes of a body it cannot use.  When
    [request.json()] rejects, and when the body is [null] (destructuring it
    throws), the outer [catch] answers 500 "Failed to process request" with
    a message; any other body without a [url] that is a
    string is answered 400 "Valid URL is required".  In all three cases no
    process is started and the cache is left alone. *)
Theorem POST_unusable_body (rt : Runtime) (w : World) (TTL : Z) (c : Cache) :
  (forall e,
     POST rt w TTL (Throw e) c
     = (JsonError 500 "Failed to process request" (Some (exn_message e)), c, []))
  /\ (forall b, nullish b = true ->
        exists message,
          POST rt w TTL (Ok b) c
          = (JsonError 500 "Failed to process request" (Some message), c, []))
  /\ (forall b, nullish b = false -> (forall u, payload_field b "url" <> JStr u) ->
        POST rt w TTL (Ok b) c = (JsonError 400 "Valid URL is required" None, c, [])).
Proof.
  split; [|split].
  - reflexivity.
  - intros b Hb. destruct b; try discriminate Hb; eexists; reflexivity.
  - intros b Hb Hu. unfold POST. cbn [ebind].
    replace (destructure_prop b "url") with (get_prop b "url")
      by (destruct b; try discriminate Hb; reflexivity).
    rewrite (get_prop_payload _ _ Hb).
    destruct (payload_field b "url") as [| | x | n | u | l | ps]; try reflexivity.
    now destruct (Hu u).
Qed.

(** ** The reviews URL *)

Lemma append_cons c s t : String c s ++ t = String c (s ++ t).
Proof. reflexivity. Qed.

Lemma append_assoc3 (s t r : string) : (s ++ t) ++ r = s ++ t ++ r.
Proof. induction s as [|c s IH]; [reflexivity|]. rewrite !append_cons. now f_equal. Qed.

Lemma prefix_length pat s : String.prefix pat s = true -> (String.length pat <= String.length s)%nat.
Proof.
  revert s. induction pat as [|a pat IH]; intros s; [cbn; lia|].
  destruct s as [|b s]; cbn; [discriminate|].
  destruct (ascii_dec a b); [|discriminate]. intros H%IH. lia.
Qed.

Lemma prefix_app pat s t : String.prefix pat s = true -> String.prefix pat (s ++ t) = true.
Proof.
  revert s. induction pat as [|a pat IH]; intros s; [destruct (s ++ t); reflexivity|].
  destruct s as [|b s]; [discriminate|]. rewrite append_cons. cbn.
  destruct (ascii_dec a b); [apply IH|discriminate].
Qed.

Lemma prefix_app_inv pat s t :
  String.prefix pat (s ++ t) = true ->
  String.prefix pat s = true \/ (String.length s < String.length pat)%nat.
Proof.
  revert s. induction pat as [|a pat IH]; intros s; [left; now destruct s|].
  destruct s as [|b s]; [intros _; right; cbn; lia|]. rewrite append_cons. cbn.
  destruct (ascii_dec a b); [|discriminate].
  intros [H|H]%IH; [left; exact H|right; lia].
Qed.

Lemma includes_length s pat :
  includes s pat = true -> (String.length pat <= String.length s)%nat.
Proof.
  induction s as [|c s IH]; cbn [includes].
  - destruct (String.prefix pat "") eqn:E; [|discriminate].
    intros _. now apply prefix_length.
  - destruct (String.prefix pat (String c s)) eqn:E.
    + intros _. now apply prefix_length.
    + intros H%IH. cbn. lia.
Qed.

Lemma drop_chars_app n s t :
  (n <= String.length s)%nat -> drop_chars n (s ++ t) = drop_chars n s ++ t.
Proof.
  revert s. induction n as [|n IH]; intros s H; [reflexivity|].
  destruct s as [|c s]; cbn in *; [lia|]. apply IH. lia.
Qed.

Lemma replace_first_empty rep s : replace_first "" rep s = rep ++ s.
Proof. now destruct s. Qed.

(** A replacement that has its occurrence in [s] leaves what follows [s]
    alone. *)
Lemma replace_first_app pat rep s t :
  includes s pat = true ->
  replace_first pat rep (s ++ t) = replace_first pat rep s ++ t.
Proof.
  induction s as [|c s IH]; intros H.
  - cbn [includes] in H. destruct (String.prefix pat "") eqn:E; [|discriminate].
    destruct pat; [|discriminate]. rewrite !replace_first_empty.
    symmetry. apply append_assoc3.
  - pose proof (includes_length _ _ H) as Hlen.
    cbn [includes] in H. change (String c s ++ t) with (String c (s ++ t)).
    cbn [replace_first].
    destruct (String.prefix pat (String c s)) eqn:E.
    + change (String c (s ++ t)) with (String c s ++ t).
      rewrite (prefix_app _ _ t E), drop_chars_app by now apply prefix_length.
      symmetry. apply append_assoc3.
    + destruct (String.prefix pat (String c (s ++ t))) eqn:E'.
      * change (String c (s ++ t)) with (String c s ++ t) in E'.
        apply prefix_app_inv in E' as [E'|E']; [congruence|lia].
      * rewrite append_cons. f_equal. now apply IH.
Qed.

Lemma includes_char_cons q c s :
  includes (String c s) (String q "") = (Ascii.eqb q c || includes s (String q ""))%bool.
Proof.
  cbn [includes String.prefix].
  destruct (ascii_dec q c) as [->|Hne].
  - rewrite Ascii.eqb_refl. now destruct s.
  - apply Ascii.eqb_neq in Hne. now rewrite Hne.
Qed.

Lemma includes_char_nil q : includes "" (String q "") = false.
Proof. reflexivity. Qed.

Lemma includes_char_app q s t :
  includes (s ++ t) (String q "")
  = (includes s (String q "") || includes t (String q ""))%bool.
Proof.
  induction s as [|c s IH]; [reflexivity|].
  change (String c s ++ t) with (String c (s ++ t)).
  rewrite !includes_char_cons, IH. apply orb_assoc.
Qed.

Lemma includes_char_drop q n s :
  includes s (String q "") = false -> includes (drop_chars n s) (String q "") = false.
Proof.
  revert s. induction n as [|n IH]; intros s H; [exact H|].
  destruct s as [|c s]; [reflexivity|]. cbn [drop_chars]. apply IH.
  rewrite includes_char_cons in H. now apply orb_false_iff in H.
Qed.

Lemma includes_char_replace q pat rep s :
  includes s (String q "") = false -> includes rep (String q "") = false ->
  includes (replace_first pat rep s) (String q "") = false.
Proof.
  intros Hs Hrep. induction s as [|c s IH]; cbn [replace_first].
  - destruct (String.prefix pat ""); [|reflexivity].
    rewrite includes_char_app, Hrep. now apply includes_char_drop.
  - destruct (String.prefix pat (String c s)).
    + rewrite includes_char_app, Hrep. now apply includes_char_drop.
    + rewrite includes_char_cons in *. apply orb_false_iff in Hs as [H1 H2].
      rewrite H1. now apply IH.
Qed.

Lemma question_mark c : (nat_of_ascii c =? 63)%nat = Ascii.eqb "?" c.
Proof.
  destruct (Ascii.eqb_spec "?" c) as [<-|Hne]; [reflexivity|].
  apply Nat.eqb_neq. intros H. apply Hne.
  rewrite <- (ascii_nat_embedding c), H. reflexivity.
Qed.

Lemma strip_query_none s : includes s "?" = false -> strip_query s = s.
Proof.
  induction s as [|c s IH]; [reflexivity|]. rewrite includes_char_cons.
  intros [H1 H2]%orb_false_iff. cbn [strip_query]. rewrite question_mark, H1. cbn.
  f_equal. now apply IH.
Qed.

Lemma strip_query_app s q :
  includes s "?" = false -> has_line_terminator q = false ->
  strip_query (s ++ "?" ++ q) = s.
Proof.
  intros Hs Hq. induction s as [|c s IH].
  - change (strip_query (String "?" q) = ""). cbn [strip_query]. rewrite Hq. reflexivity.
  - rewrite includes_char_cons in Hs. apply orb_false_iff in Hs as [H1 H2].
    change (String c s ++ "?" ++ q) with (String c (s ++ "?" ++ q)).
    cbn [strip_query]. rewrite question_mark, H1. cbn. f_equal. now apply IH.
Qed.

(** X16.  The reviews URL does not depend on the query of the product
    URL: for a URL with "/dp/" in its path, the reviews worker is given the
    path with the first "/dp/" replaced by "/product-reviews/" and the fixed
    suffix, whatever follows the question mark (on one line). *)
Theorem reviewsUrl_of_ignores_query (u q : string) :
  includes u "/dp/" = true ->
  includes u "?" = false ->
  has_line_terminator q = false ->
  reviewsUrl_of (u ++ "?" ++ q) = reviewsUrl_of u
  /\ reviewsUrl_of u
     = replace_first "/dp/" "/product-reviews/" u
       ++ "/ref=cm_cr_dp_d_show_all_btm?pageNumber=1&sortBy=recent".
Proof.
  intros Hdp Hu Hq. unfold reviewsUrl_of.
  assert (Hr : includes (replace_first "/dp/" "/product-reviews/" u) "?" = false)
    by (apply includes_char_replace; [exact Hu|reflexivity]).
  rewrite (replace_first_app _ _ u ("?" ++ q) Hdp).
  rewrite (strip_query_app _ q Hr Hq), (strip_query_none _ Hr). split; reflexivity.
Qed.

(** ** The Python interpreter *)

Lemma getPythonPath_cases env :
  getPythonPath env
  = if match NODE_ENV env with
       | Some s => String.eqb s "production"
       | None => false
       end
    then "python"
    else if existsSync env (venvPythonPath env) then venvPythonPath env
         else if String.eqb (platform env) "win32" then "python" else "python3".
Proof.
  unfold getPythonPath, venvPythonPath. destruct (NODE_ENV env) as [s|]; [|reflexivity].
  repeat (destruct s as [|[[] [] [] [] [] [] [] []] s]; try reflexivity).
Qed.

(** X17.  [getPythonPath] gives the bare command "python" in production
    whatever is on the disk; everywhere it gives "python", "python3" or the
    interpreter of the project's [.venv], and the latter only outside
    production and if that file exists; without the file the bare command
    is "python" on Windows and "python3" elsewhere. *)
Theorem getPythonPath_choice (env : ProcessEnv) :
  (NODE_ENV env = Some "production" -> getPythonPath env = "python")
  /\ (getPythonPath env = "python" \/ getPythonPath env = "python3"
      \/ (getPythonPath env = venvPythonPath env
          /\ existsSync env (getPythonPath env) = true
          /\ NODE_ENV env <> Some "production"))
  /\ (NODE_ENV env <> Some "production" ->
      existsSync env (venvPythonPath env) = false ->
      getPythonPath env = if String.eqb (platform env) "win32" then "python" else "python3").
Proof.
  rewrite getPythonPath_cases. split; [|split].
  - intros ->. reflexivity.
  - destruct (NODE_ENV env) as [s|].
    + destruct (String.eqb_spec s "production") as [->|Hs]; [auto|].
      destruct (existsSync env (venvPythonPath env)) eqn:E;
        [right; right; repeat split; [exact E|congruence]|].
      destruct (String.eqb (platform env) "win32"); auto.
    + destruct (existsSync env (venvPythonPath env)) eqn:E;
        [right; right; repeat split; [exact E|congruence]|].
      destruct (String.eqb (platform env) "win32"); auto.
  - intros Hn ->. destruct (NODE_ENV env) as [s|]; [|reflexivity].
    destruct (String.eqb_spec s "production") as [->|Hs]; [congruence|reflexivity].
Qed.

(** ** The verdicts on the rating *)

Lemma SFcompare_antisym x y : SFcompare y x = option_map CompOpp (SFcompare x y).
Proof.
  destruct x as [sx|sx| |sx mx ex], y as [sy|sy| |sy my ey]; cbn;
    try reflexivity; try (destruct sx; reflexivity); try (destruct sy; reflexivity);
    try (destruct sx, sy; reflexivity).
  destruct sx, sy; try reflexivity; f_equal;
    rewrite (Z.compare_antisym ex ey); destruct (ex ?= ey) eqn:E; cbn; try reflexivity.
  - f_equal. apply ZC4.
  - apply ZC4.
Qed.

(** [a >= b] and [a < b] exclude one another, also on [NaN] and the
    infinities. *)
Lemma geb_not_ltb a b : geb a b = true -> PrimFloat.ltb a b = false.
Proof.
  unfold geb. rewrite leb_spec, ltb_spec. unfold SFleb, SFltb.
  rewrite (SFcompare_antisym (Prim2SF b) (Prim2SF a)).
  destruct (SFcompare (Prim2SF b) (Prim2SF a)) as [[]|]; cbn; congruence.
Qed.

Lemma in_singleton_if (b : bool) (x y : string) :
  In y (if b then [x] else []) -> b = true /\ y = x.
Proof. destruct b; cbn; [intros [<-|[]]; auto|intros []]. Qed.

Lemma says_In l s : says l s = true <-> In s l.
Proof.
  unfold says. rewrite existsb_exists. split.
  - intros (x & Hx & ->%String.eqb_eq). exact Hx.
  - intros H. exists s. split; [exact H|apply String.eqb_refl].
Qed.

Section Verdicts.

Variable rt : Runtime.

(** X18.  The pros and the cons never contradict one another on the
    rating: when the pros say "High customer rating of .../5.0", the cons
    do not say "Mixed or lower customer ratings". *)
Theorem rating_verdicts_exclusive (productInfo : ProductObj) (reviews : list ReviewObj)
    (a : Analysis) :
  deriveAnalysis rt productInfo reviews = Ok a ->
  says (pros a)
    ("High customer rating of " ++ rt_numToString rt (o_rating productInfo) ++ "/5.0")
  = true ->
  says (cons a) "Mixed or lower customer ratings" = false.
Proof.
  intros Ha Hpro%says_In. apply not_true_is_false. intros Hcon%says_In.
  revert Ha Hpro Hcon. unfold deriveAnalysis.
  destruct (sentimentAnalysis rt productInfo reviews) as [s|e]; cbn [ebind]; [|discriminate].
  destruct (keyInsightsOf rt productInfo reviews) as [k|e]; cbn [ebind]; [|discriminate].
  destruct (prosFound rt productInfo reviews) as [pr|e] eqn:Ep; cbn [ebind];
    [|discriminate].
  destruct (consFound rt productInfo reviews) as [co|e] eqn:Ec; cbn [ebind];
    [|discriminate].
  intros [= <-]. cbn [pros cons]. intros Hpro Hcon.
  assert (Hhigh : geb (avgRating_of rt productInfo) 4 = true).
  { revert Ep Hpro. unfold prosFound, prosDefault.
    destruct (if truthy (o_discount_percentage productInfo) then _ else _)
      as [p2|e] eqn:E2; cbn [ebind]; [|discriminate].
    assert (forall y, In y p2 ->
              exists text, y = "Currently " ++ text ++ "% off regular price") as Hp2.
    { revert E2. destruct (truthy _); [|intros [= <-] y []].
      destruct (parseInt rt _) as [discount|e]; cbn [ebind]; [|discriminate].
      destruct (geb discount 15); [|intros [= <-] y []].
      destruct (ToString rt _) as [text|e]; cbn [ebind]; [|discriminate].
      intros [= <-] y [<-|[]]. eauto. }
    destruct (availability_includes rt productInfo "in stock") as [inStock|e];
      cbn [ebind]; [|discriminate].
    destruct (review_share rt _ _ reviews) as [mostlyPositive|e]; cbn [ebind];
      [|discriminate].
    intros [= <-].
    destruct (length _ =? 0)%nat.
    - intros [H|H]; [discriminate H|].
      apply in_singleton_if in H as [_ H]. discriminate H.
    - rewrite !in_app_iff.
      intros [H|[H|[H|[H|H]]]].
      + now apply in_singleton_if in H as [Hb _].
      + apply Hp2 in H as [text H]. discriminate H.
      + apply in_singleton_if in H as [_ H]. discriminate H.
      + exfalso. revert H. case_ifs; intros H; cbn in H; try (destruct H as [H|H]);
          try discriminate H; destruct H.
      + apply in_singleton_if in H as [_ H]. discriminate H. }
  apply geb_not_ltb in Hhigh.
  revert Ec Hcon. unfold consFound, consDefault. rewrite Hhigh. cbn [andb].
  destruct (if negb (truthy (o_discount_percentage productInfo)) then _ else _)
    as [c2|e] eqn:E2; cbn [ebind]; [|discriminate].
  assert (forall y, In y c2 -> y = "Limited or no discount currently available") as Hc2.
  { revert E2. destruct (negb (truthy _)); [intros [= <-] y [<-|[]]; reflexivity|].
    destruct (parseInt rt _) as [discount|e]; cbn [ebind]; [|discriminate].
    intros [= <-] y. destruct (PrimFloat.ltb discount 5); [|intros []].
    intros [<-|[]]. reflexivity. }
  destruct (availability_includes rt productInfo "out of stock") as [outOfStock|e];
    cbn [ebind]; [|discriminate].
  destruct (review_share rt _ _ reviews) as [someNegative|e]; cbn [ebind];
    [|discriminate].
  intros [= <-]. cbn [app].
  destruct (length _ =? 0)%nat.
  - intros H. cbn in H. destruct H as [H|H]; [discriminate H|destruct H].
  - rewrite !in_app_iff.
    intros [H|[H|H]].
    + apply Hc2 in H. discriminate H.
    + apply in_singleton_if in H as [_ H]. discriminate H.
    + apply in_singleton_if in H as [_ H]. discriminate H.
Qed.

End Verdicts.

(** ** The further properties at the sample surroundings *)

(** The product worker of [flakyWorld] is blocked twice: three spawns, two
    sleeps, three seconds. *)
Lemma runPythonScript_first_success_witness :
  snd (runPythonScript refRuntime flakyWorld "scripts/product.py" sampleUrl MAX_RETRIES)
  = Ok sampleData
  /\ spawn_count
       (fst (runPythonScript refRuntime flakyWorld "scripts/product.py" sampleUrl
               MAX_RETRIES)) = 3%nat
  /\ sleep_count
       (fst (runPythonScript refRuntime flakyWorld "scripts/product.py" sampleUrl
               MAX_RETRIES)) = 2%nat
  /\ sleep_total
       (fst (runPythonScript refRuntime flakyWorld "scripts/product.py" sampleUrl
               MAX_RETRIES)) = RETRY_DELAY * (2 ^ Z.of_nat 2 - 1).
Proof.
  apply (runPythonScript_first_success refRuntime flakyWorld "scripts/product.py" sampleUrl
           MAX_RETRIES 2 sampleData).
  - unfold MAX_RETRIES. lia.
  - intros i Hi. destruct i as [|[|i]]; [vm_compute; reflexivity..|lia].
  - vm_compute. reflexivity.
Defined.

Lemma untitled_payload_rejected_witness :
  respond_miss refRuntime sampleWorld sampleUrl ∅
    (product_of_payload refRuntime (JObj [("price", JStr "4,499.00"); ("title", JStr "")]))
    (Ok [])
  = (unable_to_extract, ∅).
Proof.
  apply (untitled_payload_rejected refRuntime sampleWorld sampleUrl ∅
           (JObj [("price", JStr "4,499.00"); ("title", JStr "")]) (Ok [])).
  - reflexivity.
  - left. reflexivity.
Defined.

Lemma parseIndianPrice_digits_only_witness :
  parseIndianPrice refRuntime (JStr "$ 4,499.00") = parseIndianPrice refRuntime (JStr "4499.00").
Proof.
  apply (parseIndianPrice_digits_only refRuntime "$ 4,499.00" "4499.00");
    [discriminate..|reflexivity].
Defined.

Lemma deriveAnalysis_bounds_witness :
  exists a,
    deriveAnalysis refRuntime (obj_of_ProductData sampleProduct) thirtyReviews = Ok a
    /\ (1 <= length (keyInsights a) <= 4)%nat
    /\ (1 <= length (pros a) <= 5)%nat
    /\ (1 <= length (cons a) <= 4)%nat.
Proof.
  destruct (deriveAnalysis refRuntime (obj_of_ProductData sampleProduct) thirtyReviews)
    as [a|e] eqn:E; [|vm_compute in E; discriminate E].
  exists a. split; [reflexivity|].
  exact (deriveAnalysis_bounds refRuntime (obj_of_ProductData sampleProduct) thirtyReviews
           a E).
Defined.

(** Thirty reviews: all are counted, twenty-five are returned. *)
Lemma assemble_result_witness :
  exists result,
    assemble refRuntime sampleWorld sampleUrl (obj_of_ProductData sampleProduct)
      thirtyReviews = Ok result
    /\ length (r_reviews result) = 25%nat
    /\ a_reviewCount (r_analysis result) = 30%nat
    /\ r_processingTime result = 4200.
Proof.
  destruct (assemble refRuntime sampleWorld sampleUrl (obj_of_ProductData sampleProduct)
              thirtyReviews) as [result|e] eqn:E; [|vm_compute in E; discriminate E].
  exists result. split; [reflexivity|].
  destruct (assemble_result refRuntime sampleWorld sampleUrl
              (obj_of_ProductData sampleProduct) thirtyReviews result E)
    as (_ & H2 & H3 & _ & _ & _ & H7).
  split; [exact H2|]. split; [exact H3|exact H7].
Defined.

Lemma handle_reads_its_write_witness :
  exists r body,
    fst (fst sampleOutcome) = JsonResult r false
    /\ handle refRuntime laterWorld sampleTTL (JStr sampleUrl) sampleCache
       = (JsonResult body true, sampleCache, [])
    /\ r_lastUpdated body = "2026-11-03T06:41:00.000Z"
    /\ r_title body = r_title r
    /\ r_reviews body = r_reviews r.
Proof.
  destruct first_request as (result & Hout & _).
  destruct (handle_reads_its_write refRuntime sampleTTL sampleWorld laterWorld
              (JStr sampleUrl) ∅ _ result _ Hout) as (body & Hb & Hl & Hs).
  - vm_compute. reflexivity.
  - exists result, body. unfold sampleCache. rewrite Hout. cbn [fst snd].
    split; [reflexivity|]. split; [exact Hb|].
    split; [rewrite Hl; vm_compute; reflexivity|].
    destruct Hs as (Ht & _ & _ & _ & _ & _ & _ & _ & _ & _ & Hr & _).
    split; [exact Ht|exact Hr].
Defined.

Lemma handle_refetches_after_expiry_witness :
  exists tl,
    snd (handle refRuntime expiredWorld sampleTTL (JStr sampleUrl) sampleCache)
    = EvSpawn "scripts/product.py" sampleUrl 0 :: tl.
Proof.
  destruct first_request as (result & Hout & _).
  unfold sampleCache. rewrite Hout. cbn [fst snd].
  destruct (handle_refetches_after_expiry refRuntime sampleTTL sampleWorld expiredWorld
              (JStr sampleUrl) ∅ _ result _ Hout) as (u & tl & [= <-] & Htl & _).
  - vm_compute. discriminate.
  - exists tl. exact Htl.
Defined.

Lemma reachable_entries_ok_witness :
  exists e, sampleCache !! sampleUrl = Some e /\ entry_ok refRuntime sampleUrl e.
Proof.
  destruct sampleCache_entry as (e & He & _). exists e. split; [exact He|].
  exact (reachable_entries_ok refRuntime sampleTTL sampleCache sampleUrl e
           sampleCache_reachable He).
Defined.

Lemma reviewsUrl_of_ignores_query_witness :
  reviewsUrl_of ("https://www.amazon.in/dp/B0EXAMPLE" ++ "?" ++ "th=1")
  = reviewsUrl_of "https://www.amazon.in/dp/B0EXAMPLE"
  /\ reviewsUrl_of "https://www.amazon.in/dp/B0EXAMPLE"
     = replace_first "/dp/" "/product-reviews/" "https://www.amazon.in/dp/B0EXAMPLE"
       ++ "/ref=cm_cr_dp_d_show_all_btm?pageNumber=1&sortBy=recent".
Proof.
  apply (reviewsUrl_of_ignores_query "https://www.amazon.in/dp/B0EXAMPLE" "th=1");
    reflexivity.
Defined.

Lemma rating_verdicts_exclusive_witness :
  exists a,
    deriveAnalysis refRuntime (obj_of_ProductData sampleProduct) [] = Ok a
    /\ says (cons a) "Mixed or lower customer ratings" = false.
Proof.
  destruct (deriveAnalysis refRuntime (obj_of_ProductData sampleProduct) [])
    as [a|e] eqn:E; [|vm_compute in E; discriminate E].
  exists a. split; [reflexivity|].
  apply (rating_verdicts_exclusive refRuntime (obj_of_ProductData sampleProduct) [] a E).
  vm_compute in E. injection E as <-. vm_compute. reflexivity.
Defined.
